(** * NetLabX: the packet-path simulation engine, embedded and verified

    A shallow embedding of the routing simulator of NetLabX
    ([src/store/useNetworkStore.ts], [src/utils/subnetUtils.ts],
    [src/utils/ipValidator.ts], [src/utils/dnsResolver.ts],
    [src/utils/httpHandler.ts]) together with the properties its design
    document states about it.

    Conventions.
    - A JavaScript string is a [string]: the sequence of bytes of its UTF-8
      encoding.  Every separator the code splits on is ASCII, so splitting
      and comparing byte sequences agrees with splitting and comparing
      UTF-16 code units on well-formed strings.
    - A JavaScript number is a [JSNumber]: NaN, an infinity, or the exact
      rational value of a finite double.  The sign of zero is not kept: it
      is invisible to every operation the code applies ([&], [Set.has],
      [Number.isNaN], [<=], [join]).
    - Optional fields ([interfaces?.], [routingTable?], [port?]) are
      [option]s.
    - The only place where the simulator can throw is the non-null
      assertion [destDevice!.name]; a run is therefore a [Completion]. *)

From Stdlib Require Import String Ascii List ZArith NArith PArith Lia Bool.
From Stdlib Require Import DecimalString DecimalN DecimalZ DecimalNat DecimalPos.
From Stdlib Require Import Sorted Permutation.
Import ListNotations.

Local Open Scope list_scope.
Local Open Scope string_scope.

Set Implicit Arguments.

(** ** JavaScript primitives *)

Module JS.

(** *** Strings *)

Definition dot : ascii := "."%char.

(** [s.split('.')]: the pieces between the dots, never an empty array. *)
Fixpoint split (sep : ascii) (s : string) : list string :=
  match s with
  | EmptyString => [EmptyString]
  | String c rest =>
      if Ascii.eqb c sep then EmptyString :: split sep rest
      else match split sep rest with
           | piece :: pieces => String c piece :: pieces
           | [] => [String c EmptyString]
           end
  end.

(** [parts.join(sep)]. *)
Definition join (sep : string) (parts : list string) : string :=
  String.concat sep parts.

(** [`${parts[i]}`]: an index past the end reads [undefined], which a
    template literal prints as the word. *)
Definition templateAt (parts : list string) (i : nat) : string :=
  nth i parts "undefined".

(** One white-space or line-terminator character (ECMAScript
    [StrWhiteSpaceChar]) at the head of [s], in UTF-8: TAB, LF, VT, FF, CR,
    SP, U+00A0, U+1680, U+2000..U+200A, U+2028, U+2029, U+202F, U+205F,
    U+3000, U+FEFF.  Returns what follows it. *)
Definition stripWhiteSpaceChar (s : string) : option string :=
  (match s with
  | String c rest =>
      let n := nat_of_ascii c in
      if ((9 <=? n) && (n <=? 13)) || (n =? 32) then Some rest
      else match rest with
           | String c2 rest2 =>
               let n2 := nat_of_ascii c2 in
               if (n =? 194) && (n2 =? 160) then Some rest2
               else match rest2 with
                    | String c3 rest3 =>
                        let n3 := nat_of_ascii c3 in
                        if (n =? 225) && (n2 =? 154) && (n3 =? 128) then Some rest3
                        else if (n =? 226) && (n2 =? 128) &&
                                (((128 <=? n3) && (n3 <=? 138)) ||
                                 (n3 =? 168) || (n3 =? 169) || (n3 =? 175))
                             then Some rest3
                        else if (n =? 226) && (n2 =? 129) && (n3 =? 159) then Some rest3
                        else if (n =? 227) && (n2 =? 128) && (n3 =? 128) then Some rest3
                        else if (n =? 239) && (n2 =? 187) && (n3 =? 191) then Some rest3
                        else None
                    | EmptyString => None
                    end
           | EmptyString => None
           end
  | EmptyString => None
  end)%nat.

(** Drop the leading white space.  The fuel is the length of the string:
    each round removes at least one byte. *)
Fixpoint trimStartFuel (fuel : nat) (s : string) : string :=
  match fuel with
  | O => s
  | S fuel' =>
      match stripWhiteSpaceChar s with
      | Some rest => trimStartFuel fuel' rest
      | None => s
      end
  end.

Definition trimStart (s : string) : string := trimStartFuel (String.length s) s.

(** [s.trim() === '']: the string is made of white space only. *)
Definition isBlank (s : string) : bool :=
  match trimStart s with
  | EmptyString => true
  | _ => false
  end.

(** [s.trim()]: white space removed at both ends.  The end is trimmed by
    cutting at the last position from which only white space follows. *)
Fixpoint trimEnd (s : string) : string :=
  match s with
  | EmptyString => EmptyString
  | String c rest => if isBlank s then EmptyString else String c (trimEnd rest)
  end.

Definition trim (s : string) : string := trimEnd (trimStart s).

(** *** Digits *)

Definition digitValue (c : ascii) : option Z :=
  let n := nat_of_ascii c in
  (if (48 <=? n) && (n <=? 57) then Some (Z.of_nat (n - 48))
  else if (97 <=? n) && (n <=? 122) then Some (Z.of_nat (n - 87))
  else if (65 <=? n) && (n <=? 90) then Some (Z.of_nat (n - 55))
  else None)%nat.

Definition digitIn (radix : Z) (c : ascii) : option Z :=
  match digitValue c with
  | Some v => if (v <? radix)%Z then Some v else None
  | None => None
  end.

(** The longest prefix of [s] made of digits of [radix]: how many digits
    were read, their value (continuing from [acc]), and the rest. *)
Fixpoint readDigits (radix : Z) (s : string) (count : nat) (acc : Z)
  : nat * Z * string :=
  match s with
  | String c rest =>
      match digitIn radix c with
      | Some v => readDigits radix rest (S count) (acc * radix + v)%Z
      | None => (count, acc, s)
      end
  | EmptyString => (count, acc, s)
  end.

(** *** [parseInt(s)], no radix argument.  [None] is NaN.

    Leading white space is skipped, a sign is read, a [0x]/[0X] prefix
    selects radix 16, and the longest digit prefix is the value; trailing
    text is ignored.  The result is the mathematical integer: the code only
    compares it with 0 and 255, which rounding to a double preserves. *)
Definition readSign (s : string) : bool * string :=
  match s with
  | String "-" rest => (true, rest)
  | String "+" rest => (false, rest)
  | _ => (false, s)
  end.

Definition stripHexPrefix (s : string) : option string :=
  match s with
  | String "0" (String "x" rest) => Some rest
  | String "0" (String "X" rest) => Some rest
  | _ => None
  end.

Definition parseInt (s : string) : option Z :=
  let (negative, body) := readSign (trimStart s) in
  let '(count, value, _) :=
    match stripHexPrefix body with
    | Some hex => readDigits 16 hex 0 0
    | None => readDigits 10 body 0 0
    end in
  match count with
  | O => None
  | S _ => Some (if negative then (- value)%Z else value)
  end.

(** *** Numbers *)

(** A JavaScript number: NaN, an infinity, or a finite double given by its
    exact value [num/den]. *)
Inductive JSNumber : Type :=
| NaN
| Infinity (negative : bool)
| Finite (num : Z) (den : positive).

Definition ofZ (z : Z) : JSNumber := Finite z 1.

(** [Number.isNaN(x)]. *)
Definition isNaN (x : JSNumber) : bool :=
  match x with NaN => true | _ => false end.

(** SameValueZero, the equality of [Set.has] and [Array.includes]. *)
Definition sameValueZero (x y : JSNumber) : bool :=
  match x, y with
  | NaN, NaN => true
  | Infinity a, Infinity b => Bool.eqb a b
  | Finite n d, Finite n' d' => (n * Zpos d' =? n' * Zpos d)%Z
  | _, _ => false
  end.

(** ToInt32, applied by [&] to each operand. *)
Definition toInt32 (x : JSNumber) : Z :=
  match x with
  | Finite n d =>
      let w := ((Z.quot n (Zpos d)) mod 2 ^ 32)%Z in
      if (w >=? 2 ^ 31)%Z then (w - 2 ^ 32)%Z else w
  | _ => 0%Z
  end.

(** [a & b]. *)
Definition bitAnd (a b : JSNumber) : Z := Z.land (toInt32 a) (toInt32 b).

(** The decimal text of an integer, as [join] and template literals print
    it. *)
Definition intToString (z : Z) : string := NilZero.string_of_int (Z.to_int z).
Definition natToString (n : nat) : string := intToString (Z.of_nat n).

(** The double nearest to the positive rational [p/q], ties to even; the
    sign is attached afterwards.  [e] is the binary exponent of [p/q], [s]
    the exponent of the last place of its 53-bit significand (not below
    that of the subnormals), [m] the rounded significand. *)
Definition roundToDouble (negative : bool) (p q : positive) : JSNumber :=
  let e0 := (Z.log2 (Zpos p) - Z.log2 (Zpos q))%Z in
  let reaches :=
    if (0 <=? e0)%Z then (Zpos q * 2 ^ e0 <=? Zpos p)%Z
    else (Zpos q <=? Zpos p * 2 ^ (- e0))%Z in
  let e := if reaches then e0 else (e0 - 1)%Z in
  let s := Z.max (e - 52) (-1074) in
  let num := if (0 <=? s)%Z then Zpos p else (Zpos p * 2 ^ (- s))%Z in
  let den := if (0 <=? s)%Z then (Zpos q * 2 ^ s)%Z else Zpos q in
  let m0 := (num / den)%Z in
  let r := (num mod den)%Z in
  let m := match (2 * r ?= den)%Z with
           | Lt => m0
           | Gt => (m0 + 1)%Z
           | Eq => if Z.even m0 then m0 else (m0 + 1)%Z
           end in
  let signed := if negative then (- m)%Z else m in
  if (0 <=? s)%Z then
    if (2 ^ 1024 <=? m * 2 ^ s)%Z then Infinity negative
    else Finite (signed * 2 ^ s) 1
  else Finite signed (Z.to_pos (2 ^ (- s))).

Definition roundZ (negative : bool) (p : Z) (q : positive) : JSNumber :=
  match p with
  | Zpos p' => roundToDouble negative p' q
  | _ => Finite 0 1
  end.

(** A hexadecimal, octal or binary integer literal ([0x1F], [0o17],
    [0b101]) covering the whole text; these take no sign. *)
Definition nonDecimalLiteral (t : string) : option Z :=
  match t with
  | String "0" (String k digits) =>
      let radix :=
        if Ascii.eqb k "x" || Ascii.eqb k "X" then Some 16%Z
        else if Ascii.eqb k "o" || Ascii.eqb k "O" then Some 8%Z
        else if Ascii.eqb k "b" || Ascii.eqb k "B" then Some 2%Z
        else None in
      match radix with
      | Some r =>
          match readDigits r digits 0 0 with
          | (S _, v, EmptyString) => Some v
          | _ => None
          end
      | None => None
      end
  | _ => None
  end.

(** The exponent part [e±ddd] covering the rest of the text, or nothing. *)
Definition exponentPart (rest : string) : option Z :=
  match rest with
  | EmptyString => Some 0%Z
  | String k more =>
      if Ascii.eqb k "e" || Ascii.eqb k "E" then
        let (negative, digits) := readSign more in
        match readDigits 10 digits 0 0 with
        | (S _, v, EmptyString) => Some (if negative then (- v)%Z else v)
        | _ => None
        end
      else None
  end.

(** A decimal literal without its sign: [Infinity], or digits with an
    optional fraction and exponent, at least one digit in all. *)
Definition decimalLiteral (negative : bool) (body : string) : JSNumber :=
  if String.eqb body "Infinity" then Infinity negative
  else
    let '(ci, vi, rest1) := readDigits 10 body 0 0 in
    let '(cf, v, rest2) :=
      match rest1 with
      | String "." frac => readDigits 10 frac 0 vi
      | _ => (O, vi, rest1)
      end in
    match (ci + cf)%nat, exponentPart rest2 with
    | S _, Some ex =>
        let k := (ex - Z.of_nat cf)%Z in
        if (0 <=? k)%Z then roundZ negative (v * 10 ^ k) 1
        else roundZ negative v (Z.to_pos (10 ^ (- k)))
    | _, _ => NaN
    end.

(** [Number(s)] on a string (ECMAScript StringToNumber): the text is
    trimmed, the empty text is 0, a literal covering the whole text is its
    value rounded to a double, and anything else is NaN. *)
Definition Number (s : string) : JSNumber :=
  let t := trim s in
  match t with
  | EmptyString => Finite 0 1
  | _ =>
      match nonDecimalLiteral t with
      | Some v => roundZ false v 1
      | None => let (negative, body) := readSign t in decimalLiteral negative body
      end
  end.

End JS.

Import JS.

Definition nl : string := String (ascii_of_nat 10) EmptyString.

(** ** The data model ([src/types/index.ts])

    Each interface is a record in a module of its name, so that fields keep
    the names they have in the source ([Device.ip], [NetworkInterface.ip]).
    Fields no modelled function reads ([position], [gateway], [dnsServer],
    [domain], [connectedTo]) are left out. *)

Inductive DeviceType : Type := router | pc | server | dns | web.

Definition DeviceType_eqb (a b : DeviceType) : bool :=
  match a, b with
  | router, router | pc, pc | server, server | dns, dns | web, web => true
  | _, _ => false
  end.

(** The string a [DeviceType] is in the source. *)
Definition typeString (t : DeviceType) : string :=
  match t with
  | router => "router" | pc => "pc" | server => "server"
  | dns => "dns" | web => "web"
  end.

(** [type.toUpperCase()]. *)
Definition typeUpperCase (t : DeviceType) : string :=
  match t with
  | router => "ROUTER" | pc => "PC" | server => "SERVER"
  | dns => "DNS" | web => "WEB"
  end.

Module NetworkInterface.
Record t : Type := mk {
  id : option string;
  name : string;
  ip : string;
  subnet : option string;
  subnetMask : option string
}.
End NetworkInterface.

Module RouteEntry.
(** [metric] is a number in the source; routing tables hold integer
    weights, and the model takes it in [Z].  Messages print it digit by
    digit, as JavaScript does for an integer below 10^21. *)
Record t : Type := mk {
  destination : string;
  nextHop : string;
  metric : Z;
  interface : string
}.

Definition eqb (a b : t) : bool :=
  String.eqb (destination a) (destination b) &&
  String.eqb (nextHop a) (nextHop b) &&
  Z.eqb (metric a) (metric b) &&
  String.eqb (interface a) (interface b).
End RouteEntry.

Module DNSRecord.
Record t : Type := mk {
  id : string;
  domain : string;
  ip : string
}.
End DNSRecord.

Module Device.
Record t : Type := mk {
  id : string;
  name : string;
  type : DeviceType;
  ip : string;
  interfaces : option (list NetworkInterface.t);
  routingTable : option (list RouteEntry.t);
  dnsRecords : option (list DNSRecord.t);
  webContent : option string;
  port : option Z
}.
End Device.

Module Connection.
Record t : Type := mk {
  id : string;
  source : string;
  target : string;
  sourceInterfaceId : option string;
  targetInterfaceId : option string
}.
End Connection.

Module Step.
Record t : Type := mk {
  router : string;
  action : string;
  routeEntry : option RouteEntry.t
}.
End Step.

Module SimulationResult.
Record t : Type := mk {
  success : bool;
  path : list string;
  message : string;
  steps : list Step.t;
  isRoundTrip : option bool;
  requestPath : option (list string);
  responsePath : option (list string);
  requestLabel : option string;
  responseLabel : option string;
  httpSuccess : option bool;
  httpStatusCode : option Z
}.

(** An object literal with the four mandatory fields only. *)
Definition plain (success : bool) (path : list string) (message : string)
  (steps : list Step.t) : t :=
  mk success path message steps None None None None None None None.
End SimulationResult.

(** How a call ends: with a value, or with the TypeError of reading a
    property of [undefined]. *)
Inductive Completion (A : Type) : Type :=
| Returned (value : A)
| ThrownTypeError.
Arguments ThrownTypeError {A}.

(** [xs?.some(p)] and [xs && xs.some(p)]: false when [xs] is absent. *)
Definition someOf {A : Type} (p : A -> bool) (xs : option (list A)) : bool :=
  match xs with
  | Some l => existsb p l
  | None => false
  end.

(** [xs || []]. *)
Definition orEmpty {A : Type} (xs : option (list A)) : list A :=
  match xs with
  | Some l => l
  | None => []
  end.

(** [l.map((x, i) => f x i)]. *)
Definition mapi {A B : Type} (f : A -> nat -> B) (l : list A) : list B :=
  map (fun p => f (snd p) (fst p)) (combine (seq 0 (length l)) l).

(** ** Subnet utilities ([src/utils/subnetUtils.ts]) *)

(** [calculateSubnet(ip, subnetMask)].  Nothing in the [try] block can
    throw on strings, so the [catch] branch is never taken.  [maskParts[i]]
    past the end would read [undefined], which [&] takes as 0, like NaN. *)
Definition calculateSubnet (ip subnetMask : string) : string :=
  let ipParts := map Number (split dot ip) in
  let maskParts := map Number (split dot subnetMask) in
  if negb (length ipParts =? 4)%nat || negb (length maskParts =? 4)%nat then ""
  else
    let subnetParts := mapi (fun octet i => bitAnd octet (nth i maskParts NaN)) ipParts in
    join "." (map intToString subnetParts).

(** [p < z] and [p > z] on numbers; a comparison with NaN is false. *)
Definition ltZ (p : JSNumber) (z : Z) : bool :=
  match p with
  | Finite n d => (n <? z * Zpos d)%Z
  | Infinity negative => negative
  | NaN => false
  end.

Definition gtZ (p : JSNumber) (z : Z) : bool :=
  match p with
  | Finite n d => (z * Zpos d <? n)%Z
  | Infinity negative => negb negative
  | NaN => false
  end.

Definition validMasks : list string :=
  ["255.255.255.0"; "255.255.0.0"; "255.0.0.0"; "255.255.255.128";
   "255.255.255.192"; "255.255.255.224"; "255.255.255.240";
   "255.255.255.248"; "255.255.255.252"].

(** [isValidSubnetMask(mask)]. *)
Definition isValidSubnetMask (mask : string) : bool :=
  let parts := map Number (split dot mask) in
  if negb (length parts =? 4)%nat then false
  else if existsb (fun p => isNaN p || ltZ p 0 || gtZ p 255) parts then false
  else existsb (String.eqb mask) validMasks.

(** ** Address validation ([src/utils/ipValidator.ts]) *)

Module Validation.
Record t : Type := mk { valid : bool; error : option string }.
End Validation.

Definition isDigit (c : ascii) : bool :=
  let n := nat_of_ascii c in ((48 <=? n) && (n <=? 57))%nat.

Fixpoint allDigits (s : string) : bool :=
  match s with
  | EmptyString => true
  | String c rest => isDigit c && allDigits rest
  end.

(** A capture group [(\d{1,3})]. *)
Definition isOctetText (s : string) : bool :=
  allDigits s && (1 <=? String.length s)%nat && (String.length s <=? 3)%nat.

(** [ip.match(/^(\d{1,3})\.(\d{1,3})\.(\d{1,3})\.(\d{1,3})$/)]: the four
    captured groups.  The pattern is anchored at both ends and a digit group
    holds no dot, so it matches exactly when the text splits at its dots
    into four groups of one to three ASCII digits. *)
Definition matchIpPattern (ip : string) : option (list string) :=
  let groups := split dot ip in
  if (length groups =? 4)%nat && forallb isOctetText groups then Some groups
  else None.

(** The range-check loop over the four segments: the first segment out of
    range, with its index. *)
Fixpoint firstOutOfRange (segments : list (option Z)) (i : nat) : option (nat * option Z) :=
  match segments with
  | [] => None
  | segment :: rest =>
      match segment with
      | Some v => if (v <? 0)%Z || (255 <? v)%Z then Some (i, segment)
                  else firstOutOfRange rest (S i)
      | None => firstOutOfRange rest (S i)
      end
  end.

Definition numberText (n : option Z) : string :=
  match n with
  | Some v => intToString v
  | None => "NaN"
  end.

Definition segmentIs (segments : list (option Z)) (i : nat) (v : Z) : bool :=
  match nth i segments None with
  | Some x => (x =? v)%Z
  | None => false
  end.

(** [validateIPAddress(ip)]. *)
Definition validateIPAddress (ip : string) : Validation.t :=
  if String.eqb ip "" || String.eqb (trim ip) "" then
    Validation.mk false (Some "IP地址不能为空")
  else
    match matchIpPattern ip with
    | None =>
        Validation.mk false
          (Some "IP地址格式错误，应由4个0-255的十进制数字组成（如 192.168.1.1）")
    | Some groups =>
        let segments := map parseInt groups in
        match firstOutOfRange segments 0 with
        | Some (i, segment) =>
            Validation.mk false
              (Some ("IP地址第" ++ natToString (i + 1) ++ "段（" ++ numberText segment
                     ++ "）超出范围，必须在 0-255 之间"))
        | None =>
            if segmentIs segments 0 0 then
              Validation.mk false
                (Some ("真实设备IP不能以0开头（0.0.0.0是特殊地址，表示" ++
                       String (ascii_of_nat 34) "所有地址" ++
                       String (ascii_of_nat 34) "）"))
            else if segmentIs segments 0 127 then
              Validation.mk false
                (Some "保留的回环地址（127.x.x.x用于本机测试），请使用其他IP段")
            else if segmentIs segments 0 255 then
              Validation.mk false (Some "无效的IP地址（255开头为广播地址）")
            else if segmentIs segments 3 0 then
              Validation.mk false
                (Some "IP地址的最后一段不能为0（如 192.168.1.0 是网段地址，不能分配给设备）")
            else if segmentIs segments 3 255 then
              Validation.mk false
                (Some "IP地址的最后一段不能为255（如 192.168.1.255 是广播地址，不能分配给设备）")
            else Validation.mk true None
        end
    end.

(** ** The store's helpers ([src/store/useNetworkStore.ts]) *)

Definition DEFAULT_SUBNET_MASK : string := "255.255.255.0".
Definition BACKBONE_PREFIX_PARTS : list string := ["10"; "0"].

(** [deriveSubnet(ip, mask)]. *)
Definition deriveSubnet (ip mask : string) : string :=
  let calculated := calculateSubnet ip mask in
  if negb (String.eqb calculated "") then calculated
  else
    let parts := split dot ip in
    if (3 <=? length parts)%nat then
      templateAt parts 0 ++ "." ++ templateAt parts 1 ++ "." ++ templateAt parts 2 ++ ".0"
    else "0.0.0.0".

Definition isRouterDevice (device : Device.t) : bool :=
  DeviceType_eqb (Device.type device) router.

(** *** The backbone allocator *)

(** A [Set<number>]: its elements without repetition. *)
Definition NumberSet : Type := list JSNumber.

Definition setHas (used : NumberSet) (x : JSNumber) : bool :=
  existsb (sameValueZero x) used.

Definition setAdd (used : NumberSet) (x : JSNumber) : NumberSet :=
  if setHas used x then used else (used ++ [x])%list.

(** The body of the inner [forEach] of [collectUsedBackboneIndices]. *)
Definition collectInterface (used : NumberSet) (iface : NetworkInterface.t) : NumberSet :=
  if String.eqb (NetworkInterface.ip iface) "" || String.eqb (NetworkInterface.name iface) "LAN"
  then used
  else
    let parts := split dot (NetworkInterface.ip iface) in
    if (length parts <? 3)%nat then used
    else if String.eqb (nth 0 parts "") (nth 0 BACKBONE_PREFIX_PARTS "") &&
            String.eqb (nth 1 parts "") (nth 1 BACKBONE_PREFIX_PARTS "") then
      let idx := Number (nth 2 parts "") in
      if negb (isNaN idx) then setAdd used idx else used
    else used.

(** The body of the outer [forEach]. *)
Definition collectDevice (used : NumberSet) (device : Device.t) : NumberSet :=
  if negb (isRouterDevice device) then used
  else fold_left collectInterface (orEmpty (Device.interfaces device)) used.

(** [collectUsedBackboneIndices(devices)]. *)
Definition collectUsedBackboneIndices (devices : list Device.t) : NumberSet :=
  fold_left collectDevice devices [].

(** [while (used.has(index)) index++].  Each round that continues has found
    a new member of [used], so the condition fails within [length used]
    rounds (lemma [firstUnused_spec]); [budget] counts the tests left. *)
Fixpoint firstUnused (used : NumberSet) (budget index : nat) : nat :=
  match budget with
  | O => index
  | S budget' =>
      if setHas used (ofZ (Z.of_nat index)) then firstUnused used budget' (S index)
      else index
  end.

Module Backbone.
Record t : Type := mk { subnet : string; sourceIP : string; targetIP : string }.
End Backbone.

Definition backboneAddress (index : nat) (host : string) : string :=
  nth 0 BACKBONE_PREFIX_PARTS "" ++ "." ++ nth 1 BACKBONE_PREFIX_PARTS "" ++ "."
  ++ natToString index ++ "." ++ host.

Definition allocatedIndex (devices : list Device.t) : nat :=
  let used := collectUsedBackboneIndices devices in
  firstUnused used (S (length used)) 0.

(** [allocateBackboneNetwork(devices)]. *)
Definition allocateBackboneNetwork (devices : list Device.t) : Backbone.t :=
  let index := allocatedIndex devices in
  Backbone.mk (backboneAddress index "0") (backboneAddress index "1")
    (backboneAddress index "2").

(** ** The path resolver *)

(** [getNetwork(ip)]. *)
Definition getNetwork (ip : string) : string :=
  let parts := split dot ip in
  templateAt parts 0 ++ "." ++ templateAt parts 1 ++ "." ++ templateAt parts 2 ++ ".0".

(** [hasPhysicalConnection(deviceA, deviceB, connections)]. *)
Definition hasPhysicalConnection (deviceA deviceB : Device.t)
  (connections : list Connection.t) : bool :=
  existsb
    (fun c =>
       (String.eqb (Connection.source c) (Device.id deviceA) &&
        String.eqb (Connection.target c) (Device.id deviceB)) ||
       (String.eqb (Connection.source c) (Device.id deviceB) &&
        String.eqb (Connection.target c) (Device.id deviceA)))
    connections.

(** [validateIP(ip)] of the store: four parts, each read by [parseInt] as a
    number from 0 to 255. *)
Definition validateIP (ip : string) : bool :=
  let parts := split dot ip in
  if negb (length parts =? 4)%nat then false
  else
    forallb
      (fun part =>
         match parseInt part with
         | Some num => (0 <=? num)%Z && (num <=? 255)%Z
         | None => false
         end)
      parts.

(** *** Choosing a route at a router *)

(** [matchingRoutes.sort((a, b) => a.metric - b.metric)]: a stable sort,
    ascending by metric.  [insertRoute] puts an entry before the first one
    that is not lighter, so entries of equal metric keep their order. *)
Fixpoint insertRoute (r : RouteEntry.t) (sorted : list RouteEntry.t) : list RouteEntry.t :=
  match sorted with
  | [] => [r]
  | x :: rest =>
      if (RouteEntry.metric r <=? RouteEntry.metric x)%Z then r :: sorted
      else x :: insertRoute r rest
  end.

Definition sortByMetric (routes : list RouteEntry.t) : list RouteEntry.t :=
  fold_right insertRoute [] routes.

(** The routes matching the destination: those for the exact address, and
    only when there is none, those for its network. *)
Definition matchingRoutes (routingTable : list RouteEntry.t) (destIP destNetwork : string)
  : list RouteEntry.t :=
  match filter (fun r => String.eqb (RouteEntry.destination r) destIP) routingTable with
  | [] => filter (fun r => String.eqb (RouteEntry.destination r) destNetwork) routingTable
  | exact => exact
  end.

(** The three spellings of a directly attached network. *)
Definition isDirect (nextHop : string) : bool :=
  String.eqb nextHop "-" || String.eqb nextHop "直连" || String.eqb nextHop "0.0.0.0".

Module FailedRoute.
Record t : Type := mk { nextHop : string; metric : Z; reason : string }.
End FailedRoute.

(** The next-hop router of a forwarding route: by name first, then the
    first router owning an interface with that address. *)
Definition findNextRouter (devices : list Device.t) (nextHop : string) : option Device.t :=
  match find (fun d => String.eqb (Device.name d) nextHop) devices with
  | Some d => Some d
  | None =>
      find (fun d =>
              DeviceType_eqb (Device.type d) router &&
              someOf (fun iface => String.eqb (NetworkInterface.ip iface) nextHop)
                     (Device.interfaces d))
           devices
  end.

(** The nested loops looking for an interface of each router on a common
    network. *)
Definition hasCommonNetwork (currentDevice nextRouter : Device.t) : bool :=
  existsb
    (fun currentIface =>
       existsb
         (fun nextIface =>
            String.eqb (getNetwork (NetworkInterface.ip currentIface))
                       (getNetwork (NetworkInterface.ip nextIface)))
         (orEmpty (Device.interfaces nextRouter)))
    (orEmpty (Device.interfaces currentDevice)).

(** One round of the loop over the sorted candidates: [None] when the
    candidate is usable ([route = candidateRoute; break]), otherwise the
    record pushed on [failedRoutes] before [continue]. *)
Definition attemptRoute (devices : list Device.t) (connections : list Connection.t)
  (currentDevice : Device.t) (destIP destNetwork : string)
  (candidateRoute : RouteEntry.t) : option FailedRoute.t :=
  let metric := RouteEntry.metric candidateRoute in
  let nextHop := RouteEntry.nextHop candidateRoute in
  if isDirect nextHop then
    match find (fun d => String.eqb (Device.ip d) destIP) devices with
    | None => Some (FailedRoute.mk "直连" metric ("目标IP " ++ destIP ++ " 不存在"))
    | Some destDevice =>
        let hasInterface :=
          someOf (fun iface => String.eqb (getNetwork (NetworkInterface.ip iface)) destNetwork)
                 (Device.interfaces currentDevice) in
        if negb hasInterface then
          Some (FailedRoute.mk "直连" metric "路由器没有该网段的接口")
        else if negb (hasPhysicalConnection currentDevice destDevice connections) then
          Some (FailedRoute.mk "直连" metric "物理连接断开")
        else None
    end
  else
    match findNextRouter devices nextHop with
    | None => Some (FailedRoute.mk nextHop metric "下一站路由器不存在")
    | Some nextRouter =>
        if negb (DeviceType_eqb (Device.type nextRouter) router) then
          Some (FailedRoute.mk nextHop metric
                  ("不是路由器(" ++ typeString (Device.type nextRouter) ++ ")"))
        else if negb (hasPhysicalConnection currentDevice nextRouter connections) then
          Some (FailedRoute.mk nextHop metric "物理连接断开")
        else if negb (hasCommonNetwork currentDevice nextRouter) then
          Some (FailedRoute.mk nextHop metric "接口配置错误(没有共同网段)")
        else None
    end.

(** [for (const candidateRoute of sortedRoutes)]: the route the loop broke
    on, if any, and the failures recorded on the way. *)
Fixpoint tryRoutes (devices : list Device.t) (connections : list Connection.t)
  (currentDevice : Device.t) (destIP destNetwork : string)
  (sortedRoutes : list RouteEntry.t) (failedRoutes : list FailedRoute.t)
  : option RouteEntry.t * list FailedRoute.t :=
  match sortedRoutes with
  | [] => (None, failedRoutes)
  | candidateRoute :: rest =>
      match attemptRoute devices connections currentDevice destIP destNetwork candidateRoute with
      | Some failure =>
          tryRoutes devices connections currentDevice destIP destNetwork rest
                    (failedRoutes ++ [failure])%list
      | None => (Some candidateRoute, failedRoutes)
      end
  end.

(** [sortedRoutes.indexOf(route)], here on a member of the array.  Entries
    are objects in the source and compared by reference; the model compares
    their fields, which finds the same index because entries with the same
    fields fare alike in [attemptRoute] (lemma [tryRoutes_index]). *)
Fixpoint indexOf (routes : list RouteEntry.t) (route : RouteEntry.t) : nat :=
  match routes with
  | [] => O
  | x :: rest => if RouteEntry.eqb x route then O else S (indexOf rest route)
  end.

(** [failedRoutes.slice(0, n)]. *)
Definition sliceTo {A : Type} (n : nat) (l : list A) : list A := firstn n l.

(** *** The messages *)

Definition endpointLabel (device : Device.t) : string :=
  match Device.type device with
  | pc => "PC " ++ Device.name device
  | t => typeUpperCase t ++ " " ++ Device.name device
  end.

Definition msgBadSource (sourceIP : string) : string :=
  "❌ 源IP地址格式错误: " ++ sourceIP.
Definition msgBadDest (destIP : string) : string :=
  "❌ 目标IP地址格式错误: " ++ destIP.
Definition msgNoSource (sourceIP : string) : string :=
  "❌ 找不到源IP " ++ sourceIP ++ " 对应的设备".
Definition msgSameDevice : string := "✅ 源和目标是同一设备".
Definition msgArrived (hopCount : nat) : string :=
  "✅ 成功到达目的地！经过了 " ++ natToString hopCount ++ " 跳".
Definition msgNoGateway (device : Device.t) (currentNetwork : string) : string :=
  "❌ " ++ endpointLabel device ++ " (" ++ Device.ip device ++ ") 找不到默认网关" ++ nl
  ++ "网段: " ++ currentNetwork.
Definition msgNoLink (device gateway : Device.t) : string :=
  "❌ " ++ endpointLabel device ++ " 和网关 " ++ Device.name gateway
  ++ " 之间没有物理连接线！" ++ nl ++ "请先用 Shift+点击 连接这两个设备。".
Definition msgEmptyTable (device : Device.t) : string :=
  "❌ 路由器 " ++ Device.name device ++ " 的路由表为空！" ++ nl ++ "请配置路由表。".
Definition msgNoRoute (device : Device.t) (destIP destNetwork : string)
  (routingTable : list RouteEntry.t) : string :=
  "❌ 路由器 " ++ Device.name device ++ " 的路由表中没有到达 " ++ destIP ++ " ("
  ++ destNetwork ++ ") 的路由！" ++ nl ++ "当前路由表只有: "
  ++ join ", " (map RouteEntry.destination routingTable).
Definition failedInfo (failedRoutes : list FailedRoute.t) : string :=
  join ", "
    (map (fun f => FailedRoute.nextHop f ++ "(权重" ++ intToString (FailedRoute.metric f)
                   ++ ", " ++ FailedRoute.reason f ++ ")")
         failedRoutes).
Definition msgAllFailed (device : Device.t) (destIP : string)
  (failedRoutes : list FailedRoute.t) : string :=
  "❌ 路由器 " ++ Device.name device ++ " 的所有路由都不可用！" ++ nl ++ "目标: " ++ destIP
  ++ nl ++ "尝试过的路由: " ++ failedInfo failedRoutes ++ nl ++ nl
  ++ "请检查物理连接或路由配置。".
Definition msgStuck (device : Device.t) : string :=
  "❌ 在 " ++ Device.name device ++ " 无法继续转发".
Definition msgLoop (nextDevice : Device.t) (path : list string) : string :=
  "❌ 检测到路由环路！设备 " ++ Device.name nextDevice ++ " 已经访问过。" ++ nl
  ++ "路径: " ++ join " → " path.
Definition msgMaxHops (maxHops : nat) : string :=
  "❌ 超过最大跳数限制 (" ++ natToString maxHops ++ "跳)，可能存在路由环路".

Definition actionToGateway (device gateway : Device.t) : string :=
  endpointLabel device ++ " 发送数据到默认网关 " ++ Device.name gateway.
Definition skippedRoutes (failedRoutes : list FailedRoute.t) (routeIndex : nat) : string :=
  join ", "
    (map (fun f => FailedRoute.nextHop f ++ "(权重" ++ intToString (FailedRoute.metric f) ++ ")")
         (sliceTo routeIndex failedRoutes)).
Definition actionBackup (failedRoutes : list FailedRoute.t) (routeIndex : nat)
  (route : RouteEntry.t) : string :=
  "⚠️ 最优路由不可用 [" ++ skippedRoutes failedRoutes routeIndex ++ "]，使用备用路由: "
  ++ RouteEntry.nextHop route ++ "(权重" ++ intToString (RouteEntry.metric route) ++ ")".
Definition actionLookup (destNetwork : string) (route : RouteEntry.t) : string :=
  "查找路由表: 目标网段 " ++ destNetwork ++ ", 下一站 " ++ RouteEntry.nextHop route
  ++ ", 权重 " ++ intToString (RouteEntry.metric route).

(** *** One hop *)

(** What the body of the [while] loop does before its loop check: either
    the function returns (or throws), or [nextDevice] is set. *)
Inductive Hop : Type :=
| Stop (outcome : Completion SimulationResult.t)
| Forward (nextDevice : Device.t) (steps : list Step.t).

Definition failWith (path : list string) (message : string) (steps : list Step.t) : Hop :=
  Stop (Returned (SimulationResult.plain false path message steps)).

(** The default gateway of an endpoint: the first router with an interface
    on the endpoint's network. *)
Definition findGateway (devices : list Device.t) (currentNetwork : string) : option Device.t :=
  find (fun d =>
          DeviceType_eqb (Device.type d) router &&
          someOf (fun iface => String.eqb (getNetwork (NetworkInterface.ip iface)) currentNetwork)
                 (Device.interfaces d))
       devices.

Definition pushIf {A : Type} (condition : bool) (l : list A) (x : A) : list A :=
  if condition then (l ++ [x])%list else l.

(** Step 5 of the loop body: an endpoint hands the packet to its gateway. *)
Definition endpointHop (devices : list Device.t) (connections : list Connection.t)
  (showSteps : bool) (currentDevice : Device.t) (path : list string)
  (steps : list Step.t) : Hop :=
  let currentNetwork := getNetwork (Device.ip currentDevice) in
  match findGateway devices currentNetwork with
  | None => failWith path (msgNoGateway currentDevice currentNetwork) steps
  | Some gateway =>
      if negb (hasPhysicalConnection currentDevice gateway connections) then
        failWith path (msgNoLink currentDevice gateway) steps
      else
        Forward gateway
          (pushIf showSteps steps
             (Step.mk (Device.name currentDevice) (actionToGateway currentDevice gateway) None))
  end.

(** Step 6 of the loop body: a router looks its table up. *)
Definition routerHop (devices : list Device.t) (connections : list Connection.t)
  (destIP : string) (showSteps : bool) (currentDevice : Device.t) (hopCount : nat)
  (path : list string) (steps : list Step.t) : Hop :=
  match Device.routingTable currentDevice with
  | None | Some [] => failWith path (msgEmptyTable currentDevice) steps
  | Some routingTable =>
      let destNetwork := getNetwork destIP in
      match matchingRoutes routingTable destIP destNetwork with
      | [] => failWith path (msgNoRoute currentDevice destIP destNetwork routingTable) steps
      | matching =>
          let sortedRoutes := sortByMetric matching in
          match tryRoutes devices connections currentDevice destIP destNetwork sortedRoutes [] with
          | (None, failedRoutes) =>
              failWith path (msgAllFailed currentDevice destIP failedRoutes) steps
          | (Some route, failedRoutes) =>
              let routeIndex := indexOf sortedRoutes route in
              let steps1 :=
                pushIf ((0 <? routeIndex)%nat && showSteps) steps
                  (Step.mk (Device.name currentDevice)
                     (actionBackup failedRoutes routeIndex route) (Some route)) in
              let steps2 :=
                pushIf (showSteps && (routeIndex =? 0)%nat) steps1
                  (Step.mk (Device.name currentDevice)
                     (actionLookup destNetwork route) (Some route)) in
              if isDirect (RouteEntry.nextHop route) then
                match find (fun d => String.eqb (Device.ip d) destIP) devices with
                | Some destDevice =>
                    Stop (Returned (SimulationResult.plain true
                                      (path ++ [Device.name destDevice])%list
                                      (msgArrived hopCount) steps2))
                | None => Stop ThrownTypeError
                end
              else
                match findNextRouter devices (RouteEntry.nextHop route) with
                | Some nextRouter => Forward nextRouter steps2
                | None => failWith path (msgStuck currentDevice) steps2
                end
          end
      end
  end.

Definition hop (devices : list Device.t) (connections : list Connection.t)
  (destIP : string) (showSteps : bool) (currentDevice : Device.t) (hopCount : nat)
  (path : list string) (steps : list Step.t) : Hop :=
  if negb (DeviceType_eqb (Device.type currentDevice) router) then
    endpointHop devices connections showSteps currentDevice path steps
  else
    routerHop devices connections destIP showSteps currentDevice hopCount path steps.

(** *** The loop *)

Definition maxHops : nat := 10.

(** [while (hopCount < maxHops)], with [budget = maxHops - hopCount] rounds
    left.  [visitedDevices] is the [Set] of device ids, [path] and [steps]
    the arrays the source pushes onto. *)
Fixpoint routingLoop (budget : nat) (devices : list Device.t)
  (connections : list Connection.t) (destIP : string) (showSteps : bool)
  (currentDevice : Device.t) (hopCount : nat) (visitedDevices : list string)
  (path : list string) (steps : list Step.t) : Completion SimulationResult.t :=
  match budget with
  | O => Returned (SimulationResult.plain false path (msgMaxHops maxHops) steps)
  | S budget' =>
      if String.eqb (Device.ip currentDevice) destIP then
        Returned (SimulationResult.plain true path (msgArrived hopCount) steps)
      else
        match hop devices connections destIP showSteps currentDevice hopCount path steps with
        | Stop outcome => outcome
        | Forward nextDevice steps' =>
            if existsb (String.eqb (Device.id nextDevice)) visitedDevices then
              Returned (SimulationResult.plain false path (msgLoop nextDevice path) steps')
            else
              routingLoop budget' devices connections destIP showSteps nextDevice
                (S hopCount) (visitedDevices ++ [Device.id nextDevice])%list
                (path ++ [Device.name nextDevice])%list steps'
        end
  end.

(** [simulateRouting(devices, connections, sourceIP, destIP, showSteps)].
    Every caller in the store leaves [showSteps] at its default, [false]. *)
Definition simulateRouting (devices : list Device.t) (connections : list Connection.t)
  (sourceIP destIP : string) (showSteps : bool) : Completion SimulationResult.t :=
  if negb (validateIP sourceIP) then
    Returned (SimulationResult.plain false [] (msgBadSource sourceIP) [])
  else if negb (validateIP destIP) then
    Returned (SimulationResult.plain false [] (msgBadDest destIP) [])
  else
    match find (fun d => String.eqb (Device.ip d) sourceIP) devices with
    | None => Returned (SimulationResult.plain false [] (msgNoSource sourceIP) [])
    | Some sourceDevice =>
        let path := [Device.name sourceDevice] in
        if String.eqb sourceIP destIP then
          Returned (SimulationResult.plain true path msgSameDevice [])
        else
          routingLoop maxHops devices connections destIP showSteps sourceDevice 0
            [Device.id sourceDevice] path []
    end.

(** ** The DNS and HTTP round trips of the store

    [simulateDNSQuery] and [simulateHTTPRequest] compute a
    [SimulationResult] and hand it to the store, at once or from a timer;
    the model returns that result.  [toLowerCase] is the built-in of that
    name, taken as a parameter. *)

Definition kindLabelNotDns (t : DeviceType) : string :=
  match t with
  | web => "Web服务器"
  | pc => "PC"
  | other => typeString other
  end.

Definition kindLabelNotWeb (t : DeviceType) : string :=
  match t with
  | dns => "DNS服务器"
  | pc => "PC"
  | other => typeString other
  end.

(** [`${wrongDevice?.name}`] *)
Definition nameOrUndefined (d : option Device.t) : string :=
  match d with
  | Some x => Device.name x
  | None => "undefined"
  end.

(** [requestRoute.path[requestRoute.path.length - 1]] of a non-empty path. *)
Definition lastName (path : list string) : string := last path "undefined".

Section RoundTrips.

Variable toLowerCase : string -> string.
Variable devices : list Device.t.
Variable connections : list Connection.t.

Definition findByIp (ip : string) : option Device.t :=
  find (fun d => String.eqb (Device.ip d) ip) devices.

Definition findByName (name : string) : option Device.t :=
  find (fun d => String.eqb (Device.name d) name) devices.

Definition lookupRecord (dnsDevice : Device.t) (domain : string) : string :=
  match Device.dnsRecords dnsDevice with
  | Some records =>
      match find (fun r => String.eqb (toLowerCase (DNSRecord.domain r)) (toLowerCase domain))
                 records with
      | Some record => DNSRecord.ip record
      | None => ""
      end
  | None => ""
  end.

(** [simulateDNSQuery(sourceIP, dnsServerIP, domain)]: the result stored. *)
Definition simulateDNSQuery (sourceIP dnsServerIP domain : string)
  : Completion SimulationResult.t :=
  let sourceDevice := findByIp sourceIP in
  let dnsDevice :=
    find (fun d => DeviceType_eqb (Device.type d) dns && String.eqb (Device.ip d) dnsServerIP)
         devices in
  match sourceDevice, dnsDevice with
  | None, _ =>
      Returned (SimulationResult.plain false []
                  ("❌ DNS查询失败：源设备 " ++ sourceIP ++ " 不存在") [])
  | Some _, None =>
      let message :=
        match findByIp dnsServerIP with
        | Some wrongTypeDevice =>
            "❌ DNS配置错误" ++ nl ++ nl ++ "IP " ++ dnsServerIP ++ " 是 "
            ++ Device.name wrongTypeDevice ++ " ("
            ++ kindLabelNotDns (Device.type wrongTypeDevice) ++ ")，不是DNS服务器" ++ nl ++ nl
            ++ "💡 请在设备配置中选择正确的DNS服务器"
        | None =>
            "❌ DNS服务器 " ++ dnsServerIP ++ " 不存在" ++ nl ++ nl
            ++ "💡 请检查DNS服务器IP地址配置"
        end in
      Returned (SimulationResult.plain false [] message [])
  | Some sourceDevice, Some dnsDevice =>
      match simulateRouting devices connections sourceIP dnsServerIP false with
      | ThrownTypeError => ThrownTypeError
      | Returned requestRoute =>
          let path := SimulationResult.path requestRoute in
          if SimulationResult.success requestRoute && (0 <? length path)%nat &&
             negb (String.eqb (lastName path) (Device.name dnsDevice)) then
            let wrongDevice := findByName (lastName path) in
            Returned (SimulationResult.plain false path
              ("❌ DNS查询失败" ++ nl ++ nl ++ "路由到达了 " ++ nameOrUndefined wrongDevice ++ " ("
               ++ match wrongDevice with
                  | Some w => match Device.type w with
                              | web => "Web服务器"
                              | t => typeString t
                              end
                  | None => "undefined"
                  end
               ++ ")，不是DNS服务器 " ++ Device.name dnsDevice ++ nl ++ nl ++ "💡 可能原因：" ++ nl
               ++ "- DNS和Web服务器使用了相同IP " ++ dnsServerIP ++ nl
               ++ "- 请确保DNS服务器使用独立IP地址")
              (SimulationResult.steps requestRoute))
          else
            let responsePath :=
              if SimulationResult.success requestRoute then rev path else [] in
            let resolvedIP := lookupRecord dnsDevice domain in
            Returned (SimulationResult.mk
              (SimulationResult.success requestRoute)
              path
              (if SimulationResult.success requestRoute then
                 "✅ DNS查询完成" ++ nl ++ Device.name sourceDevice ++ " ⇄ "
                 ++ Device.name dnsDevice ++ nl ++ "域名: " ++ domain ++ " → IP: "
                 ++ (if String.eqb resolvedIP "" then "未找到" else resolvedIP)
               else SimulationResult.message requestRoute)
              (SimulationResult.steps requestRoute)
              (Some true)
              (Some path)
              (Some responsePath)
              (Some ("🔍 DNS查询: " ++ domain))
              (Some (if String.eqb resolvedIP "" then "❌ 域名不存在"
                     else "✅ 返回IP: " ++ resolvedIP))
              (SimulationResult.httpSuccess requestRoute)
              (SimulationResult.httpStatusCode requestRoute))
      end
  end.

(** [simulateHTTPRequest(sourceIP, targetIP, httpSuccess, statusCode,
    onComplete, httpMessage)]: the result stored. *)
Definition simulateHTTPRequest (sourceIP targetIP : string) (httpSuccess : bool)
  (statusCode : Z) (httpMessage : string) : Completion SimulationResult.t :=
  let failure (path : list string) (message : string) (steps : list Step.t) :=
    SimulationResult.mk false path message steps None None None None None
      (Some false) (Some 503%Z) in
  match findByIp targetIP with
  | None =>
      Returned (failure []
        ("❌ HTTP请求失败" ++ nl ++ nl ++ "目标IP " ++ targetIP ++ " 不存在" ++ nl ++ nl
         ++ "💡 请检查域名DNS解析结果") [])
  | Some targetDevice =>
      if negb (DeviceType_eqb (Device.type targetDevice) web) then
        Returned (failure []
          ("❌ HTTP请求失败" ++ nl ++ nl ++ "IP " ++ targetIP ++ " 是 "
           ++ Device.name targetDevice ++ " (" ++ kindLabelNotWeb (Device.type targetDevice)
           ++ ")，不是Web服务器" ++ nl ++ nl ++ "💡 请确认访问的是Web服务器") [])
      else
        match simulateRouting devices connections sourceIP targetIP false with
        | ThrownTypeError => ThrownTypeError
        | Returned requestRoute =>
            let path := SimulationResult.path requestRoute in
            if SimulationResult.success requestRoute && (0 <? length path)%nat &&
               negb (String.eqb (lastName path) (Device.name targetDevice)) then
              let wrongDevice := findByName (lastName path) in
              Returned (failure path
                ("❌ HTTP请求失败" ++ nl ++ nl ++ "路由到达了 " ++ nameOrUndefined wrongDevice
                 ++ " ("
                 ++ match wrongDevice with
                    | Some w => match Device.type w with
                                | dns => "DNS服务器"
                                | t => typeString t
                                end
                    | None => "undefined"
                    end
                 ++ ")，不是Web服务器 " ++ Device.name targetDevice ++ nl ++ nl
                 ++ "💡 可能原因：" ++ nl ++ "- DNS和Web服务器使用了相同IP " ++ targetIP ++ nl
                 ++ "- 请确保Web服务器使用独立IP地址")
                (SimulationResult.steps requestRoute))
            else
              let responsePath :=
                if SimulationResult.success requestRoute then rev path else [] in
              let httpSummary :=
                if httpSuccess then "✅ HTTP " ++ intToString statusCode ++ " 成功"
                else "❌ HTTP " ++ intToString statusCode ++ " 失败" in
              let mergedMessage :=
                if SimulationResult.success requestRoute then
                  if negb (isBlank httpMessage) then httpSummary ++ nl ++ httpMessage
                  else httpSummary
                else SimulationResult.message requestRoute in
              Returned (SimulationResult.mk
                (SimulationResult.success requestRoute)
                path
                mergedMessage
                (SimulationResult.steps requestRoute)
                (Some true)
                (Some path)
                (Some responsePath)
                (Some "📤 HTTP GET /")
                (Some (if httpSuccess then "📥 HTTP " ++ intToString statusCode ++ " OK"
                       else "❌ HTTP " ++ intToString statusCode ++ " 错误"))
                (Some httpSuccess)
                (Some statusCode))
        end
  end.

End RoundTrips.

(** ** The HTTP handler ([src/utils/httpHandler.ts]) *)

Module HTTPResponse.
Record t : Type := mk {
  success : bool;
  statusCode : Z;
  content : option string;
  message : string
}.
End HTTPResponse.

Definition deviceTypeName (t : DeviceType) : string :=
  match t with
  | pc => "PC"
  | dns => "DNS服务器"
  | router => "路由器"
  | other => typeString other
  end.

(** [port || 80]: an absent or zero port is 80. *)
Definition portOr80 (port : option Z) : Z :=
  match port with
  | Some p => if (p =? 0)%Z then 80%Z else p
  | None => 80%Z
  end.

(** [!webContent || webContent.trim() === '']. *)
Definition noContent (webContent : option string) : bool :=
  match webContent with
  | Some text => String.eqb text "" || String.eqb (trim text) ""
  | None => true
  end.

(** [HTTPHandler.validateAndFetchWebServer(targetIP, requestPort,
    displayName)] over the handler's [devices]. *)
Definition validateAndFetchWebServer (devices : list Device.t) (targetIP : string)
  (requestPort : Z) (displayName : string) : HTTPResponse.t :=
  match find (fun d => DeviceType_eqb (Device.type d) web && String.eqb (Device.ip d) targetIP)
             devices with
  | None =>
      match find (fun d => String.eqb (Device.ip d) targetIP) devices with
      | None =>
          HTTPResponse.mk false 404 None
            ("❌ 目标主机不可达" ++ nl ++ nl ++ "IP地址 " ++ targetIP ++ " 在网络中不存在" ++ nl ++ nl
             ++ "💡 类似 Ping 提示：请求超时 (Request timeout)")
      | Some existingDevice =>
          HTTPResponse.mk false 503 None
            ("❌ 目标IP " ++ targetIP ++ " 不是Web服务器" ++ nl ++ nl ++ "该设备是 "
             ++ Device.name existingDevice ++ " (" ++ deviceTypeName (Device.type existingDevice)
             ++ ")，无法响应HTTP请求" ++ nl ++ nl ++ "💡 请确认访问的是Web服务器")
      end
  | Some webServer =>
      let serverPort := portOr80 (Device.port webServer) in
      if negb (requestPort =? serverPort)%Z then
        HTTPResponse.mk false 503 None
          ("❌ 端口错误：服务器 " ++ Device.name webServer ++ " 监听在端口 "
           ++ intToString serverPort ++ "，但请求访问端口 " ++ intToString requestPort ++ nl ++ nl
           ++ "💡 解决方法：" ++ nl ++ "1. 修改URL端口为 :" ++ intToString serverPort ++ nl
           ++ "2. 或修改Web服务器监听端口为 " ++ intToString requestPort)
      else if noContent (Device.webContent webServer) then
        HTTPResponse.mk false 204 None
          ("⚠️ Web服务器 " ++ Device.name webServer ++ " 没有配置网页内容")
      else
        HTTPResponse.mk true 200 (Device.webContent webServer)
          ("✅ HTTP 200 OK - 成功访问 " ++ displayName)
  end.

(** ** Vocabulary of the properties *)

(** *** Walks and routing loops *)

(** The device the loop body forwards to from [currentDevice], if it
    forwards at all.  Which device that is does not depend on the hop
    count, the path or the steps (lemma [hop_forward_irrelevant]). *)
Definition nextDeviceOf (devices : list Device.t) (connections : list Connection.t)
  (destIP : string) (currentDevice : Device.t) : option Device.t :=
  match hop devices connections destIP false currentDevice 0 [] [] with
  | Forward nextDevice _ => Some nextDevice
  | Stop _ => None
  end.

(** [revisits visited current k]: forwarding from [current], which has not
    reached the destination, comes back after exactly [k] hops to a device
    whose id is in [visited] or was passed on the way.  A routing loop is
    reachable from a source [s] when [revisits [Device.id s] s k] for some
    [k]. *)
Inductive revisits (devices : list Device.t) (connections : list Connection.t)
  (destIP : string) : list string -> Device.t -> nat -> Prop :=
| revisits_now : forall visited current next,
    Device.ip current <> destIP ->
    nextDeviceOf devices connections destIP current = Some next ->
    In (Device.id next) visited ->
    revisits devices connections destIP visited current 1
| revisits_later : forall visited current next k,
    Device.ip current <> destIP ->
    nextDeviceOf devices connections destIP current = Some next ->
    ~ In (Device.id next) visited ->
    revisits devices connections destIP (visited ++ [Device.id next])%list next k ->
    revisits devices connections destIP visited current (S k).

(** *** Physical links along a path *)

Fixpoint linked (connections : list Connection.t) (ds : list Device.t) : Prop :=
  match ds with
  | a :: (b :: _) as rest =>
      hasPhysicalConnection a b connections = true /\ linked connections rest
  | _ => True
  end.

(** *** Steps and reasons *)

Definition hopSteps (h : Hop) : option (list Step.t) :=
  match h with
  | Stop (Returned r) => Some (SimulationResult.steps r)
  | Stop ThrownTypeError => None
  | Forward _ steps => Some steps
  end.

(** [needle] occurs in [text]. *)
Fixpoint occursIn (needle text : string) : bool :=
  String.prefix needle text ||
  match text with
  | EmptyString => false
  | String _ rest => occursIn needle rest
  end.

(** Some step of the trace mentions the reason. *)
Definition traceMentions (steps : list Step.t) (reason : string) : bool :=
  existsb (fun st => occursIn reason (Step.action st)) steps.

(** *** Backbone indices in use *)

(** The interface is one [collectUsedBackboneIndices] reads an index from,
    and [x] is that index. *)
Definition readsIndex (iface : NetworkInterface.t) (x : JSNumber) : Prop :=
  let parts := split dot (NetworkInterface.ip iface) in
  NetworkInterface.ip iface <> "" /\
  NetworkInterface.name iface <> "LAN" /\
  (3 <= length parts)%nat /\
  nth 0 parts "" = "10" /\ nth 1 parts "" = "0" /\
  isNaN (Number (nth 2 parts "")) = false /\
  sameValueZero x (Number (nth 2 parts "")) = true.

Definition usesBackboneIndex (devices : list Device.t) (x : JSNumber) : Prop :=
  exists device iface,
    In device devices /\ isRouterDevice device = true /\
    In iface (orEmpty (Device.interfaces device)) /\ readsIndex iface x.

Definition interfaceCount (devices : list Device.t) : nat :=
  list_sum (map (fun d => length (orEmpty (Device.interfaces d))) devices).

(** *** Changing the configured masks *)

Definition setMask (mask subnet : NetworkInterface.t -> option string)
  (iface : NetworkInterface.t) : NetworkInterface.t :=
  NetworkInterface.mk (NetworkInterface.id iface) (NetworkInterface.name iface)
    (NetworkInterface.ip iface) (subnet iface) (mask iface).

Definition remask (mask subnet : NetworkInterface.t -> option string)
  (device : Device.t) : Device.t :=
  Device.mk (Device.id device) (Device.name device) (Device.type device)
    (Device.ip device)
    (option_map (map (setMask mask subnet)) (Device.interfaces device))
    (Device.routingTable device) (Device.dnsRecords device)
    (Device.webContent device) (Device.port device).

(** A stand-in for [toLowerCase] on ASCII text. *)
Definition lowerAscii (c : ascii) : ascii :=
  let n := nat_of_ascii c in
  if ((65 <=? n) && (n <=? 90))%nat then ascii_of_nat (n + 32) else c.

Fixpoint toLowerAscii (s : string) : string :=
  match s with
  | EmptyString => EmptyString
  | String c rest => String (lowerAscii c) (toLowerAscii rest)
  end.

(** *** Dotted text *)

Fixpoint dotFree (s : string) : bool :=
  match s with
  | EmptyString => true
  | String c rest => negb (Ascii.eqb c dot) && dotFree rest
  end.

Definition dotted (a b c d : string) : string :=
  a ++ "." ++ b ++ "." ++ c ++ "." ++ d.

(** The dotted quad of four numbers. *)
Definition quad (a b c d : Z) : string :=
  dotted (intToString a) (intToString b) (intToString c) (intToString d).

Definition isOctet (z : Z) : Prop := (0 <= z <= 255)%Z.

(** The natural number a set element is, if it is one. *)
Definition asNat (x : JSNumber) : list nat :=
  match x with
  | Finite n d =>
      if ((0 <=? n) && (n mod Zpos d =? 0))%Z then [Z.to_nat (n / Zpos d)] else []
  | _ => []
  end.

(** *** The fixed /24 network of an address *)

(** Part [i] of an address, as a template literal prints it. *)
Definition part (ip : string) (i : nat) : string := templateAt (split dot ip) i.

(** The two addresses have the same first three parts. *)
Definition sameFirstThree (a b : string) : bool :=
  String.eqb (part a 0) (part b 0) && String.eqb (part a 1) (part b 1) &&
  String.eqb (part a 2) (part b 2).

(** The first three parts of the address followed by [.0]. *)
Definition network24 (ip : string) : string :=
  dotted (part ip 0) (part ip 1) (part ip 2) "0".

(** The device has an interface whose address has the first three parts
    of [ip]; no mask is consulted. *)
Definition onNetworkOf (device : Device.t) (ip : string) : bool :=
  someOf (fun iface => sameFirstThree (NetworkInterface.ip iface) ip)
         (Device.interfaces device).

(** ** Sample topologies *)

Module Sample.

Definition iface (name ip : string) : NetworkInterface.t :=
  NetworkInterface.mk None name ip None (Some DEFAULT_SUBNET_MASK).

Definition endpoint (type : DeviceType) (id name ip : string) : Device.t :=
  Device.mk id name type ip (Some [iface "eth0" ip]) None None None None.

Definition routerDevice (id name ip : string) (interfaces : list NetworkInterface.t)
  (routingTable : list RouteEntry.t) : Device.t :=
  Device.mk id name router ip (Some interfaces) (Some routingTable) None None None.

Definition link (a b : string) : Connection.t :=
  Connection.mk (a ++ "-" ++ b) a b None None.

(** The scenario of the design document: two PCs behind two routers joined
    by the backbone 10.0.0.0. *)
Definition R1 : Device.t :=
  routerDevice "r1" "R1" "192.168.1.1"
    [iface "LAN" "192.168.1.1"; iface "eth1" "10.0.0.1"]
    [RouteEntry.mk "192.168.2.0" "R2" 1 "eth1"; RouteEntry.mk "192.168.1.0" "-" 0 "LAN"].

Definition R2 : Device.t :=
  routerDevice "r2" "R2" "192.168.2.1"
    [iface "LAN" "192.168.2.1"; iface "eth1" "10.0.0.2"]
    [RouteEntry.mk "192.168.1.0" "R1" 1 "eth1"; RouteEntry.mk "192.168.2.0" "直连" 0 "LAN"].

Definition PC1 : Device.t := endpoint pc "p1" "PC1" "192.168.1.10".
Definition PC2 : Device.t := endpoint pc "p2" "PC2" "192.168.2.10".

Definition twoRouters : list Device.t := [PC1; PC2; R1; R2].

(** The same with the first PC on the address 192.168.1.255. *)
Definition PC1broadcast : Device.t := endpoint pc "p1" "PC1" "192.168.1.255".
Definition twoRoutersBroadcast : list Device.t := [PC1broadcast; PC2; R1; R2].
Definition twoRoutersLinks : list Connection.t :=
  [link "p1" "r1"; link "r1" "r2"; link "r2" "p2"].

(** Two routes to the same network: the lighter one goes through R3, to
    which R1 has no cable; the heavier one goes through R2. *)
Definition viaR3 : RouteEntry.t := RouteEntry.mk "192.168.2.0" "R3" 1 "eth2".
Definition viaR2 : RouteEntry.t := RouteEntry.mk "192.168.2.0" "R2" 2 "eth1".

Definition R1backup : Device.t :=
  routerDevice "r1" "R1" "192.168.1.1"
    [iface "LAN" "192.168.1.1"; iface "eth1" "10.0.0.1"; iface "eth2" "10.0.1.1"]
    [viaR2; viaR3; RouteEntry.mk "192.168.1.0" "-" 0 "LAN"].

Definition R3 : Device.t :=
  routerDevice "r3" "R3" "192.168.3.1"
    [iface "LAN" "192.168.3.1"; iface "eth1" "10.0.1.2"]
    [RouteEntry.mk "192.168.2.0" "R2" 1 "eth1"].

Definition backup : list Device.t := [PC1; PC2; R1backup; R2; R3].
Definition backupLinks : list Connection.t :=
  [link "p1" "r1"; link "r1" "r2"; link "r2" "p2"].

(** The two-router scenario with a DNS server and two web servers behind
    R2; the second web server has no page. *)
Definition DNS1 : Device.t :=
  Device.mk "d1" "DNS1" dns "192.168.2.50" (Some [iface "eth0" "192.168.2.50"]) None
    (Some [DNSRecord.mk "rec1" "www.school.com" "192.168.2.80"]) None None.

Definition WEB1 : Device.t :=
  Device.mk "w1" "WEB1" web "192.168.2.80" (Some [iface "eth0" "192.168.2.80"]) None None
    (Some "<h1>School</h1>") None.

Definition WEB2 : Device.t :=
  Device.mk "w2" "WEB2" web "192.168.2.81" (Some [iface "eth0" "192.168.2.81"]) None None
    (Some "  ") (Some 8080%Z).

Definition services : list Device.t := [PC1; PC2; R1; R2; DNS1; WEB1; WEB2].
Definition servicesLinks : list Connection.t :=
  [link "p1" "r1"; link "r1" "r2"; link "r2" "p2"; link "r2" "d1"; link "r2" "w1";
   link "r2" "w2"].

(** A router whose LAN interface 192.168.1.129 and a PC 192.168.1.10, both
    configured with the mask 255.255.255.128. *)
Definition R25 : Device.t :=
  Device.mk "r1" "R1" router "192.168.1.129"
    (Some [NetworkInterface.mk None "LAN" "192.168.1.129" (Some "192.168.1.128")
             (Some "255.255.255.128")])
    (Some [RouteEntry.mk "192.168.1.128" "-" 0 "LAN"]) None None None.

Definition PC25 : Device.t :=
  Device.mk "p1" "PC1" pc "192.168.1.10"
    (Some [NetworkInterface.mk None "eth0" "192.168.1.10" (Some "192.168.1.0")
             (Some "255.255.255.128")])
    None None None None.

End Sample.

(** The services scenario with a web server on the DNS server's address,
    listed before it. *)
Module Shadowed.

Definition WEBX : Device.t :=
  Device.mk "wx" "WEBX" web "192.168.2.50" (Some [Sample.iface "eth0" "192.168.2.50"]) None
    None (Some "<h1>X</h1>") None.

Definition devices : list Device.t :=
  [Sample.PC1; Sample.PC2; Sample.R1; Sample.R2; WEBX; Sample.DNS1].

Definition links : list Connection.t :=
  (Sample.servicesLinks ++ [Sample.link "r2" "wx"])%list.

End Shadowed.

(** *** Candidate routes *)

(** [candidate] is tried and fails with the record [failure]. *)
Definition failsWith (devices : list Device.t) (connections : list Connection.t)
  (currentDevice : Device.t) (destIP destNetwork : string)
  (candidate : RouteEntry.t) (failure : FailedRoute.t) : Prop :=
  attemptRoute devices connections currentDevice destIP destNetwork candidate = Some failure.

(** The order of the sorted candidates. *)
Definition lighter (a b : RouteEntry.t) : Prop :=
  (RouteEntry.metric a <= RouteEntry.metric b)%Z.

(** The device a hop forwards to. *)
Definition hopTarget (h : Hop) : option Device.t :=
  match h with
  | Forward nextDevice _ => Some nextDevice
  | Stop _ => None
  end.

(** What a hop establishes: a forwarding hop goes to a device of the
    snapshot wired to the current one; a returning hop either fails with
    the path unchanged or succeeds by appending a device with the
    destination address that is wired to the current one; no hop throws. *)
Definition hopSound (devices : list Device.t) (connections : list Connection.t)
  (destIP : string) (currentDevice : Device.t) (path : list string) (h : Hop) : Prop :=
  match h with
  | Forward nextDevice _ =>
      In nextDevice devices /\
      hasPhysicalConnection currentDevice nextDevice connections = true
  | Stop (Returned r) =>
      (SimulationResult.success r = false /\ SimulationResult.path r = path) \/
      (exists destDevice,
          In destDevice devices /\ Device.ip destDevice = destIP /\
          hasPhysicalConnection currentDevice destDevice connections = true /\
          SimulationResult.success r = true /\
          SimulationResult.path r = (path ++ [Device.name destDevice])%list)
  | Stop ThrownTypeError => False
  end.

(** The devices walked so far: their names are the path, they belong to
    the snapshot, and consecutive ones are wired. *)
Definition walked (devices : list Device.t) (connections : list Connection.t)
  (path : list string) (ds : list Device.t) : Prop :=
  path = map Device.name ds /\ Forall (fun d => In d devices) ds /\ linked connections ds.

(** A ring of [n] routers behind one PC: router [i] forwards the network
    192.168.99.0 to router [i+1] over the backbone 10.0.i.0, and router [n]
    forwards it back to router 1.  The PC is wired to router 1. *)
Module Ring.

Definition after (n i : nat) : nat := if (i =? n)%nat then 1%nat else S i.
Definition before (n i : nat) : nat := if (i =? 1)%nat then n else (i - 1)%nat.

Definition ringRouter (n i : nat) : Device.t :=
  Sample.routerDevice ("r" ++ natToString i) ("R" ++ natToString i)
    ("192.168." ++ natToString i ++ ".1")
    [Sample.iface "LAN" ("192.168." ++ natToString i ++ ".1");
     Sample.iface "eth1" ("10.0." ++ natToString i ++ ".1");
     Sample.iface "eth2" ("10.0." ++ natToString (before n i) ++ ".2")]
    [RouteEntry.mk "192.168.99.0" ("R" ++ natToString (after n i)) 1 "eth1"].

Definition devices (n : nat) : list Device.t :=
  Sample.PC1 :: map (ringRouter n) (seq 1 n).

Definition links (n : nat) : list Connection.t :=
  Sample.link "p1" "r1"
  :: map (fun i => Sample.link ("r" ++ natToString i) ("r" ++ natToString (after n i)))
         (seq 1 n).

End Ring.

(** *** The step of a router hop *)

(** How the backup step names the routes skipped: next hop and metric. *)
Definition skippedLabel (f : FailedRoute.t) : string :=
  FailedRoute.nextHop f ++ "(权重" ++ intToString (FailedRoute.metric f) ++ ")".

(** The step a router adds to the trace when it chooses [route] after the
    attempts [failures]: the plain lookup step when nothing was skipped,
    otherwise the backup step. *)
Definition routeStep (currentDevice : Device.t) (destNetwork : string)
  (failures : list FailedRoute.t) (route : RouteEntry.t) : Step.t :=
  Step.mk (Device.name currentDevice)
    (match failures with
     | [] => actionLookup destNetwork route
     | _ =>
         "⚠️ 最优路由不可用 [" ++ join ", " (map skippedLabel failures)
         ++ "]，使用备用路由: " ++ RouteEntry.nextHop route ++ "(权重"
         ++ intToString (RouteEntry.metric route) ++ ")"
     end)
    (Some route).

(** A hop seen through the re-masking of its target. *)
Definition remaskHop (mask subnet : NetworkInterface.t -> option string) (h : Hop) : Hop :=
  match h with
  | Forward nextDevice steps => Forward (remask mask subnet nextDevice) steps
  | Stop outcome => Stop outcome
  end.

(** ** The ping entry point of the store *)

(** [simulatePing(sourceIP, destIP)]: the result it stores is that of
    [simulateRouting] with [showSteps] left at its default. *)
Definition simulatePing (devices : list Device.t) (connections : list Connection.t)
  (sourceIP destIP : string) : Completion SimulationResult.t :=
  simulateRouting devices connections sourceIP destIP false.

(** [shouldAnimate = result.success && result.path.length > 1]. *)
Definition shouldAnimate (result : SimulationResult.t) : bool :=
  SimulationResult.success result && (1 <? length (SimulationResult.path result))%nat.

(** ** More of the subnet utilities ([src/utils/subnetUtils.ts]) *)

(** [!s] on a string. *)
Definition isEmpty (s : string) : bool := String.eqb s "".

(** [isInSameSubnet(ip1, subnetMask, ip2)]. *)
Definition isInSameSubnet (ip1 subnetMask ip2 : string) : bool :=
  let subnet1 := calculateSubnet ip1 subnetMask in
  let subnet2 := calculateSubnet ip2 subnetMask in
  if isEmpty subnet1 || isEmpty subnet2 then false
  else String.eqb subnet1 subnet2.

(** The number of digits [1] in the binary numeral of a positive integer. *)
Fixpoint binaryOnes (p : positive) : nat :=
  match p with
  | xH => 1%nat
  | xO q => binaryOnes q
  | xI q => S (binaryOnes q)
  end.

Section MaskToCIDR.

(** [x.toString(2)] prints an integer as its binary numeral, NaN as [NaN]
    and the infinities as [Infinity]; how many digits it prints for a
    number with a fraction is left to the engine, and the count of [1]
    among them is taken as a parameter. *)
Variable fractionOnes : Z -> positive -> nat.

(** [part.toString(2).split('1').length - 1]: the number of [1] in the
    binary text of [part]. *)
Definition onesOf (part : JSNumber) : nat :=
  match part with
  | Finite n d =>
      if (n mod Zpos d =? 0)%Z then
        match (n / Zpos d)%Z with
        | Z0 => 0%nat
        | Zpos p => binaryOnes p
        | Zneg p => binaryOnes p
        end
      else fractionOnes n d
  | _ => 0%nat
  end.

(** [maskToCIDR(mask)]. *)
Definition maskToCIDR (mask : string) : nat :=
  fold_left (fun cidr part => (cidr + onesOf part)%nat) (map Number (split dot mask)) 0%nat.

End MaskToCIDR.

(** [cidrToMask(cidr)] for an integer [cidr]. *)
Definition cidrToMask (cidr : Z) : string :=
  join "."
    (map (fun i =>
            let bits := Z.min 8 (Z.max 0 (cidr - i * 8)) in
            intToString (256 - 2 ^ (8 - bits)))
         [0; 1; 2; 3]%Z).

(** The prefix lengths of the masks [isValidSubnetMask] lists. *)
Definition teachingPrefixes : list Z := [24; 16; 8; 25; 26; 27; 28; 29; 30]%Z.

(** [isInSameSubnetHelper(ip1, mask, ip2)] of the store. *)
Definition isInSameSubnetHelper (ip1 mask ip2 : string) : bool :=
  String.eqb (deriveSubnet ip1 mask) (deriveSubnet ip2 mask).

(** ** More validators *)

(** [parseInt(s, 10)]: like [parseInt(s)] without the [0x] prefix rule. *)
Definition parseInt10 (s : string) : option Z :=
  let (negative, body) := readSign (trimStart s) in
  let '(count, value, _) := readDigits 10 body 0 0 in
  match count with
  | O => None
  | S _ => Some (if negative then (- value)%Z else value)
  end.

(** [num >= 0 && num <= 255]; a comparison with NaN is false. *)
Definition inByteRange (num : option Z) : bool :=
  match num with
  | Some v => (0 <=? v)%Z && (v <=? 255)%Z
  | None => false
  end.

Module DNSResolver.

(** [DNSResolver.validateIP(ip)]: the pattern [/^(\d{1,3}\.){3}\d{1,3}$/]
    matches the texts [matchIpPattern] matches. *)
Definition validateIP (ip : string) : bool :=
  match matchIpPattern ip with
  | None => false
  | Some _ => forallb (fun part => inByteRange (parseInt10 part)) (split dot ip)
  end.

End DNSResolver.

Module HTTPHandler.

(** The loop [for (i = 1; i <= 4; i++)] over the captured groups. *)
Fixpoint groupsInRange (groups : list string) : bool :=
  match groups with
  | [] => true
  | group :: rest =>
      match parseInt group with
      | Some num => if (num <? 0)%Z || (255 <? num)%Z then false else groupsInRange rest
      | None => groupsInRange rest
      end
  end.

(** [HTTPHandler.isIPAddress(input)]. *)
Definition isIPAddress (input : string) : bool :=
  match matchIpPattern input with
  | None => false
  | Some groups => groupsInRange groups
  end.

End HTTPHandler.

(** *** [validateIPInput] ([src/utils/ipValidator.ts]) *)

(** [/^[\d.]*$/.test(ip)]. *)
Fixpoint onlyDigitsAndDots (s : string) : bool :=
  match s with
  | EmptyString => true
  | String c rest => (isDigit c || Ascii.eqb c dot) && onlyDigitsAndDots rest
  end.

(** [(ip.match(/\./g) || []).length]. *)
Fixpoint countDots (s : string) : nat :=
  match s with
  | EmptyString => O
  | String c rest => if Ascii.eqb c dot then S (countDots rest) else countDots rest
  end.

(** [/\.{2,}/.test(ip)]. *)
Fixpoint hasConsecutiveDots (s : string) : bool :=
  match s with
  | String c (String c' _ as rest) =>
      (Ascii.eqb c dot && Ascii.eqb c' dot) || hasConsecutiveDots rest
  | _ => false
  end.

(** The loop over the segments: the first one read as more than 255.
    The warning prints the number digit by digit, as JavaScript does for
    a value below 2^53; from there on JavaScript prints the nearest
    double, so only the text of the warning, not its presence, can
    differ. *)
Fixpoint firstOver255 (segments : list string) (i : nat) : option string :=
  match segments with
  | [] => None
  | seg :: rest =>
      if isEmpty seg then firstOver255 rest (S i)
      else
        match parseInt seg with
        | Some num =>
            if (255 <? num)%Z then
              Some ("第" ++ natToString (i + 1) ++ "段（" ++ intToString num ++ "）超过255")
            else firstOver255 rest (S i)
        | None => firstOver255 rest (S i)
        end
  end.

(** [validateIPInput(ip)]: the warning, if any. *)
Definition validateIPInput (ip : string) : option string :=
  if isEmpty ip || isEmpty (trim ip) then None
  else if negb (onlyDigitsAndDots ip) then Some "只能输入数字和点号"
  else if (3 <? countDots ip)%nat then Some "IP地址只能包含3个点号"
  else if hasConsecutiveDots ip then Some "不能有连续的点号"
  else firstOver255 (split dot ip) 0.

(** ** The DNS resolver and the HTTP handler ([src/utils/dnsResolver.ts],
    [src/utils/httpHandler.ts]) *)

Module DNSQuery.
Record t : Type := mk { domain : string; sourceIP : string; dnsServerIP : string }.
End DNSQuery.

Module DNSStep.
Record t : Type := mk { action : string; details : string }.
End DNSStep.

Module DNSQueryResult.
Record t : Type := mk {
  success : bool;
  domain : string;
  resolvedIP : option string;
  message : string;
  steps : list DNSStep.t
}.
End DNSQueryResult.

Module HTTPRequest.
(** [method] and [url] are not read by the handler and are left out. *)
Record t : Type := mk {
  domain : string;
  sourceIP : string;
  targetIP : string;
  port : option Z
}.
End HTTPRequest.

Section Resolver.

Variable toLowerCase : string -> string.
Variable devices : list Device.t.

Definition findDnsServer (dnsServerIP : string) : option Device.t :=
  find (fun d => DeviceType_eqb (Device.type d) dns && String.eqb (Device.ip d) dnsServerIP)
       devices.

Definition matchesDomain (domain : string) (r : DNSRecord.t) : bool :=
  String.eqb (toLowerCase (DNSRecord.domain r)) (toLowerCase domain).

(** [DNSResolver.resolveDomain(query)].  A record's [type] is always [A]. *)
Definition resolveDomain (query : DNSQuery.t) : DNSQueryResult.t :=
  let domain := DNSQuery.domain query in
  let dnsServerIP := DNSQuery.dnsServerIP query in
  match findDnsServer dnsServerIP with
  | None =>
      DNSQueryResult.mk false domain None ("❌ DNS服务器 " ++ dnsServerIP ++ " 不存在")
        [DNSStep.mk "查找DNS服务器" ("DNS服务器 " ++ dnsServerIP ++ " 未找到")]
  | Some dnsServer =>
      let steps1 :=
        [DNSStep.mk "📡 发送DNS查询"
           (DNSQuery.sourceIP query ++ " → " ++ dnsServerIP ++ ": 查询域名 " ++ domain)] in
      match Device.dnsRecords dnsServer with
      | None | Some [] =>
          DNSQueryResult.mk false domain None
            ("❌ DNS服务器 " ++ Device.name dnsServer ++ " 没有配置DNS记录")
            (steps1 ++ [DNSStep.mk "🔍 查询DNS记录"
                          ("DNS服务器 " ++ Device.name dnsServer ++ " 没有配置任何DNS记录")])%list
      | Some records =>
          match find (matchesDomain domain) records with
          | None =>
              DNSQueryResult.mk false domain None
                ("❌ 域名 " ++ domain ++ " 未在DNS服务器中注册")
                (steps1 ++ [DNSStep.mk "🔍 查询DNS记录"
                              ("在 " ++ Device.name dnsServer ++ " 的 "
                               ++ natToString (length records) ++ " 条记录中未找到 "
                               ++ domain)])%list
          | Some record =>
              let steps2 :=
                (steps1 ++ [DNSStep.mk "✅ 找到DNS记录"
                              (DNSRecord.domain record ++ " → " ++ DNSRecord.ip record
                               ++ " (A记录)")])%list in
              match find (fun d => String.eqb (Device.ip d) (DNSRecord.ip record)) devices with
              | None =>
                  DNSQueryResult.mk false domain (Some (DNSRecord.ip record))
                    ("⚠️ DNS解析成功，但目标IP " ++ DNSRecord.ip record ++ " 不存在")
                    (steps2 ++ [DNSStep.mk "⚠️ 验证目标设备"
                                  ("DNS记录指向 " ++ DNSRecord.ip record
                                   ++ "，但该IP不存在")])%list
              | Some targetDevice =>
                  DNSQueryResult.mk true domain (Some (DNSRecord.ip record))
                    ("✅ 域名解析成功：" ++ domain ++ " → " ++ DNSRecord.ip record)
                    (steps2 ++ [DNSStep.mk "🎯 返回解析结果"
                                  (domain ++ " → " ++ DNSRecord.ip record ++ " (设备: "
                                   ++ Device.name targetDevice ++ ")")])%list
              end
          end
      end
  end.

(** [DNSResolver.getDNSServers()]. *)
Definition getDNSServers : list Device.t :=
  filter (fun d => DeviceType_eqb (Device.type d) dns) devices.

(** [DNSResolver.findDNSServerByDomain(domain)]. *)
Definition findDNSServerByDomain (domain : string) : option Device.t :=
  find (fun d => DeviceType_eqb (Device.type d) dns &&
                 someOf (matchesDomain domain) (Device.dnsRecords d))
       devices.

(** [HTTPHandler.getWebServers()]. *)
Definition getWebServers : list Device.t :=
  filter (fun d => DeviceType_eqb (Device.type d) web) devices.

(** [HTTPHandler.handleRequest(request, dnsServerIP)]: the response and
    the DNS result. *)
Definition handleRequest (request : HTTPRequest.t) (dnsServerIP : string)
  : HTTPResponse.t * DNSQueryResult.t :=
  let dnsResult :=
    resolveDomain (DNSQuery.mk (HTTPRequest.domain request) (HTTPRequest.sourceIP request)
                     dnsServerIP) in
  match DNSQueryResult.success dnsResult, DNSQueryResult.resolvedIP dnsResult with
  | true, Some resolvedIP =>
      if isEmpty resolvedIP then
        (HTTPResponse.mk false 404 None
           ("❌ DNS解析失败：" ++ DNSQueryResult.message dnsResult), dnsResult)
      else
        (validateAndFetchWebServer devices resolvedIP (portOr80 (HTTPRequest.port request))
           (HTTPRequest.domain request), dnsResult)
  | _, _ =>
      (HTTPResponse.mk false 404 None
         ("❌ DNS解析失败：" ++ DNSQueryResult.message dnsResult), dnsResult)
  end.

(** [HTTPHandler.handleDirectIPRequest(request)]. *)
Definition handleDirectIPRequest (request : HTTPRequest.t) : HTTPResponse.t :=
  let targetIP := HTTPRequest.targetIP request in
  if isEmpty targetIP || negb (HTTPHandler.isIPAddress targetIP) then
    HTTPResponse.mk false 400 None ("❌ 无效的IP地址：" ++ targetIP)
  else
    validateAndFetchWebServer devices targetIP (portOr80 (HTTPRequest.port request)) targetIP.

End Resolver.

(** ** The store's topology actions ([src/store/useNetworkStore.ts]) *)

Definition BACKBONE_MASK : string := "255.255.255.0".

(** [ENDPOINT_TYPES.includes(device.type)]. *)
Definition ENDPOINT_TYPES : list DeviceType := [pc; dns; web].

Definition isEndpointDevice (device : Device.t) : bool :=
  existsb (DeviceType_eqb (Device.type device)) ENDPOINT_TYPES.

(** [value || fallback] on an optional string: absent and empty are falsy. *)
Definition orElse (value : option string) (fallback : string) : string :=
  match value with
  | Some s => if isEmpty s then fallback else s
  | None => fallback
  end.

(** Truthiness of an optional string. *)
Definition truthy (value : option string) : bool :=
  match value with
  | Some s => negb (isEmpty s)
  | None => false
  end.

Definition isLan (iface : NetworkInterface.t) : bool :=
  String.eqb (NetworkInterface.name iface) "LAN".

(** [device.interfaces?.find((iface) => iface.name === 'LAN')]. *)
Definition getLanInterface (device : Device.t) : option NetworkInterface.t :=
  find isLan (orEmpty (Device.interfaces device)).

(** [xs.findIndex(p)]; [None] is the source's [-1]. *)
Fixpoint findIndex {A : Type} (p : A -> bool) (xs : list A) : option nat :=
  match xs with
  | [] => None
  | x :: rest => if p x then Some O else option_map S (findIndex p rest)
  end.

(** [xs[i] = v] for an index within the array or at its end.  An index
    further out would leave holes; [findIndex] gives none such. *)
Fixpoint setAt {A : Type} (xs : list A) (i : nat) (v : A) : list A :=
  match xs, i with
  | [], O => [v]
  | [], S _ => []
  | _ :: rest, O => v :: rest
  | x :: rest, S i' => x :: setAt rest i' v
  end.

(** [{ ...device, ip, interfaces }]. *)
Definition withIpInterfaces (device : Device.t) (ip : string)
  (interfaces : option (list NetworkInterface.t)) : Device.t :=
  Device.mk (Device.id device) (Device.name device) (Device.type device) ip interfaces
    (Device.routingTable device) (Device.dnsRecords device) (Device.webContent device)
    (Device.port device).

(** [{ ...device, interfaces }]. *)
Definition withInterfaces (device : Device.t)
  (interfaces : option (list NetworkInterface.t)) : Device.t :=
  withIpInterfaces device (Device.ip device) interfaces.

(** [ensureRouterLanInterface(device)]. *)
Definition ensureRouterLanInterface (device : Device.t) : Device.t :=
  if negb (isRouterDevice device) then device
  else
    let interfaces := orEmpty (Device.interfaces device) in
    let fallbackIP :=
      if negb (isEmpty (Device.ip device)) then Device.ip device else "192.168.1.1" in
    match findIndex isLan interfaces with
    | Some lanIndex =>
        match nth_error interfaces lanIndex with
        | Some lanIface =>
            let lanIP :=
              if negb (isEmpty (NetworkInterface.ip lanIface)) then NetworkInterface.ip lanIface
              else fallbackIP in
            let mask := orElse (NetworkInterface.subnetMask lanIface) DEFAULT_SUBNET_MASK in
            withIpInterfaces device
              (if isEmpty (Device.ip device) then lanIP else Device.ip device)
              (Some (setAt interfaces lanIndex
                       (NetworkInterface.mk (NetworkInterface.id lanIface)
                          (NetworkInterface.name lanIface) lanIP
                          (Some (orElse (NetworkInterface.subnet lanIface)
                                   (deriveSubnet lanIP mask)))
                          (Some mask))))
        | None => device
        end
    | None =>
        withIpInterfaces device fallbackIP
          (Some (NetworkInterface.mk (Some (Device.id device ++ "-lan")) "LAN" fallbackIP
                   (Some (deriveSubnet fallbackIP DEFAULT_SUBNET_MASK))
                   (Some DEFAULT_SUBNET_MASK)
                 :: interfaces))
    end.

(** [normalizeDevices(devices)]. *)
Definition normalizeDevices (devices : list Device.t) : list Device.t :=
  map ensureRouterLanInterface devices.

(** [`eth${index}`]. *)
Definition ethName (index : nat) : string := "eth" ++ natToString index.

(** [device.interfaces?.some((iface) => iface.name === name)]. *)
Definition hasInterfaceNamed (device : Device.t) (name : string) : bool :=
  existsb (fun iface => String.eqb (NetworkInterface.name iface) name)
          (orEmpty (Device.interfaces device)).

(** The loop of [nextEthName]: each round that continues has found one
    more interface name, so the condition fails within as many rounds as
    the device has interfaces (lemma [nextEthIndex_spec]); [budget]
    counts the tests left. *)
Fixpoint nextEthIndex (device : Device.t) (budget index : nat) : nat :=
  match budget with
  | O => index
  | S budget' =>
      if hasInterfaceNamed device (ethName index) then nextEthIndex device budget' (S index)
      else index
  end.

(** [nextEthName(device)]. *)
Definition nextEthName (device : Device.t) : string :=
  ethName (nextEthIndex device (S (length (orEmpty (Device.interfaces device)))) 1).

(** What [generateInterfaceId] reads from the environment: the renderings
    of [Date.now().toString(36)] and of
    [Math.random().toString(36).slice(2, 6)]. *)
Module Stamp.
Record t : Type := mk { clock : string; random : string }.
End Stamp.

(** [generateInterfaceId(device, name)]. *)
Definition generateInterfaceId (stamp : Stamp.t) (device : Device.t) (name : string) : string :=
  Device.id device ++ "-" ++ name ++ "-" ++ Stamp.clock stamp ++ "-" ++ Stamp.random stamp.

(** [createRouterInterface(device, name, ip, subnet)]. *)
Definition createRouterInterface (stamp : Stamp.t) (device : Device.t)
  (name ip subnet : string) : NetworkInterface.t :=
  NetworkInterface.mk (Some (generateInterfaceId stamp device name)) name ip (Some subnet)
    (Some BACKBONE_MASK).

(** The part of the store's state the topology actions read and write.
    An action gives the next state and the text of the alert it raises, if
    any; saving to local storage is not modelled. *)
Module Store.
Record t : Type := mk {
  devices : list Device.t;
  connections : list Connection.t;
  selectedDevice : option Device.t
}.
End Store.

Definition findById (devices : list Device.t) (id : string) : option Device.t :=
  find (fun d => String.eqb (Device.id d) id) devices.

(** [addDevice(device)]. *)
Definition addDevice (state : Store.t) (device : Device.t) : Store.t :=
  Store.mk (Store.devices state ++ [device])%list (Store.connections state)
    (Store.selectedDevice state).

(** [deleteDevice(id)]. *)
Definition deleteDevice (state : Store.t) (id : string) : Store.t :=
  Store.mk
    (filter (fun d => negb (String.eqb (Device.id d) id)) (Store.devices state))
    (filter (fun c => negb (String.eqb (Connection.source c) id) &&
                      negb (String.eqb (Connection.target c) id))
            (Store.connections state))
    (Store.selectedDevice state).

(** The connection joins the devices [a] and [b], in either direction. *)
Definition joins (a b : string) (conn : Connection.t) : bool :=
  (String.eqb (Connection.source conn) a && String.eqb (Connection.target conn) b) ||
  (String.eqb (Connection.source conn) b && String.eqb (Connection.target conn) a).

(** The [Map<string, string[]>] of [addConnection], in insertion order. *)
Fixpoint ipMapPush (ipMap : list (string * list string)) (ip name : string)
  : list (string * list string) :=
  match ipMap with
  | [] => [(ip, [name])]
  | (key, names) :: rest =>
      if String.eqb key ip then (key, (names ++ [name])%list) :: rest
      else (key, names) :: ipMapPush rest ip name
  end.

Definition collectIPs (devices : list Device.t) : list (string * list string) :=
  fold_left
    (fun ipMap d =>
       if negb (DeviceType_eqb (Device.type d) router) && negb (isEmpty (Device.ip d))
       then ipMapPush ipMap (Device.ip d) (Device.name d)
       else ipMap)
    devices [].

Definition duplicateIPs (devices : list Device.t) : list string :=
  map (fun entry => fst entry ++ ": " ++ join ", " (snd entry))
      (filter (fun entry => (1 <? length (snd entry))%nat) (collectIPs devices)).

Definition msgAlreadyConnected : string := "⚠️ 这两台设备已经连接，无需重复连线。".
Definition msgEndpoints : string := "⚠️ 终端设备之间不能直接连线，请通过路由器连接。".
Definition msgDuplicateIPs (duplicates : list string) : string :=
  "❌ IP地址冲突！" ++ nl ++ nl ++ "以下设备使用了相同的IP地址:" ++ nl ++ join nl duplicates
  ++ nl ++ nl ++ "请先修改重复的IP地址，再尝试连接设备。".
Definition msgSameLan (sourceDevice targetDevice : Device.t) (subnet : string) : string :=
  "❌ 路由器 " ++ Device.name sourceDevice ++ " 与 " ++ Device.name targetDevice
  ++ " 使用了相同的 LAN 网段 (" ++ subnet ++ ")，请先修改其中一台路由器的 LAN 配置。".
Definition msgNoLan (routerDevice : Device.t) : string :=
  "❌ 路由器 " ++ Device.name routerDevice ++ " 没有 LAN 接口，请先配置路由器。".
Definition msgSameAsLan (endpoint routerDevice : Device.t) (lanIP : string) : string :=
  "❌ IP地址冲突！" ++ nl ++ nl ++ Device.name endpoint ++ " 的IP地址与路由器 "
  ++ Device.name routerDevice ++ " 的LAN接口 (" ++ lanIP ++ ") 完全相同。" ++ nl ++ nl
  ++ "💡 请为 " ++ Device.name endpoint ++ " 设置同一网段内的其他可用IP。".
Definition msgSubnetMismatch (endpoint routerDevice : Device.t) (subnet subnetMask : string)
  : string :=
  "❌ 子网不匹配！" ++ nl ++ nl ++ Device.name endpoint ++ " 的IP地址: " ++ Device.ip endpoint ++ nl
  ++ "路由器 " ++ Device.name routerDevice ++ " 的LAN网段: " ++ subnet ++ nl ++ "子网掩码: "
  ++ subnetMask ++ nl ++ nl
  ++ "💡 请修改 " ++ Device.name endpoint ++ " 的IP地址，使其在路由器LAN网段内。".

(** The [map] that gives the two routers of a new backbone link their
    interfaces. *)
Definition attachInterfaces (sourceDevice targetDevice : Device.t)
  (sourceInterface targetInterface : NetworkInterface.t) (device : Device.t) : Device.t :=
  if String.eqb (Device.id device) (Device.id sourceDevice) then
    withInterfaces device
      (Some (orEmpty (Device.interfaces device) ++ [sourceInterface])%list)
  else if String.eqb (Device.id device) (Device.id targetDevice) then
    withInterfaces device
      (Some (orEmpty (Device.interfaces device) ++ [targetInterface])%list)
  else device.

(** The state [addConnection] returns once the link is accepted. *)
Definition commitConnection (state : Store.t) (updatedDevices : list Device.t)
  (newConnection : Connection.t) : Store.t :=
  Store.mk updatedDevices (Store.connections state ++ [newConnection])%list
    (match Store.selectedDevice state with
     | Some selected =>
         match findById updatedDevices (Device.id selected) with
         | Some d => Some d
         | None => Some selected
         end
     | None => None
     end).

(** [addConnection(connection)].  [sourceStamp] and [targetStamp] are what
    the two calls of [generateInterfaceId] read. *)
Definition addConnection (sourceStamp targetStamp : Stamp.t) (state : Store.t)
  (connection : Connection.t) : Store.t * option string :=
  let devices := Store.devices state in
  let connections := Store.connections state in
  match findById devices (Connection.source connection),
        findById devices (Connection.target connection) with
  | Some sourceDevice, Some targetDevice =>
      if existsb (joins (Connection.source connection) (Connection.target connection))
                 connections
      then (state, Some msgAlreadyConnected)
      else if negb (isRouterDevice sourceDevice) && negb (isRouterDevice targetDevice)
      then (state, Some msgEndpoints)
      else if (isEndpointDevice sourceDevice || isEndpointDevice targetDevice) &&
              (0 <? length (duplicateIPs devices))%nat
      then (state, Some (msgDuplicateIPs (duplicateIPs devices)))
      else if isRouterDevice sourceDevice && isRouterDevice targetDevice then
        let sameLan :=
          match getLanInterface sourceDevice, getLanInterface targetDevice with
          | Some sourceLan, Some targetLan =>
              let sourceLanSubnet :=
                deriveSubnet (NetworkInterface.ip sourceLan)
                  (orElse (NetworkInterface.subnetMask sourceLan) DEFAULT_SUBNET_MASK) in
              let targetLanSubnet :=
                deriveSubnet (NetworkInterface.ip targetLan)
                  (orElse (NetworkInterface.subnetMask targetLan) DEFAULT_SUBNET_MASK) in
              if String.eqb sourceLanSubnet targetLanSubnet then Some sourceLanSubnet
              else None
          | _, _ => None
          end in
        match sameLan with
        | Some sourceLanSubnet =>
            (state, Some (msgSameLan sourceDevice targetDevice sourceLanSubnet))
        | None =>
            let backbone := allocateBackboneNetwork devices in
            let sourceInterface :=
              createRouterInterface sourceStamp sourceDevice (nextEthName sourceDevice)
                (Backbone.sourceIP backbone) (Backbone.subnet backbone) in
            let targetInterface :=
              createRouterInterface targetStamp targetDevice (nextEthName targetDevice)
                (Backbone.targetIP backbone) (Backbone.subnet backbone) in
            (commitConnection state
               (map (attachInterfaces sourceDevice targetDevice sourceInterface
                       targetInterface) devices)
               (Connection.mk (Connection.id connection) (Connection.source connection)
                  (Connection.target connection) (NetworkInterface.id sourceInterface)
                  (NetworkInterface.id targetInterface)),
             None)
        end
      else
        let routerDevice := if isRouterDevice sourceDevice then sourceDevice else targetDevice in
        let endpoint := if isRouterDevice sourceDevice then targetDevice else sourceDevice in
        match getLanInterface routerDevice with
        | None => (state, Some (msgNoLan routerDevice))
        | Some lanInterface =>
            let subnetMask :=
              orElse (NetworkInterface.subnetMask lanInterface) DEFAULT_SUBNET_MASK in
            if String.eqb (NetworkInterface.ip lanInterface) (Device.ip endpoint) then
              (state, Some (msgSameAsLan endpoint routerDevice
                              (NetworkInterface.ip lanInterface)))
            else if negb (isInSameSubnetHelper (NetworkInterface.ip lanInterface) subnetMask
                            (Device.ip endpoint)) then
              (state,
               Some (msgSubnetMismatch endpoint routerDevice
                       (orElse (NetworkInterface.subnet lanInterface)
                          (deriveSubnet (NetworkInterface.ip lanInterface) subnetMask))
                       subnetMask))
            else (commitConnection state devices connection, None)
        end
  | _, _ => (state, None)
  end.

(** [device.interfaces?.filter((iface) => iface.id !== removed)]. *)
Definition dropInterface (removed : string) (device : Device.t) : Device.t :=
  withInterfaces device
    (option_map
       (filter (fun iface =>
                  match NetworkInterface.id iface with
                  | Some id => negb (String.eqb id removed)
                  | None => true
                  end))
       (Device.interfaces device)).

(** The [map] of [deleteConnection] that removes the two interfaces of a
    link. *)
Definition detachInterfaces (connection : Connection.t)
  (sourceRemoved targetRemoved : string) (device : Device.t) : Device.t :=
  if String.eqb (Device.id device) (Connection.source connection) then
    dropInterface sourceRemoved device
  else if String.eqb (Device.id device) (Connection.target connection) then
    dropInterface targetRemoved device
  else device.

(** The nested loops of [deleteConnection] for a link that records no
    interface ids: the pair [(sourceIfaceToRemove, targetIfaceToRemove)]
    after the source interfaces from [sourceInterfaces] on, starting from
    [found]. *)
Fixpoint scanInterfaces (sourceInterfaces targetInterfaces : list NetworkInterface.t)
  (found : option string * option string) : option string * option string :=
  match sourceInterfaces with
  | [] => found
  | sourceIface :: rest =>
      if isLan sourceIface then scanInterfaces rest targetInterfaces found
      else
        let sourceNet := getNetwork (NetworkInterface.ip sourceIface) in
        let found' :=
          match find (fun targetIface =>
                        negb (isLan targetIface) &&
                        String.eqb sourceNet (getNetwork (NetworkInterface.ip targetIface)))
                     targetInterfaces with
          | Some targetIface =>
              (NetworkInterface.id sourceIface, NetworkInterface.id targetIface)
          | None => found
          end in
        if truthy (fst found') then found'
        else scanInterfaces rest targetInterfaces found'
  end.

(** [deleteConnection(id)]. *)
Definition deleteConnection (state : Store.t) (id : string) : Store.t :=
  match find (fun c => String.eqb (Connection.id c) id) (Store.connections state) with
  | None => state
  | Some connection =>
      let devices := Store.devices state in
      let updatedDevices :=
        match Connection.sourceInterfaceId connection,
              Connection.targetInterfaceId connection with
        | Some sourceInterfaceId, Some targetInterfaceId =>
            if negb (isEmpty sourceInterfaceId) && negb (isEmpty targetInterfaceId) then
              Some (map (detachInterfaces connection sourceInterfaceId targetInterfaceId)
                        devices)
            else None
        | _, _ => None
        end in
      let updatedDevices :=
        match updatedDevices with
        | Some updated => updated
        | None =>
            match findById devices (Connection.source connection),
                  findById devices (Connection.target connection) with
            | Some sourceDevice, Some targetDevice =>
                if isRouterDevice sourceDevice && isRouterDevice targetDevice then
                  match scanInterfaces (orEmpty (Device.interfaces sourceDevice))
                          (orEmpty (Device.interfaces targetDevice)) (None, None) with
                  | (Some sourceIfaceToRemove, Some targetIfaceToRemove) =>
                      if negb (isEmpty sourceIfaceToRemove) &&
                         negb (isEmpty targetIfaceToRemove)
                      then map (detachInterfaces connection sourceIfaceToRemove
                                  targetIfaceToRemove) devices
                      else devices
                  | _ => devices
                  end
                else devices
            | _, _ => devices
            end
        end in
      Store.mk updatedDevices
        (filter (fun c => negb (String.eqb (Connection.id c) id)) (Store.connections state))
        (Store.selectedDevice state)
  end.

(** *** Topologies the actions keep well formed *)

(** Both ends of the connection exist and one of them is a router. *)
Definition wiredConnection (devices : list Device.t) (c : Connection.t) : bool :=
  match findById devices (Connection.source c), findById devices (Connection.target c) with
  | Some sourceDevice, Some targetDevice =>
      isRouterDevice sourceDevice || isRouterDevice targetDevice
  | _, _ => false
  end.

(** No two connections join the same pair of devices. *)
Fixpoint singleLinks (connections : list Connection.t) : bool :=
  match connections with
  | [] => true
  | c :: rest =>
      negb (existsb (joins (Connection.source c) (Connection.target c)) rest) &&
      singleLinks rest
  end.

Definition wellWired (state : Store.t) : bool :=
  forallb (wiredConnection (Store.devices state)) (Store.connections state) &&
  singleLinks (Store.connections state).

(** The four actions that edit the topology. *)
Inductive Action : Type :=
| AddDevice (device : Device.t)
| DeleteDevice (id : string)
| AddConnection (sourceStamp targetStamp : Stamp.t) (connection : Connection.t)
| DeleteConnection (id : string).

Definition perform (state : Store.t) (action : Action) : Store.t :=
  match action with
  | AddDevice device => addDevice state device
  | DeleteDevice id => deleteDevice state id
  | AddConnection sourceStamp targetStamp connection =>
      fst (addConnection sourceStamp targetStamp state connection)
  | DeleteConnection id => deleteConnection state id
  end.

(** [f] changes at most the interfaces of a device, and only by removing
    some when [shrink] is set, only by adding some otherwise. *)
Definition editsInterfaces (shrink : bool) (f : Device.t -> Device.t) : Prop :=
  forall d,
    Device.id (f d) = Device.id d /\ Device.name (f d) = Device.name d /\
    Device.type (f d) = Device.type d /\ Device.ip (f d) = Device.ip d /\
    Device.routingTable (f d) = Device.routingTable d /\
    if shrink
    then incl (orEmpty (Device.interfaces (f d))) (orEmpty (Device.interfaces d))
    else incl (orEmpty (Device.interfaces d)) (orEmpty (Device.interfaces (f d))).

(** The interface carries none of the listed ids. *)
Definition idNotIn (ids : list string) (iface : NetworkInterface.t) : Prop :=
  match NetworkInterface.id iface with
  | Some id => ~ In id ids
  | None => True
  end.

(** *** A topology under edit *)

Module Editing.

Definition lan (ip : string) : NetworkInterface.t :=
  NetworkInterface.mk None "LAN" ip None (Some DEFAULT_SUBNET_MASK).

Definition R1 : Device.t := Sample.routerDevice "r1" "R1" "192.168.1.1" [lan "192.168.1.1"] [].
Definition R2 : Device.t := Sample.routerDevice "r2" "R2" "192.168.2.1" [lan "192.168.2.1"] [].
Definition PC1 : Device.t :=
  Device.mk "pc1" "PC1" pc "192.168.1.10" (Some []) None None None None.

Definition link (id source target : string) : Connection.t :=
  Connection.mk id source target None None.

Definition stampA : Stamp.t := Stamp.mk "lx2k9f3a" "k3j9".
Definition stampB : Stamp.t := Stamp.mk "lx2k9f3b" "p0q7".

Definition empty : Store.t := Store.mk [] [] None.

(** Three devices, no connection yet. *)
Definition unwired : Store.t := Store.mk [R1; R2; PC1] [] None.

(** [unwired] after linking the two routers. *)
Definition backboned : Store.t :=
  fst (addConnection stampA stampB unwired (link "c1" "r1" "r2")).

Definition session : list Action :=
  [AddDevice R1; AddDevice R2; AddDevice PC1;
   AddConnection stampA stampB (link "c1" "r1" "r2");
   AddConnection stampA stampB (link "c2" "pc1" "r1");
   AddConnection stampA stampB (link "c3" "r2" "r1");
   DeleteConnection "c1";
   DeleteDevice "pc1"].

End Editing.

(** The addresses [addConnection] enters in its address map: those of the
    devices that are no routers and have one. *)
Definition hostAddresses (devices : list Device.t) : list string :=
  map Device.ip
      (filter (fun d => negb (DeviceType_eqb (Device.type d) router) &&
                        negb (isEmpty (Device.ip d)))
              devices).

(** * Properties *)

Unset Implicit Arguments.

(** ** Splitting and joining *)


Lemma split_cons sep c rest :
  split sep (String c rest) =
  if Ascii.eqb c sep then EmptyString :: split sep rest
  else match split sep rest with
       | piece :: pieces => String c piece :: pieces
       | [] => [String c EmptyString]
       end.
Proof. reflexivity. Qed.

Lemma dotFree_cons c rest :
  dotFree (String c rest) = negb (Ascii.eqb c dot) && dotFree rest.
Proof. reflexivity. Qed.

Lemma split_not_nil sep s : split sep s <> [].
Proof.
  destruct s as [|c rest]; [discriminate|].
  rewrite split_cons.
  destruct (Ascii.eqb c sep); [discriminate|].
  destruct (split sep rest); discriminate.
Qed.

Lemma split_length_pos sep s : (1 <= length (split sep s))%nat.
Proof.
  pose proof (split_not_nil sep s) as H.
  destruct (split sep s); [congruence | simpl; lia].
Qed.

Lemma split_dotFree s : Forall (fun part => dotFree part = true) (split dot s).
Proof.
  induction s as [|c rest IH].
  - repeat constructor.
  - rewrite split_cons. destruct (Ascii.eqb c dot) eqn:E.
    + constructor; [reflexivity | exact IH].
    + destruct (split dot rest) as [|piece pieces].
      * constructor; [rewrite dotFree_cons, E; reflexivity | constructor].
      * inversion IH; subst.
        constructor; [rewrite dotFree_cons, E; simpl; assumption | assumption].
Qed.

Lemma split_dotFree_app a rest :
  dotFree a = true ->
  split dot (a ++ String dot rest) = a :: split dot rest.
Proof.
  induction a as [|c a IH]; intros H.
  - change (String.append EmptyString (String dot rest)) with (String dot rest).
    rewrite split_cons, Ascii.eqb_refl. reflexivity.
  - rewrite dotFree_cons in H. apply andb_true_iff in H as [Hc Ha].
    apply negb_true_iff in Hc.
    change (String.append (String c a) (String dot rest))
      with (String c (String.append a (String dot rest))).
    rewrite split_cons, Hc, (IH Ha). reflexivity.
Qed.

Lemma split_dotFree_whole a : dotFree a = true -> split dot a = [a].
Proof.
  induction a as [|c a IH]; intros H; [reflexivity|].
  rewrite dotFree_cons in H. apply andb_true_iff in H as [Hc Ha].
  apply negb_true_iff in Hc.
  rewrite split_cons, Hc, (IH Ha). reflexivity.
Qed.

Lemma dotFree_app a b : dotFree (a ++ b) = dotFree a && dotFree b.
Proof.
  induction a as [|c a IH]; [reflexivity|].
  change (String.append (String c a) b) with (String c (String.append a b)).
  rewrite !dotFree_cons, IH, andb_assoc. reflexivity.
Qed.

(** Two texts that agree up to their first dot have the same head. *)
Lemma dotFree_app_inj a b x y :
  dotFree a = true -> dotFree b = true ->
  a ++ String dot x = b ++ String dot y -> a = b /\ x = y.
Proof.
  revert b; induction a as [|c a IH]; intros [|d b] Ha Hb H;
    rewrite ?dotFree_cons in *;
    cbn [String.append] in H.
  - inversion H; auto.
  - inversion H; subst. rewrite Ascii.eqb_refl in Hb. discriminate.
  - inversion H; subst. rewrite Ascii.eqb_refl in Ha. discriminate.
  - inversion H; subst.
    apply andb_true_iff in Ha as [_ Ha]. apply andb_true_iff in Hb as [_ Hb].
    destruct (IH b Ha Hb H2) as [-> ->]. auto.
Qed.


(** ** Decimal text *)


Lemma isDigit_cases c :
  isDigit c = true ->
  In c ["0"; "1"; "2"; "3"; "4"; "5"; "6"; "7"; "8"; "9"]%char.
Proof.
  destruct c as [[] [] [] [] [] [] [] []]; intros H;
    try discriminate H; simpl; tauto.
Qed.

Ltac digit_cases H :=
  apply isDigit_cases in H; simpl in H;
  repeat (destruct H as [<- | H]; [ | ]); [ .. | contradiction ].

Lemma digit_not_space c rest : isDigit c = true -> stripWhiteSpaceChar (String c rest) = None.
Proof.
  intros H. digit_cases H;
    (destruct rest as [|c2 [|c3 rest]]; reflexivity).
Qed.

Lemma digit_no_sign c rest : isDigit c = true -> readSign (String c rest) = (false, String c rest).
Proof. intros H. digit_cases H; reflexivity. Qed.

Lemma digit_value c : isDigit c = true -> exists v, digitIn 10 c = Some v /\ (0 <= v < 10)%Z.
Proof. intros H. digit_cases H; eexists; (split; [vm_compute; reflexivity | lia]). Qed.

Lemma digit_not_dot c : isDigit c = true -> Ascii.eqb c dot = false.
Proof. intros H. digit_cases H; reflexivity. Qed.

Lemma allDigits_cons c rest : allDigits (String c rest) = isDigit c && allDigits rest.
Proof. reflexivity. Qed.

Lemma allDigits_dotFree s : allDigits s = true -> dotFree s = true.
Proof.
  induction s as [|c rest IH]; [reflexivity|].
  rewrite allDigits_cons, dotFree_cons. intros H.
  apply andb_true_iff in H as [Hc Hr].
  rewrite (digit_not_dot _ Hc), (IH Hr). reflexivity.
Qed.

Lemma trimStart_digit c rest : isDigit c = true -> trimStart (String c rest) = String c rest.
Proof.
  intros H. unfold trimStart. cbn [String.length trimStartFuel].
  rewrite (digit_not_space _ _ H). reflexivity.
Qed.

Lemma trimEnd_cons c rest :
  trimEnd (String c rest) =
  if isBlank (String c rest) then EmptyString else String c (trimEnd rest).
Proof. reflexivity. Qed.

Lemma trimEnd_digits s : allDigits s = true -> trimEnd s = s.
Proof.
  induction s as [|c rest IH]; [reflexivity|].
  rewrite allDigits_cons. intros H. apply andb_true_iff in H as [Hc Hr].
  rewrite trimEnd_cons. unfold isBlank. rewrite (trimStart_digit _ _ Hc), (IH Hr).
  reflexivity.
Qed.

Lemma trim_digits s : allDigits s = true -> trim s = s.
Proof.
  intros H. unfold trim. destruct s as [|c rest]; [reflexivity|].
  pose proof H as H'. rewrite allDigits_cons in H'. apply andb_true_iff in H' as [Hc _].
  rewrite (trimStart_digit _ _ Hc). apply trimEnd_digits, H.
Qed.

Lemma readDigits_step c rest v count acc :
  digitIn 10 c = Some v ->
  readDigits 10 (String c rest) count acc = readDigits 10 rest (S count) (acc * 10 + v)%Z.
Proof. intros H. cbn [readDigits]. rewrite H. reflexivity. Qed.

Ltac read_digit IH v :=
  rewrite (readDigits_step _ _ v) by reflexivity;
  match goal with
  | |- readDigits _ _ _ ?x = (_, Zpos (Pos.of_uint_acc _ ?a), _) =>
      replace x with (Zpos a) by lia
  | |- readDigits _ _ _ ?x = (_, Z.of_N (N.pos (Pos.of_uint_acc _ ?a)), _) =>
      replace x with (Zpos a) by lia
  end;
  rewrite IH; f_equal; f_equal; lia.

(** Reading the digits of a decimal numeral gives back its value. *)
Lemma readDigits_uint_acc d : forall count acc,
  readDigits 10 (NilEmpty.string_of_uint d) count (Zpos acc) =
  ((count + Decimal.nb_digits d)%nat, Zpos (Pos.of_uint_acc d acc), EmptyString).
Proof.
  induction d; intros count acc;
    cbn [NilEmpty.string_of_uint Decimal.nb_digits Pos.of_uint_acc].
  - cbn. f_equal. f_equal. lia.
  - read_digit IHd 0%Z.
  - read_digit IHd 1%Z.
  - read_digit IHd 2%Z.
  - read_digit IHd 3%Z.
  - read_digit IHd 4%Z.
  - read_digit IHd 5%Z.
  - read_digit IHd 6%Z.
  - read_digit IHd 7%Z.
  - read_digit IHd 8%Z.
  - read_digit IHd 9%Z.
Qed.

Lemma readDigits_uint d : forall count,
  readDigits 10 (NilEmpty.string_of_uint d) count 0 =
  ((count + Decimal.nb_digits d)%nat, Z.of_N (Pos.of_uint d), EmptyString).
Proof.
  induction d; intros count;
    cbn [NilEmpty.string_of_uint Decimal.nb_digits Pos.of_uint].
  - cbn. f_equal. f_equal. lia.
  - rewrite (readDigits_step _ _ 0%Z) by reflexivity. cbn [Z.mul Z.add].
    rewrite IHd. f_equal. f_equal. lia.
  - read_digit readDigits_uint_acc 1%Z.
  - read_digit readDigits_uint_acc 2%Z.
  - read_digit readDigits_uint_acc 3%Z.
  - read_digit readDigits_uint_acc 4%Z.
  - read_digit readDigits_uint_acc 5%Z.
  - read_digit readDigits_uint_acc 6%Z.
  - read_digit readDigits_uint_acc 7%Z.
  - read_digit readDigits_uint_acc 8%Z.
  - read_digit readDigits_uint_acc 9%Z.
Qed.

Lemma allDigits_uint d : allDigits (NilEmpty.string_of_uint d) = true.
Proof. induction d; cbn [NilEmpty.string_of_uint]; try reflexivity; rewrite allDigits_cons, IHd; reflexivity. Qed.

Lemma intToString_pos p : intToString (Zpos p) = NilEmpty.string_of_uint (Pos.to_uint p).
Proof.
  unfold intToString. cbn [Z.to_int NilZero.string_of_int]. unfold NilZero.string_of_uint.
  pose proof (DecimalPos.Unsigned.to_uint_nonnil p) as H.
  destruct (Pos.to_uint p); [congruence | reflexivity ..].
Qed.

Lemma allDigits_intToString z : (0 <= z)%Z -> allDigits (intToString z) = true.
Proof.
  intros H. destruct z as [|p|p]; [reflexivity | | lia].
  rewrite intToString_pos. apply allDigits_uint.
Qed.

Lemma intToString_not_empty z : intToString z <> EmptyString.
Proof.
  destruct z as [|p|p]; [discriminate | | discriminate].
  rewrite intToString_pos. pose proof (DecimalPos.Unsigned.to_uint_nonnil p) as H.
  destruct (Pos.to_uint p); [congruence | discriminate ..].
Qed.

(** The digits of a printed natural number read back as that number. *)
Lemma readDigits_intToString z :
  (0 <= z)%Z ->
  exists k, readDigits 10 (intToString z) 0 0 = (S k, z, EmptyString).
Proof.
  intros H. destruct z as [|p|p]; [exists O; reflexivity | | lia].
  rewrite intToString_pos, readDigits_uint, DecimalPos.Unsigned.of_to.
  pose proof (DecimalPos.Unsigned.to_uint_nonnil p) as Hn.
  destruct (Pos.to_uint p) eqn:E; [congruence | ..];
    (eexists; cbn [Decimal.nb_digits Nat.add Z.of_N]; reflexivity).
Qed.


(** ** Numbers *)


Lemma digits_not_literal_prefix s : allDigits s = true -> nonDecimalLiteral s = None.
Proof.
  destruct s as [|c [|k digits]]; intros H; [reflexivity | |].
  - rewrite allDigits_cons in H. apply andb_true_iff in H as [Hc _].
    digit_cases Hc; reflexivity.
  - rewrite !allDigits_cons in H. apply andb_true_iff in H as [Hc H].
    apply andb_true_iff in H as [Hk _].
    digit_cases Hc; try reflexivity. digit_cases Hk; reflexivity.
Qed.

Lemma digit_not_Infinity c rest : isDigit c = true -> String.eqb (String c rest) "Infinity" = false.
Proof. intros H. digit_cases H; reflexivity. Qed.

(** [Number] reads the decimal text of a natural number as the double
    nearest to it. *)
Lemma Number_intToString z : (0 <= z)%Z -> Number (intToString z) = roundZ false z 1.
Proof.
  intros Hz.
  pose proof (allDigits_intToString z Hz) as Hd.
  pose proof (intToString_not_empty z) as Hne.
  destruct (readDigits_intToString z Hz) as [k Hr].
  unfold Number. rewrite (trim_digits _ Hd).
  destruct (intToString z) as [|c rest] eqn:E; [congruence|].
  pose proof Hd as Hc. rewrite allDigits_cons in Hc. apply andb_true_iff in Hc as [Hc _].
  rewrite (digits_not_literal_prefix _ Hd), (digit_no_sign _ _ Hc).
  unfold decimalLiteral. rewrite (digit_not_Infinity _ _ Hc), Hr.
  cbn [Nat.add exponentPart Z.of_nat Z.sub Z.opp Z.leb Z.compare].
  cbn. rewrite Z.mul_1_r. reflexivity.
Qed.

(** A natural number below 2^53 is a double: rounding keeps its value. *)
Lemma roundToDouble_exact p :
  (Zpos p < 2 ^ 53)%Z ->
  exists k, roundToDouble false p 1 = Finite (Zpos p * Zpos k) k.
Proof.
  intros Hp. unfold roundToDouble. cbv zeta.
  set (L := Z.log2 (Zpos p)).
  assert (HL : (0 <= L < 53)%Z).
  { split; [apply Z.log2_nonneg | apply Z.log2_lt_pow2; lia]. }
  assert (Hspec : (2 ^ L <= Zpos p)%Z) by (apply Z.log2_spec; lia).
  change (Z.log2 1) with 0%Z. rewrite Z.sub_0_r.
  replace (0 <=? L)%Z with true by (symmetry; apply Z.leb_le; lia).
  replace (1 * 2 ^ L <=? Zpos p)%Z with true by (symmetry; apply Z.leb_le; lia).
  replace (Z.max (L - 52) (-1074)) with (L - 52)%Z by lia.
  destruct (Z.eq_dec L 52) as [E | NE].
  - rewrite E. change (52 - 52)%Z with 0%Z. cbn [Z.leb Z.compare].
    change (2 ^ 0)%Z with 1%Z. rewrite !Z.mul_1_r, Z.div_1_r, Z.mod_1_r.
    cbn [Z.mul Z.compare].
    replace (2 ^ 1024 <=? Zpos p)%Z with false.
    + exists 1%positive. f_equal. lia.
    + symmetry. apply Z.leb_gt. eapply Z.lt_trans; [exact Hp|].
      apply Z.pow_lt_mono_r; lia.
  - replace (0 <=? L - 52)%Z with false by (symmetry; apply Z.leb_gt; lia).
    rewrite Z.div_1_r, Z.mod_1_r. change (2 * 0 ?= 1)%Z with Lt. cbv iota.
    assert (Hpow : (0 < 2 ^ (- (L - 52)))%Z) by (apply Z.pow_pos_nonneg; lia).
    destruct (2 ^ (- (L - 52)))%Z as [|w|w]; [lia | | lia].
    exists w. reflexivity.
Qed.

Lemma roundZ_exact z :
  (0 <= z < 2 ^ 53)%Z -> exists k, roundZ false z 1 = Finite (z * Zpos k) k.
Proof.
  intros [H0 H1]. destruct z as [|p|p]; [exists 1%positive; reflexivity | | lia].
  apply roundToDouble_exact, H1.
Qed.

Lemma Number_intToString_exact z :
  (0 <= z < 2 ^ 53)%Z -> exists k, Number (intToString z) = Finite (z * Zpos k) k.
Proof.
  intros H. rewrite Number_intToString by lia. apply roundZ_exact, H.
Qed.

Lemma toInt32_scaled z k : (0 <= z < 2 ^ 31)%Z -> toInt32 (Finite (z * Zpos k) k) = z.
Proof.
  intros H. unfold toInt32. rewrite Z.quot_mul by lia.
  rewrite Z.mod_small by lia.
  replace (z >=? 2 ^ 31)%Z with false; [reflexivity|].
  symmetry. rewrite Z.geb_leb. apply Z.leb_gt. lia.
Qed.

Lemma sameValueZero_scaled z z' k :
  sameValueZero (ofZ z') (Finite (z * Zpos k) k) = (z' =? z)%Z.
Proof.
  unfold sameValueZero, ofZ.
  destruct (Z.eqb_spec z' z) as [->|NE].
  - apply Z.eqb_eq. lia.
  - apply Z.eqb_neq. nia.
Qed.

Lemma sameValueZero_sym x y : sameValueZero x y = sameValueZero y x.
Proof.
  destruct x as [|a|n d], y as [|b|n' d']; try reflexivity; cbn.
  - destruct a, b; reflexivity.
  - apply Z.eqb_sym.
Qed.

Lemma sameValueZero_trans x y z :
  sameValueZero x y = true -> sameValueZero y z = true -> sameValueZero x z = true.
Proof.
  destruct x as [|a|n d], y as [|b|n' d'], z as [|c|n'' d'']; cbn; try congruence.
  - intros H1 H2. apply Bool.eqb_prop in H1, H2. subst. apply Bool.eqb_reflx.
  - intros H1 H2. apply Z.eqb_eq in H1, H2. apply Z.eqb_eq.
    apply (Z.mul_cancel_r _ _ (Zpos d')); [lia|]. nia.
Qed.


(** ** Subnet derivation *)

Lemma append_not_empty a b : a <> EmptyString -> String.eqb (a ++ b) "" = false.
Proof. destruct a; [congruence | reflexivity]. Qed.

Lemma length_four {A : Type} (l : list A) :
  length l = 4%nat -> exists a b c d, l = [a; b; c; d].
Proof.
  destruct l as [|a [|b [|c [|d [|e l]]]]]; try discriminate. intros _. eauto.
Qed.

(** [calculateSubnet] is empty exactly when one of its arguments does not
    have four parts. *)
Lemma calculateSubnet_four ip subnetMask a b c d m1 m2 m3 m4 :
  split dot ip = [a; b; c; d] -> split dot subnetMask = [m1; m2; m3; m4] ->
  calculateSubnet ip subnetMask =
  dotted (intToString (bitAnd (Number a) (Number m1)))
         (intToString (bitAnd (Number b) (Number m2)))
         (intToString (bitAnd (Number c) (Number m3)))
         (intToString (bitAnd (Number d) (Number m4))).
Proof.
  intros Hip Hmask. unfold calculateSubnet. rewrite Hip, Hmask. reflexivity.
Qed.

Lemma calculateSubnet_other ip subnetMask :
  (length (split dot ip) =? 4)%nat && (length (split dot subnetMask) =? 4)%nat = false ->
  calculateSubnet ip subnetMask = "".
Proof.
  intros H. unfold calculateSubnet. rewrite !length_map.
  apply andb_false_iff in H as [H | H]; rewrite H; [reflexivity|].
  cbn [negb]. rewrite orb_true_r. reflexivity.
Qed.

Lemma split_quad_text a b c d :
  dotFree a = true -> dotFree b = true -> dotFree c = true -> dotFree d = true ->
  split dot (dotted a b c d) = [a; b; c; d].
Proof.
  intros Ha Hb Hc Hd. unfold dotted.
  change "."%string with (String dot EmptyString).
  repeat (change (String dot EmptyString ++ ?x) with (String dot x)).
  cbn [String.append].
  rewrite (split_dotFree_app a _ Ha), (split_dotFree_app b _ Hb), (split_dotFree_app c _ Hc).
  rewrite (split_dotFree_whole d Hd). reflexivity.
Qed.

Lemma split_quad a b c d :
  (0 <= a)%Z -> (0 <= b)%Z -> (0 <= c)%Z -> (0 <= d)%Z ->
  split dot (quad a b c d) = [intToString a; intToString b; intToString c; intToString d].
Proof.
  intros. apply split_quad_text; apply allDigits_dotFree, allDigits_intToString; assumption.
Qed.

Lemma bitAnd_octets a m :
  (0 <= a < 2 ^ 31)%Z -> (0 <= m < 2 ^ 31)%Z ->
  bitAnd (Number (intToString a)) (Number (intToString m)) = Z.land a m.
Proof.
  intros Ha Hm. unfold bitAnd.
  destruct (Number_intToString_exact a) as [k ->]; [lia|].
  destruct (Number_intToString_exact m) as [k' ->]; [lia|].
  rewrite !toInt32_scaled by lia. reflexivity.
Qed.

(** C6 (as amended).  [deriveSubnet] is decided by the number of
    dot-separated parts alone: with four parts on both sides it is the
    part-wise AND of the numbers the parts read as (a part that is not a
    number reads as 0); otherwise it is the first three parts of the
    address followed by [.0] when the address has at least three parts, and
    [0.0.0.0] when it has fewer.  On dotted quads of octets this is the
    octet-wise AND. *)
Theorem deriveSubnet_by_part_count :
  (forall ip mask,
     deriveSubnet ip mask =
     let ipParts := split dot ip in
     let maskParts := split dot mask in
     if (length ipParts =? 4)%nat && (length maskParts =? 4)%nat then
       join "."
         (map (fun pm => intToString (bitAnd (Number (fst pm)) (Number (snd pm))))
              (combine ipParts maskParts))
     else if (3 <=? length ipParts)%nat then
       templateAt ipParts 0 ++ "." ++ templateAt ipParts 1 ++ "."
       ++ templateAt ipParts 2 ++ ".0"
     else "0.0.0.0") /\
  (forall a b c d m1 m2 m3 m4,
     isOctet a -> isOctet b -> isOctet c -> isOctet d ->
     isOctet m1 -> isOctet m2 -> isOctet m3 -> isOctet m4 ->
     deriveSubnet (quad a b c d) (quad m1 m2 m3 m4) =
     quad (Z.land a m1) (Z.land b m2) (Z.land c m3) (Z.land d m4)).
Proof.
  split.
  - intros ip mask. cbv zeta. unfold deriveSubnet.
    destruct ((length (split dot ip) =? 4)%nat && (length (split dot mask) =? 4)%nat) eqn:E.
    + apply andb_true_iff in E as [E1 E2]. apply Nat.eqb_eq in E1, E2.
      destruct (length_four _ E1) as (a & b & c & d & Hip).
      destruct (length_four _ E2) as (m1 & m2 & m3 & m4 & Hmask).
      rewrite (calculateSubnet_four _ _ _ _ _ _ _ _ _ _ Hip Hmask), Hip, Hmask.
      unfold dotted. rewrite append_not_empty by apply intToString_not_empty.
      reflexivity.
    + rewrite (calculateSubnet_other _ _ E). reflexivity.
  - intros a b c d m1 m2 m3 m4 Ha Hb Hc Hd H1 H2 H3 H4. unfold isOctet in *.
    unfold deriveSubnet.
    rewrite (calculateSubnet_four _ _ _ _ _ _ _ _ _ _
               (split_quad a b c d ltac:(lia) ltac:(lia) ltac:(lia) ltac:(lia))
               (split_quad m1 m2 m3 m4 ltac:(lia) ltac:(lia) ltac:(lia) ltac:(lia))).
    rewrite !bitAnd_octets by lia.
    unfold dotted at 1. rewrite append_not_empty by apply intToString_not_empty.
    reflexivity.
Qed.

Lemma deriveSubnet_by_part_count_witness :
  deriveSubnet (quad 192 168 1 130) (quad 255 255 255 128) = quad 192 168 1 128.
Proof.
  exact (proj2 deriveSubnet_by_part_count 192 168 1 130 255 255 255 128
           ltac:(unfold isOctet; lia) ltac:(unfold isOctet; lia)
           ltac:(unfold isOctet; lia) ltac:(unfold isOctet; lia)
           ltac:(unfold isOctet; lia) ltac:(unfold isOctet; lia)
           ltac:(unfold isOctet; lia) ltac:(unfold isOctet; lia))%Z.
Defined.

(** C6 as stated fails: a mask of four parts, one of them not a number, is
    not replaced by the first three octets of the address, and an address of
    five parts does not give [0.0.0.0]. *)
Lemma deriveSubnet_fallback_counterexample :
  isValidSubnetMask "255.255.x.0" = false /\
  deriveSubnet "192.168.1.10" "255.255.x.0" = "192.168.0.0" /\
  deriveSubnet "192.168.1.10" "255.255.x.0" <> "192.168.1.0" /\
  validateIP "1.2.3.4.5" = false /\
  deriveSubnet "1.2.3.4.5" "255.255.255.0" = "1.2.3.0" /\
  deriveSubnet "1.2.3.4.5" "255.255.255.0" <> "0.0.0.0".
Proof.
  repeat split; try (vm_compute; reflexivity); vm_compute; discriminate.
Qed.

(** ** The backbone allocator *)

Lemma setHas_app used more x : setHas (used ++ more)%list x = setHas used x || setHas more x.
Proof. unfold setHas. apply existsb_app. Qed.

Lemma setHas_equal used x y :
  sameValueZero x y = true -> setHas used y = true -> setHas used x = true.
Proof.
  unfold setHas. intros Hxy Hy. apply existsb_exists in Hy as (u & Hu & Hyu).
  apply existsb_exists. exists u. split; [assumption|].
  eapply sameValueZero_trans; eassumption.
Qed.

Lemma setHas_setAdd used y x :
  setHas (setAdd used y) x = setHas used x || sameValueZero x y.
Proof.
  unfold setAdd. destruct (setHas used y) eqn:Hy.
  - destruct (sameValueZero x y) eqn:Hxy.
    + rewrite (setHas_equal used x y Hxy Hy). reflexivity.
    + rewrite orb_false_r. reflexivity.
  - rewrite setHas_app. cbn. rewrite orb_false_r. reflexivity.
Qed.

Lemma setAdd_length used y : (length (setAdd used y) <= S (length used))%nat.
Proof.
  unfold setAdd. destruct (setHas used y); [lia|].
  rewrite length_app. simpl. lia.
Qed.

Lemma collectInterface_has used iface x :
  setHas (collectInterface used iface) x = true <->
  setHas used x = true \/ readsIndex iface x.
Proof.
  unfold collectInterface, readsIndex. cbv zeta.
  change (nth 0 BACKBONE_PREFIX_PARTS "") with "10".
  change (nth 1 BACKBONE_PREFIX_PARTS "") with "0".
  destruct (String.eqb_spec (NetworkInterface.ip iface) "") as [Hip | Hip];
    [cbn [orb]; intuition congruence|].
  destruct (String.eqb_spec (NetworkInterface.name iface) "LAN") as [Hn | Hn];
    [cbn [orb]; intuition congruence|].
  cbn [orb].
  destruct (Nat.ltb_spec (length (split dot (NetworkInterface.ip iface))) 3) as [Hl | Hl];
    [intuition lia|].
  destruct (String.eqb_spec (nth 0 (split dot (NetworkInterface.ip iface)) "") "10") as [H0 | H0];
    [|cbn [andb]; intuition congruence].
  destruct (String.eqb_spec (nth 1 (split dot (NetworkInterface.ip iface)) "") "0") as [H1 | H1];
    [|cbn [andb]; intuition congruence].
  cbn [andb].
  destruct (isNaN (Number (nth 2 (split dot (NetworkInterface.ip iface)) ""))) eqn:Hnan;
    cbn [negb].
  - intuition congruence.
  - rewrite setHas_setAdd, orb_true_iff. intuition.
Qed.

Lemma collectInterface_length used iface :
  (length (collectInterface used iface) <= S (length used))%nat.
Proof.
  unfold collectInterface.
  repeat match goal with
         | |- context [if ?b then _ else _] => destruct b
         end; try lia; apply setAdd_length.
Qed.

Lemma collectInterfaces_has ifaces : forall used x,
  setHas (fold_left collectInterface ifaces used) x = true <->
  setHas used x = true \/ exists iface, In iface ifaces /\ readsIndex iface x.
Proof.
  induction ifaces as [|iface rest IH]; intros used x; cbn [fold_left].
  - split; [auto | intros [H | (i & [] & _)]; exact H].
  - rewrite IH, collectInterface_has. split.
    + intros [[H | H] | (i & Hi & Hr)]; [auto | right; exists iface; simpl; auto |].
      right. exists i. simpl. auto.
    + intros [H | (i & [<- | Hi] & Hr)]; [auto | auto |].
      right. exists i. auto.
Qed.

Lemma collectInterfaces_length ifaces : forall used,
  (length (fold_left collectInterface ifaces used) <= length ifaces + length used)%nat.
Proof.
  induction ifaces as [|iface rest IH]; intros used; cbn [fold_left length]; [lia|].
  specialize (IH (collectInterface used iface)).
  pose proof (collectInterface_length used iface). lia.
Qed.

Lemma collectDevices_has devices : forall used x,
  setHas (fold_left collectDevice devices used) x = true <->
  setHas used x = true \/ usesBackboneIndex devices x.
Proof.
  induction devices as [|device rest IH]; intros used x; cbn [fold_left].
  - split; [auto | intros [H | (d & i & [] & _)]; exact H].
  - rewrite IH. unfold collectDevice.
    destruct (isRouterDevice device) eqn:Hr; cbn [negb].
    + rewrite collectInterfaces_has. split.
      * intros [[H | (i & Hi & Hx)] | (d & i & Hd & Hrest)]; [auto | |].
        -- right. exists device, i. simpl. auto.
        -- right. exists d, i. simpl. tauto.
      * intros [H | (d & i & [<- | Hd] & Hrd & Hi & Hx)]; [auto | |].
        -- left. right. exists i. auto.
        -- right. exists d, i. auto.
    + split.
      * intros [H | (d & i & Hd & Hrest)]; [auto|].
        right. exists d, i. simpl. tauto.
      * intros [H | (d & i & [<- | Hd] & Hrd & Hi & Hx)]; [auto | congruence |].
        right. exists d, i. auto.
Qed.

Lemma collectDevices_length devices : forall used,
  (length (fold_left collectDevice devices used) <= interfaceCount devices + length used)%nat.
Proof.
  induction devices as [|device rest IH]; intros used;
    unfold interfaceCount in *; cbn [fold_left map list_sum]; [lia|].
  specialize (IH (collectDevice used device)).
  assert (length (collectDevice used device)
          <= length (orEmpty (Device.interfaces device)) + length used)%nat.
  { unfold collectDevice. destruct (isRouterDevice device); cbn [negb]; [|lia].
    apply collectInterfaces_length. }
  cbn [list_sum fold_right]. fold (list_sum (map (fun d : Device.t => length (orEmpty (Device.interfaces d))) rest)). lia.
Qed.

(** The set collected is the set of indices in use. *)
Lemma collectUsedBackboneIndices_has devices x :
  setHas (collectUsedBackboneIndices devices) x = true <-> usesBackboneIndex devices x.
Proof.
  unfold collectUsedBackboneIndices. rewrite collectDevices_has. cbn. intuition congruence.
Qed.

Lemma collectUsedBackboneIndices_length devices :
  (length (collectUsedBackboneIndices devices) <= interfaceCount devices)%nat.
Proof.
  unfold collectUsedBackboneIndices. pose proof (collectDevices_length devices []).
  simpl in *. lia.
Qed.

Lemma asNat_spec x m :
  sameValueZero (ofZ (Z.of_nat m)) x = true <-> In m (asNat x).
Proof.
  destruct x as [| neg | n d]; cbn; try (split; [discriminate | tauto]).
  rewrite Z.eqb_eq.
  destruct (Z.leb_spec 0 n) as [Hn | Hn]; cbn [andb].
  - destruct (Z.eqb_spec (n mod Zpos d) 0) as [Hm | Hm].
    + cbn. apply Z.mod_divide in Hm; [|lia]. destruct Hm as [q ->].
      rewrite Z.div_mul by lia. split.
      * intros H. left. assert (q = Z.of_nat m) by nia. subst. apply Nat2Z.id.
      * intros [<- | []]. rewrite Z2Nat.id by nia. lia.
    + cbn. split; [|tauto]. intros H. apply Hm.
      replace n with (Z.of_nat m * Zpos d)%Z by lia. apply Z.mod_mul. lia.
  - cbn. split; [|tauto]. nia.
Qed.

Lemma asNat_length x : (length (asNat x) <= 1)%nat.
Proof.
  destruct x as [| neg | n d]; cbn; try lia.
  destruct ((0 <=? n)%Z && (n mod Zpos d =? 0)%Z); cbn; lia.
Qed.

Lemma flat_map_asNat_length used : (length (flat_map asNat used) <= length used)%nat.
Proof.
  induction used as [|u rest IH]; cbn; [lia|].
  rewrite length_app. pose proof (asNat_length u). lia.
Qed.

(** A set holding every natural number below [n] has at least [n]
    elements. *)
Lemma setHas_initial_segment used n :
  (forall m, (m < n)%nat -> setHas used (ofZ (Z.of_nat m)) = true) ->
  (n <= length used)%nat.
Proof.
  intros H.
  assert (Hincl : incl (seq 0 n) (flat_map asNat used)).
  { intros m Hm. apply in_seq in Hm. apply in_flat_map.
    specialize (H m ltac:(lia)). unfold setHas in H.
    apply existsb_exists in H as (u & Hu & Hs). exists u. split; [assumption|].
    apply asNat_spec, Hs. }
  pose proof (NoDup_incl_length (seq_NoDup n 0) Hincl) as Hlen.
  rewrite length_seq in Hlen. pose proof (flat_map_asNat_length used). lia.
Qed.

Lemma firstUnused_run used : forall budget index,
  (forall m, (m < index)%nat -> setHas used (ofZ (Z.of_nat m)) = true) ->
  let found := firstUnused used budget index in
  (index <= found <= index + budget)%nat /\
  (forall m, (m < found)%nat -> setHas used (ofZ (Z.of_nat m)) = true) /\
  ((found < index + budget)%nat -> setHas used (ofZ (Z.of_nat found)) = false).
Proof.
  induction budget as [|budget IH]; intros index Hbelow; cbn [firstUnused].
  - cbv zeta. repeat split; try lia; auto. 
  - destruct (setHas used (ofZ (Z.of_nat index))) eqn:E.
    + destruct (IH (S index)) as (Hr & Hall & Hnot).
      { intros m Hm. destruct (Nat.eq_dec m index) as [-> | NE]; [exact E|].
        apply Hbelow. lia. }
      cbv zeta. repeat split; try lia; auto. intros Hlt. apply Hnot. lia.
    + cbv zeta. repeat split; try lia; auto.
Qed.

(** The loop of [allocateBackboneNetwork] stops at the least natural number
    that is not in the set. *)
Lemma firstUnused_spec used :
  let found := firstUnused used (S (length used)) 0 in
  setHas used (ofZ (Z.of_nat found)) = false /\
  (forall m, (m < found)%nat -> setHas used (ofZ (Z.of_nat m)) = true) /\
  (found <= length used)%nat.
Proof.
  destruct (firstUnused_run used (S (length used)) 0) as (Hr & Hall & Hnot);
    [intros m Hm; lia|].
  cbv zeta. pose proof (setHas_initial_segment used _ Hall) as Hlen.
  repeat split; [apply Hnot; lia | exact Hall | exact Hlen].
Qed.

Lemma templateAt_dotFree parts i :
  Forall (fun part => dotFree part = true) parts -> dotFree (templateAt parts i) = true.
Proof.
  intros H. unfold templateAt. destruct (Nat.lt_ge_cases i (length parts)) as [Hi | Hi].
  - rewrite Forall_forall in H. apply H, nth_In, Hi.
  - rewrite nth_overflow by exact Hi. reflexivity.
Qed.

Lemma dotted_unfold a b c d :
  dotted a b c d = a ++ String dot (b ++ String dot (c ++ String dot d)).
Proof. reflexivity. Qed.

Lemma getNetwork_dotted ip :
  getNetwork ip =
  dotted (templateAt (split dot ip) 0) (templateAt (split dot ip) 1)
         (templateAt (split dot ip) 2) "0".
Proof. reflexivity. Qed.

Lemma dotted_inj a b c d a' b' c' d' :
  dotFree a = true -> dotFree b = true -> dotFree c = true ->
  dotFree a' = true -> dotFree b' = true -> dotFree c' = true ->
  dotted a b c d = dotted a' b' c' d' -> a = a' /\ b = b' /\ c = c' /\ d = d'.
Proof.
  intros Ha Hb Hc Ha' Hb' Hc' H. rewrite !dotted_unfold in H.
  apply dotFree_app_inj in H as [-> H]; try assumption.
  apply dotFree_app_inj in H as [-> H]; try assumption.
  apply dotFree_app_inj in H as [-> H]; try assumption.
  auto.
Qed.

(** C7.  In a snapshot of fewer than 2^53 interfaces, a new backbone link
    gets the subnet 10.0.N.0 where N is the least natural number that no
    non-LAN interface of a router with an address 10.0.x... uses as x; no
    such interface is on the network 10.0.N.0. *)
Theorem backbone_first_fit devices :
  (Z.of_nat (interfaceCount devices) < 2 ^ 53)%Z ->
  let index := allocatedIndex devices in
  allocateBackboneNetwork devices =
    Backbone.mk (dotted "10" "0" (natToString index) "0")
                (dotted "10" "0" (natToString index) "1")
                (dotted "10" "0" (natToString index) "2") /\
  ~ usesBackboneIndex devices (ofZ (Z.of_nat index)) /\
  (forall m, (m < index)%nat -> usesBackboneIndex devices (ofZ (Z.of_nat m))) /\
  (forall device iface,
     In device devices -> isRouterDevice device = true ->
     In iface (orEmpty (Device.interfaces device)) ->
     NetworkInterface.name iface <> "LAN" -> NetworkInterface.ip iface <> "" ->
     getNetwork (NetworkInterface.ip iface)
     <> Backbone.subnet (allocateBackboneNetwork devices)).
Proof.
  intros Hsmall index.
  destruct (firstUnused_spec (collectUsedBackboneIndices devices)) as (Hfree & Hbelow & Hlen).
  fold (allocatedIndex devices) in Hfree, Hbelow, Hlen. fold index in Hfree, Hbelow, Hlen.
  pose proof (collectUsedBackboneIndices_length devices) as Hcount.
  assert (Hnot : ~ usesBackboneIndex devices (ofZ (Z.of_nat index))).
  { intros H. apply collectUsedBackboneIndices_has in H. congruence. }
  split; [reflexivity|]. split; [exact Hnot|]. split.
  - intros m Hm. apply collectUsedBackboneIndices_has, Hbelow, Hm.
  - intros device iface Hd Hr Hi Hname Hip Heq. apply Hnot.
    change (Backbone.subnet (allocateBackboneNetwork devices))
      with (dotted "10" "0" (natToString index) "0") in Heq.
    rewrite getNetwork_dotted in Heq.
    pose proof (split_dotFree (NetworkInterface.ip iface)) as Hparts.
    assert (Hdigits : allDigits (natToString index) = true)
      by (apply allDigits_intToString; lia).
    apply dotted_inj in Heq as (H0 & H1 & H2 & _);
      try (apply templateAt_dotFree, Hparts); try reflexivity;
      [|apply allDigits_dotFree, Hdigits].
    assert (Hlong : (3 <= length (split dot (NetworkInterface.ip iface)))%nat).
    { destruct (Nat.lt_ge_cases (length (split dot (NetworkInterface.ip iface))) 3)
        as [Hshort | Hok]; [|exact Hok].
      unfold templateAt in H2. rewrite nth_overflow in H2 by lia.
      rewrite <- H2 in Hdigits. discriminate Hdigits. }
    unfold templateAt in H0, H1, H2.
    exists device, iface. repeat split; try assumption.
    + rewrite (nth_indep _ "" "undefined") by lia. exact H0.
    + rewrite (nth_indep _ "" "undefined") by lia. exact H1.
    + rewrite (nth_indep _ "" "undefined") by lia. rewrite H2. unfold natToString.
      destruct (Number_intToString_exact (Z.of_nat index)) as [k ->]; [lia | reflexivity].
    + rewrite (nth_indep _ "" "undefined") by lia. rewrite H2. unfold natToString.
      destruct (Number_intToString_exact (Z.of_nat index)) as [k ->]; [lia|].
      rewrite sameValueZero_scaled. apply Z.eqb_refl.
Qed.

Lemma backbone_first_fit_witness :
  Backbone.subnet (allocateBackboneNetwork Sample.twoRouters) = "10.0.1.0" /\
  ~ usesBackboneIndex Sample.twoRouters (ofZ 1) /\
  usesBackboneIndex Sample.twoRouters (ofZ 0).
Proof.
  destruct (backbone_first_fit Sample.twoRouters) as (Heq & Hfree & Hbelow & _).
  - vm_compute. reflexivity.
  - split; [rewrite Heq; vm_compute; reflexivity|].
    split; [exact Hfree | apply (Hbelow 0%nat); vm_compute; lia].
Defined.

(** ** Address validation *)

Lemma readDigits_count radix s : forall count acc,
  (count <= fst (fst (readDigits radix s count acc)))%nat.
Proof.
  induction s as [|c rest IH]; intros count acc; cbn [readDigits]; [simpl; lia|].
  destruct (digitIn radix c); [|simpl; lia].
  specialize (IH (S count) (acc * radix + z)%Z). lia.
Qed.

Lemma digits_no_hex_prefix s : allDigits s = true -> stripHexPrefix s = None.
Proof.
  destruct s as [|c [|k digits]]; intros H; [reflexivity | |].
  - rewrite allDigits_cons in H. apply andb_true_iff in H as [Hc _].
    digit_cases Hc; reflexivity.
  - rewrite !allDigits_cons in H. apply andb_true_iff in H as [Hc H].
    apply andb_true_iff in H as [Hk _].
    digit_cases Hc; try reflexivity. digit_cases Hk; reflexivity.
Qed.

(** [parseInt] reads a non-empty run of digits as a number. *)
Lemma parseInt_digits s :
  allDigits s = true -> s <> EmptyString -> exists v, parseInt s = Some v.
Proof.
  intros Hd Hne. destruct s as [|c rest]; [congruence|].
  pose proof Hd as Hc. rewrite allDigits_cons in Hc. apply andb_true_iff in Hc as [Hc _].
  unfold parseInt.
  rewrite (trimStart_digit _ _ Hc), (digit_no_sign _ _ Hc), (digits_no_hex_prefix _ Hd).
  destruct (digit_value c Hc) as (v & Hv & _).
  rewrite (readDigits_step _ _ v) by exact Hv.
  pose proof (readDigits_count 10 rest 1 (0 * 10 + v)%Z) as Hcount.
  destruct (readDigits 10 rest 1 (0 * 10 + v)%Z) as [[count value] tail].
  simpl in Hcount. destruct count as [|count]; [lia|]. eauto.
Qed.

Lemma firstOutOfRange_none segments : forall i,
  firstOutOfRange segments i = None ->
  Forall (fun segment => forall v, segment = Some v -> (0 <= v <= 255)%Z) segments.
Proof.
  induction segments as [|segment rest IH]; intros i H; [constructor|].
  cbn [firstOutOfRange] in H. destruct segment as [v|].
  - destruct ((v <? 0)%Z || (255 <? v)%Z) eqn:E; [discriminate|].
    apply orb_false_iff in E as [E1 E2]. apply Z.ltb_ge in E1, E2.
    constructor; [intros w [= <-]; lia | eapply IH; eassumption].
  - constructor; [discriminate | eapply IH; eassumption].
Qed.

Lemma validateIPAddress_valid ip :
  Validation.valid (validateIPAddress ip) = true ->
  exists groups,
    matchIpPattern ip = Some groups /\ firstOutOfRange (map parseInt groups) 0 = None.
Proof.
  unfold validateIPAddress.
  destruct (String.eqb ip "" || String.eqb (trim ip) ""); [discriminate|].
  destruct (matchIpPattern ip) as [groups|]; [|discriminate].
  destruct (firstOutOfRange (map parseInt groups) 0) as [[i segment]|] eqn:E; [discriminate|].
  intros _. exists groups. split; [reflexivity | exact E].
Qed.

(** Every address [validateIPAddress] accepts, the store's [validateIP]
    accepts too. *)
Lemma validateIPAddress_validateIP ip :
  Validation.valid (validateIPAddress ip) = true -> validateIP ip = true.
Proof.
  intros H. destruct (validateIPAddress_valid ip H) as (groups & Hm & Hrange).
  unfold matchIpPattern in Hm.
  destruct ((length (split dot ip) =? 4)%nat && forallb isOctetText (split dot ip)) eqn:E;
    [|discriminate].
  injection Hm as <-. apply andb_true_iff in E as [Hlen Hoct].
  unfold validateIP. rewrite Hlen. cbn [negb].
  apply firstOutOfRange_none in Hrange. rewrite Forall_map in Hrange.
  rewrite forallb_forall in Hoct. rewrite Forall_forall in Hrange.
  apply forallb_forall. intros part Hin.
  specialize (Hoct part Hin). specialize (Hrange part Hin).
  unfold isOctetText in Hoct. apply andb_true_iff in Hoct as [Hoct _].
  apply andb_true_iff in Hoct as [Hd Hl]. apply Nat.leb_le in Hl.
  destruct (parseInt_digits part Hd) as [v Hv].
  { intros ->. simpl in Hl. lia. }
  rewrite Hv. specialize (Hrange v Hv).
  apply andb_true_iff. split; apply Z.leb_le; lia.
Qed.

(** The converse fails: the loopback address passes [validateIP]. *)
Lemma validateIP_not_strict :
  validateIP "127.0.0.1" = true /\ Validation.valid (validateIPAddress "127.0.0.1") = false.
Proof. split; vm_compute; reflexivity. Qed.

(** ** The resolver's early exits *)

Lemma find_some_in {A : Type} (p : A -> bool) l x : find p l = Some x -> In x l /\ p x = true.
Proof. apply find_some. Qed.

Lemma find_exists {A : Type} (p : A -> bool) l x :
  In x l -> p x = true -> exists y, find p l = Some y.
Proof.
  intros Hin Hp. destruct (find p l) as [y|] eqn:E; [eauto|].
  exfalso. pose proof (find_none p l E x Hin). congruence.
Qed.

(** C5.  When some device has the valid address [A], resolving from [A] to
    [A] succeeds with the one-element path holding the name of the first
    device with that address. *)
Theorem same_address_single_path devices connections A showSteps :
  Validation.valid (validateIPAddress A) = true ->
  (exists d, In d devices /\ Device.ip d = A) ->
  exists d,
    find (fun d => String.eqb (Device.ip d) A) devices = Some d /\
    In d devices /\ Device.ip d = A /\
    simulateRouting devices connections A A showSteps =
      Returned (SimulationResult.plain true [Device.name d] msgSameDevice []).
Proof.
  intros Hvalid (d0 & Hin & Hip).
  destruct (find_exists (fun d => String.eqb (Device.ip d) A) devices d0 Hin) as [d Hfind].
  { apply String.eqb_eq, Hip. }
  exists d. destruct (find_some_in _ _ _ Hfind) as [Hd Hd'].
  apply String.eqb_eq in Hd'.
  split; [exact Hfind|]. split; [exact Hd|]. split; [exact Hd'|].
  unfold simulateRouting.
  rewrite (validateIPAddress_validateIP A Hvalid). cbn [negb].
  rewrite Hfind, String.eqb_refl. reflexivity.
Qed.

Lemma same_address_single_path_witness :
  exists d,
    find (fun d => String.eqb (Device.ip d) "192.168.1.10") Sample.twoRouters = Some d /\
    In d Sample.twoRouters /\ Device.ip d = "192.168.1.10" /\
    simulateRouting Sample.twoRouters Sample.twoRoutersLinks "192.168.1.10" "192.168.1.10" false =
      Returned (SimulationResult.plain true [Device.name d] msgSameDevice []).
Proof.
  apply same_address_single_path.
  - vm_compute. reflexivity.
  - exists Sample.PC1. split; [simpl; auto | reflexivity].
Defined.

(** C3 (as amended).  An argument that fails the store's [validateIP] ends
    the resolution at once with a malformed-address failure, the source
    being checked first. *)
Theorem malformed_address_fails_early devices connections sourceIP destIP showSteps :
  validateIP sourceIP = false \/ validateIP destIP = false ->
  simulateRouting devices connections sourceIP destIP showSteps =
    Returned (SimulationResult.plain false []
                (if validateIP sourceIP then msgBadDest destIP else msgBadSource sourceIP)
                []).
Proof.
  intros H. unfold simulateRouting.
  destruct (validateIP sourceIP); cbn [negb]; [|reflexivity].
  destruct H as [H | H]; [discriminate|]. rewrite H. reflexivity.
Qed.

Lemma malformed_address_fails_early_witness :
  simulateRouting Sample.twoRouters Sample.twoRoutersLinks "192.168.1.10" "192.168.2" false =
    Returned (SimulationResult.plain false [] (msgBadDest "192.168.2") []).
Proof.
  apply (malformed_address_fails_early Sample.twoRouters Sample.twoRoutersLinks
           "192.168.1.10" "192.168.2" false).
  right. vm_compute. reflexivity.
Defined.

(** C3 as stated fails: 192.168.1.255 does not pass [validateIPAddress],
    yet the resolver computes a path from it. *)
Lemma malformed_address_counterexample :
  Validation.valid (validateIPAddress "192.168.1.255") = false /\
  simulateRouting Sample.twoRoutersBroadcast Sample.twoRoutersLinks
    "192.168.1.255" "192.168.2.10" false
  = Returned (SimulationResult.plain true ["PC1"; "R1"; "R2"; "PC2"] (msgArrived 2) []).
Proof. split; vm_compute; reflexivity. Qed.

(** ** Trying the candidate routes *)

Section Candidates.

Variable devices : list Device.t.
Variable connections : list Connection.t.
Variable currentDevice : Device.t.
Variables destIP destNetwork : string.

Local Abbreviation attempt := (attemptRoute devices connections currentDevice destIP destNetwork).
Local Abbreviation try := (tryRoutes devices connections currentDevice destIP destNetwork).
Local Abbreviation failsWith := (failsWith devices connections currentDevice destIP destNetwork).

Lemma tryRoutes_first_usable pre route post failures : forall failedRoutes,
  Forall2 failsWith pre failures ->
  attempt route = None ->
  try (pre ++ route :: post)%list failedRoutes = (Some route, (failedRoutes ++ failures)%list).
Proof.
  intros failedRoutes Hpre. revert failedRoutes.
  induction Hpre as [|c f pre fs Hc Hrest IH]; intros failedRoutes Hroute.
  - cbn. rewrite Hroute, app_nil_r. reflexivity.
  - cbn. unfold failsWith in Hc. rewrite Hc.
    rewrite (IH _ Hroute), <- app_assoc. reflexivity.
Qed.

Lemma tryRoutes_found sortedRoutes : forall failedRoutes route failedRoutes',
  try sortedRoutes failedRoutes = (Some route, failedRoutes') ->
  exists pre post failures,
    sortedRoutes = (pre ++ route :: post)%list /\
    failedRoutes' = (failedRoutes ++ failures)%list /\
    Forall2 failsWith pre failures /\ attempt route = None.
Proof.
  induction sortedRoutes as [|c rest IH]; intros failedRoutes route failedRoutes' H.
  - discriminate H.
  - cbn in H. destruct (attempt c) as [f|] eqn:E.
    + apply IH in H as (pre & post & fs & -> & -> & Hpre & Hroute).
      exists (c :: pre), post, (f :: fs). repeat split.
      * rewrite <- app_assoc. reflexivity.
      * constructor; assumption.
      * exact Hroute.
    + injection H as <- <-. exists [], rest, []. rewrite app_nil_r.
      repeat split; [constructor | exact E].
Qed.

Lemma tryRoutes_exhausted sortedRoutes : forall failedRoutes failedRoutes',
  try sortedRoutes failedRoutes = (None, failedRoutes') ->
  exists failures,
    failedRoutes' = (failedRoutes ++ failures)%list /\ Forall2 failsWith sortedRoutes failures.
Proof.
  induction sortedRoutes as [|c rest IH]; intros failedRoutes failedRoutes' H.
  - injection H as <-. exists []. rewrite app_nil_r. split; constructor.
  - cbn in H. destruct (attempt c) as [f|] eqn:E; [|discriminate].
    apply IH in H as (fs & -> & Hfs).
    exists (f :: fs). split; [rewrite <- app_assoc; reflexivity | constructor; assumption].
Qed.

Lemma tryRoutes_all_fail sortedRoutes failures : forall failedRoutes,
  Forall2 failsWith sortedRoutes failures ->
  try sortedRoutes failedRoutes = (None, (failedRoutes ++ failures)%list).
Proof.
  intros failedRoutes H. revert failedRoutes.
  induction H as [|c f rest fs Hc Hrest IH]; intros failedRoutes.
  - cbn. rewrite app_nil_r. reflexivity.
  - cbn. unfold failsWith in Hc. rewrite Hc, IH, <- app_assoc. reflexivity.
Qed.

(** A usable direct route leads to a device with the destination address
    that is wired to the router. *)
Lemma attempt_direct route :
  attempt route = None -> isDirect (RouteEntry.nextHop route) = true ->
  exists destDevice,
    find (fun d => String.eqb (Device.ip d) destIP) devices = Some destDevice /\
    someOf (fun iface => String.eqb (getNetwork (NetworkInterface.ip iface)) destNetwork)
           (Device.interfaces currentDevice) = true /\
    hasPhysicalConnection currentDevice destDevice connections = true.
Proof.
  unfold attemptRoute. intros H Hd. rewrite Hd in H.
  destruct (find (fun d => String.eqb (Device.ip d) destIP) devices) as [destDevice|];
    [|discriminate].
  exists destDevice.
  destruct (someOf _ (Device.interfaces currentDevice)); [|discriminate].
  destruct (hasPhysicalConnection currentDevice destDevice connections); [|discriminate].
  auto.
Qed.

(** A usable forwarding route leads to a router that is wired to this one
    and shares a network with it. *)
Lemma attempt_forward route :
  attempt route = None -> isDirect (RouteEntry.nextHop route) = false ->
  exists nextRouter,
    findNextRouter devices (RouteEntry.nextHop route) = Some nextRouter /\
    Device.type nextRouter = router /\
    hasPhysicalConnection currentDevice nextRouter connections = true /\
    hasCommonNetwork currentDevice nextRouter = true.
Proof.
  unfold attemptRoute. intros H Hd. rewrite Hd in H.
  destruct (findNextRouter devices (RouteEntry.nextHop route)) as [nextRouter|];
    [|discriminate].
  exists nextRouter.
  destruct (Device.type nextRouter) eqn:Ht; try discriminate. cbn [DeviceType_eqb negb] in H.
  destruct (hasPhysicalConnection currentDevice nextRouter connections); [|discriminate].
  destruct (hasCommonNetwork currentDevice nextRouter); [|discriminate].
  auto.
Qed.

Lemma RouteEntry_eqb_eq a b : RouteEntry.eqb a b = true -> a = b.
Proof.
  unfold RouteEntry.eqb. intros H.
  repeat (apply andb_true_iff in H as [H ?]).
  apply String.eqb_eq in H. 
  repeat match goal with
         | E : String.eqb _ _ = true |- _ => apply String.eqb_eq in E
         | E : Z.eqb _ _ = true |- _ => apply Z.eqb_eq in E
         end.
  destruct a, b; simpl in *; congruence.
Qed.

Lemma RouteEntry_eqb_refl a : RouteEntry.eqb a a = true.
Proof.
  unfold RouteEntry.eqb. rewrite !String.eqb_refl, Z.eqb_refl. reflexivity.
Qed.

(** [indexOf] finds the position the loop broke at. *)
Lemma tryRoutes_index pre route post failures :
  Forall2 failsWith pre failures ->
  attempt route = None ->
  indexOf (pre ++ route :: post)%list route = length pre /\ length failures = length pre.
Proof.
  intros Hpre Hroute. induction Hpre as [|c f pre fs Hc Hrest IH].
  - cbn. rewrite RouteEntry_eqb_refl. auto.
  - destruct IH as [IH1 IH2]. cbn. destruct (RouteEntry.eqb c route) eqn:E.
    + apply RouteEntry_eqb_eq in E. subst c. unfold failsWith in Hc. congruence.
    + rewrite IH1, IH2. auto.
Qed.

End Candidates.

(** ** Sorting by metric *)

Lemma insertRoute_perm r sorted : Permutation (r :: sorted) (insertRoute r sorted).
Proof.
  induction sorted as [|x rest IH]; cbn; [reflexivity|].
  destruct (RouteEntry.metric r <=? RouteEntry.metric x)%Z; [reflexivity|].
  rewrite perm_swap. constructor. exact IH.
Qed.

Lemma insertRoute_sorted r sorted :
  StronglySorted lighter sorted -> StronglySorted lighter (insertRoute r sorted).
Proof.
  induction sorted as [|x rest IH]; intros H; cbn.
  - repeat constructor.
  - inversion H as [|? ? Hrest Hall]; subst.
    destruct (Z.leb_spec (RouteEntry.metric r) (RouteEntry.metric x)) as [Hle | Hgt].
    + constructor; [exact H|]. constructor; [exact Hle|].
      eapply Forall_impl; [|exact Hall]. unfold lighter. intros; lia.
    + constructor; [apply IH, Hrest|].
      eapply Permutation_Forall; [apply insertRoute_perm|].
      constructor; [unfold lighter; lia | exact Hall].
Qed.

Lemma sortByMetric_perm routes : Permutation routes (sortByMetric routes).
Proof.
  induction routes as [|r rest IH]; cbn; [constructor|].
  rewrite <- insertRoute_perm. constructor. exact IH.
Qed.

Lemma sortByMetric_sorted routes : StronglySorted lighter (sortByMetric routes).
Proof.
  induction routes as [|r rest IH]; cbn; [constructor | apply insertRoute_sorted, IH].
Qed.

(** ** One hop *)

Lemma findNextRouter_in devices nextHop d :
  findNextRouter devices nextHop = Some d -> In d devices.
Proof.
  unfold findNextRouter.
  destruct (find (fun d => String.eqb (Device.name d) nextHop) devices) eqn:E.
  - intros [= <-]. apply (find_some _ _ E).
  - intros H. apply (find_some _ _ H).
Qed.

Lemma endpointHop_sound devices connections destIP showSteps currentDevice path steps :
  hopSound devices connections destIP currentDevice path
    (endpointHop devices connections showSteps currentDevice path steps).
Proof.
  unfold endpointHop, failWith, findGateway.
  destruct (find _ devices) as [gateway|] eqn:E; [|left; auto].
  destruct (hasPhysicalConnection currentDevice gateway connections) eqn:Hc;
    cbn [negb]; [|left; auto].
  split; [apply (find_some _ _ E) | exact Hc].
Qed.

Lemma routerHop_sound devices connections destIP showSteps currentDevice hopCount path steps :
  hopSound devices connections destIP currentDevice path
    (routerHop devices connections destIP showSteps currentDevice hopCount path steps).
Proof.
  unfold routerHop, failWith.
  destruct (Device.routingTable currentDevice) as [[|entry table]|]; try (left; auto; fail).
  destruct (matchingRoutes (entry :: table) destIP (getNetwork destIP)) as [|m matching];
    [left; auto|].
  destruct (tryRoutes devices connections currentDevice destIP (getNetwork destIP)
              (sortByMetric (m :: matching)) []) as [[route|] failedRoutes] eqn:E;
    [|left; auto].
  apply tryRoutes_found in E as (pre & post & fs & _ & _ & _ & Hroute).
  destruct (isDirect (RouteEntry.nextHop route)) eqn:Hd.
  - destruct (attempt_direct _ _ _ _ _ _ Hroute Hd) as (destDevice & Hfind & _ & Hc).
    rewrite Hfind. right. exists destDevice.
    destruct (find_some _ _ Hfind) as [Hin Hip]. apply String.eqb_eq in Hip.
    repeat split; assumption.
  - destruct (attempt_forward _ _ _ _ _ _ Hroute Hd) as (nextRouter & Hfind & _ & Hc & _).
    rewrite Hfind. split; [eapply findNextRouter_in; eassumption | exact Hc].
Qed.

Lemma hop_sound devices connections destIP showSteps currentDevice hopCount path steps :
  hopSound devices connections destIP currentDevice path
    (hop devices connections destIP showSteps currentDevice hopCount path steps).
Proof.
  unfold hop. destruct (negb _); [apply endpointHop_sound | apply routerHop_sound].
Qed.

(** Where a hop forwards to depends on the snapshot, the destination and
    the current device only. *)
Lemma hop_forward_irrelevant devices connections destIP showSteps currentDevice
  hopCount path steps :
  hopTarget (hop devices connections destIP showSteps currentDevice hopCount path steps)
  = nextDeviceOf devices connections destIP currentDevice.
Proof.
  unfold nextDeviceOf, hop.
  destruct (negb (DeviceType_eqb (Device.type currentDevice) router)).
  - unfold endpointHop, failWith.
    destruct (findGateway devices _) as [gateway|]; [|reflexivity].
    destruct (negb (hasPhysicalConnection currentDevice gateway connections)); reflexivity.
  - unfold routerHop, failWith.
    destruct (Device.routingTable currentDevice) as [[|entry table]|]; try reflexivity.
    destruct (matchingRoutes (entry :: table) destIP (getNetwork destIP)) as [|m matching];
      [reflexivity|].
    destruct (tryRoutes devices connections currentDevice destIP (getNetwork destIP)
                (sortByMetric (m :: matching)) []) as [[route|] failedRoutes];
      [|reflexivity].
    destruct (isDirect (RouteEntry.nextHop route)).
    + destruct (find _ devices); reflexivity.
    + destruct (findNextRouter devices (RouteEntry.nextHop route)); reflexivity.
Qed.

Lemma hop_forward devices connections destIP showSteps currentDevice hopCount path steps next :
  nextDeviceOf devices connections destIP currentDevice = Some next ->
  exists steps',
    hop devices connections destIP showSteps currentDevice hopCount path steps
    = Forward next steps'.
Proof.
  rewrite <- (hop_forward_irrelevant devices connections destIP showSteps currentDevice
                hopCount path steps).
  destruct (hop _ _ _ _ _ _ _ _) as [outcome | nextDevice steps']; [discriminate|].
  intros [= ->]. eauto.
Qed.

(** ** The loop *)

Lemma visited_mem id visited :
  existsb (String.eqb id) visited = true <-> In id visited.
Proof.
  rewrite existsb_exists. split.
  - intros (x & Hx & E). apply String.eqb_eq in E. subst. exact Hx.
  - intros H. exists id. split; [exact H | apply String.eqb_refl].
Qed.

(** The resolver never throws. *)
Lemma routingLoop_returns devices connections destIP showSteps : forall budget currentDevice
  hopCount visitedDevices path steps,
  exists r,
    routingLoop budget devices connections destIP showSteps currentDevice hopCount
      visitedDevices path steps = Returned r.
Proof.
  induction budget as [|budget IH]; intros; cbn [routingLoop]; [eauto|].
  destruct (String.eqb (Device.ip currentDevice) destIP); [eauto|].
  pose proof (hop_sound devices connections destIP showSteps currentDevice hopCount path steps)
    as Hs.
  destruct (hop _ _ _ _ _ _ _ _) as [[r|] | nextDevice steps'];
    [eauto | contradiction |].
  destruct (existsb _ visitedDevices); [eauto | apply IH].
Qed.

Lemma simulateRouting_returns devices connections sourceIP destIP showSteps :
  exists r, simulateRouting devices connections sourceIP destIP showSteps = Returned r.
Proof.
  unfold simulateRouting.
  destruct (negb (validateIP sourceIP)); [eauto|].
  destruct (negb (validateIP destIP)); [eauto|].
  destruct (find _ devices); [|eauto].
  destruct (String.eqb sourceIP destIP); [eauto | apply routingLoop_returns].
Qed.

(** ** Every hop of a path is wired *)

Lemma linked_snoc connections front a b :
  linked connections (front ++ [a])%list ->
  hasPhysicalConnection a b connections = true ->
  linked connections ((front ++ [a]) ++ [b])%list.
Proof.
  induction front as [|x front IH]; intros Hl Hc.
  - cbn. auto.
  - destruct front as [|y front].
    + cbn in *. tauto.
    + cbn [app] in *. destruct Hl as [Hxy Hrest]. split; [exact Hxy|].
      apply IH; assumption.
Qed.

Lemma walked_snoc devices connections path front a b :
  walked devices connections path (front ++ [a])%list ->
  In b devices -> hasPhysicalConnection a b connections = true ->
  walked devices connections (path ++ [Device.name b])%list ((front ++ [a]) ++ [b])%list.
Proof.
  intros (Hp & Hin & Hl) Hb Hc. repeat split.
  - rewrite Hp, !map_app. reflexivity.
  - apply Forall_app. split; [exact Hin | constructor; [exact Hb | constructor]].
  - apply linked_snoc; assumption.
Qed.

Lemma routingLoop_walked devices connections destIP showSteps : forall budget currentDevice
  hopCount visitedDevices path steps front r,
  walked devices connections path (front ++ [currentDevice])%list ->
  routingLoop budget devices connections destIP showSteps currentDevice hopCount
    visitedDevices path steps = Returned r ->
  exists ds, walked devices connections (SimulationResult.path r) ds.
Proof.
  induction budget as [|budget IH]; intros currentDevice hopCount visitedDevices path steps
    front r Hw H; cbn [routingLoop] in H.
  - injection H as <-. eauto.
  - destruct (String.eqb (Device.ip currentDevice) destIP); [injection H as <-; eauto|].
    pose proof (hop_sound devices connections destIP showSteps currentDevice hopCount path steps)
      as Hs.
    destruct (hop _ _ _ _ _ _ _ _) as [[r'|] | nextDevice steps']; cbn in Hs.
    + injection H as <-. destruct Hs as [[_ Hp] | (dest & Hin & _ & Hc & _ & Hp)].
      * rewrite Hp. eauto.
      * rewrite Hp. eexists. eapply walked_snoc; eassumption.
    + contradiction.
    + destruct Hs as [Hin Hc].
      destruct (existsb _ visitedDevices); [injection H as <-; eauto|].
      eapply IH; [|exact H]. eapply walked_snoc; eassumption.
Qed.

Lemma simulateRouting_walked devices connections sourceIP destIP showSteps r :
  simulateRouting devices connections sourceIP destIP showSteps = Returned r ->
  exists ds, walked devices connections (SimulationResult.path r) ds.
Proof.
  unfold simulateRouting. intros H.
  assert (Hnil : walked devices connections [] []).
  { split; [reflexivity|]. split; [constructor | exact I]. }
  destruct (negb (validateIP sourceIP)); [injection H as <-; eauto|].
  destruct (negb (validateIP destIP)); [injection H as <-; eauto|].
  destruct (find _ devices) as [sourceDevice|] eqn:E; [|injection H as <-; eauto].
  assert (Hone : walked devices connections [Device.name sourceDevice] ([] ++ [sourceDevice])%list).
  { split; [reflexivity|]. split; [|exact I].
    constructor; [apply (find_some _ _ E) | constructor]. }
  destruct (String.eqb sourceIP destIP); [injection H as <-; eauto|].
  eapply routingLoop_walked; eassumption.
Qed.

(** C10.  The path of a successful resolution names devices of the
    snapshot of which every two consecutive ones have a connection. *)
Theorem path_hops_are_wired devices connections sourceIP destIP showSteps r :
  simulateRouting devices connections sourceIP destIP showSteps = Returned r ->
  SimulationResult.success r = true ->
  (2 <= length (SimulationResult.path r))%nat ->
  exists ds,
    SimulationResult.path r = map Device.name ds /\
    Forall (fun d => In d devices) ds /\
    linked connections ds.
Proof.
  intros H _ _. apply simulateRouting_walked in H as [ds Hw]. exists ds. exact Hw.
Qed.

Lemma path_hops_are_wired_witness :
  exists ds,
    ["PC1"; "R1"; "R2"; "PC2"] = map Device.name ds /\
    Forall (fun d => In d Sample.twoRouters) ds /\
    linked Sample.twoRoutersLinks ds.
Proof.
  apply (path_hops_are_wired Sample.twoRouters Sample.twoRoutersLinks
           "192.168.1.10" "192.168.2.10" false
           (SimulationResult.plain true ["PC1"; "R1"; "R2"; "PC2"] (msgArrived 2) [])).
  - vm_compute. reflexivity.
  - reflexivity.
  - simpl. lia.
Defined.

(** ** Routing loops *)

Lemma revisits_positive devices connections destIP visited current k :
  revisits devices connections destIP visited current k -> (1 <= k)%nat.
Proof. induction 1; lia. Qed.

Lemma routingLoop_revisits devices connections destIP showSteps visited current k :
  revisits devices connections destIP visited current k ->
  forall budget hopCount path steps,
  exists r,
    routingLoop budget devices connections destIP showSteps current hopCount visited path steps
    = Returned r /\
    SimulationResult.success r = false /\
    length (SimulationResult.path r) = (length path + Nat.min (k - 1) budget)%nat /\
    ((k <= budget)%nat ->
     exists next, SimulationResult.message r = msgLoop next (SimulationResult.path r)) /\
    ((budget < k)%nat -> SimulationResult.message r = msgMaxHops maxHops).
Proof.
  induction 1 as [visited current next Hip Hnext Hin
                 | visited current next k Hip Hnext Hin Hrest IH];
    intros [|budget] hopCount path steps; cbn [routingLoop].
  - eexists. split; [reflexivity|]. split; [reflexivity|].
    split; [cbn; lia|]. split; [intros; lia | intros; reflexivity].
  - apply String.eqb_neq in Hip. rewrite Hip.
    destruct (hop_forward devices connections destIP showSteps current hopCount path steps
                next Hnext) as [steps' ->].
    apply visited_mem in Hin. rewrite Hin.
    eexists. split; [reflexivity|]. split; [reflexivity|].
    split; [cbn; lia|]. split; [intros; eexists; reflexivity | intros; lia].
  - eexists. split; [reflexivity|]. split; [reflexivity|].
    split; [cbn; lia|]. split; [intros; lia | intros; reflexivity].
  - apply String.eqb_neq in Hip. rewrite Hip.
    destruct (hop_forward devices connections destIP showSteps current hopCount path steps
                next Hnext) as [steps' ->].
    destruct (existsb (String.eqb (Device.id next)) visited) eqn:E;
      [apply visited_mem in E; contradiction|].
    destruct (IH budget (S hopCount) (path ++ [Device.name next])%list steps')
      as (r & Hr & Hfail & Hlen & Hloop & Hmax).
    pose proof (revisits_positive _ _ _ _ _ _ Hrest) as Hk.
    exists r. split; [exact Hr|]. split; [exact Hfail|]. split.
    + rewrite Hlen, length_app. simpl. lia.
    + split; intros Hb; [apply Hloop | apply Hmax]; lia.
Qed.

(** C2 (as amended).  When forwarding from the source comes back to a
    visited device after [k] hops, the resolution fails: with the
    loop-detected failure when [k] is at most 10, and with the
    hop-limit failure, after 10 hops, when the loop is longer. *)
Theorem routing_loop_fails devices connections sourceIP destIP showSteps source k :
  validateIP sourceIP = true -> validateIP destIP = true ->
  find (fun d => String.eqb (Device.ip d) sourceIP) devices = Some source ->
  revisits devices connections destIP [Device.id source] source k ->
  exists r,
    simulateRouting devices connections sourceIP destIP showSteps = Returned r /\
    SimulationResult.success r = false /\
    length (SimulationResult.path r) = Nat.min k (S maxHops) /\
    ((k <= maxHops)%nat ->
     exists next, SimulationResult.message r = msgLoop next (SimulationResult.path r)) /\
    ((maxHops < k)%nat -> SimulationResult.message r = msgMaxHops maxHops).
Proof.
  intros Hs Hd Hfind Hloop. unfold simulateRouting.
  rewrite Hs, Hd, Hfind. cbn [negb].
  assert (Hne : String.eqb sourceIP destIP = false).
  { apply String.eqb_neq. intros ->.
    destruct (find_some _ _ Hfind) as [_ Hip]. apply String.eqb_eq in Hip.
    inversion Hloop; subst; congruence. }
  rewrite Hne.
  destruct (routingLoop_revisits devices connections destIP showSteps _ _ _ Hloop
              maxHops 0%nat [Device.name source] [])
    as (r & Hr & Hfail & Hlen & Hl & Hm).
  pose proof (revisits_positive _ _ _ _ _ _ Hloop) as Hk.
  exists r. split; [exact Hr|]. split; [exact Hfail|]. split; [|split; assumption].
  rewrite Hlen. simpl length. lia.
Qed.

(** Walking a concrete topology until it revisits a device. *)
Ltac walk_loop :=
  first
    [ eapply revisits_now;
      [ apply String.eqb_neq; vm_compute; reflexivity
      | vm_compute; reflexivity
      | vm_compute; tauto ]
    | eapply revisits_later;
      [ apply String.eqb_neq; vm_compute; reflexivity
      | vm_compute; reflexivity
      | vm_compute; intuition discriminate
      | walk_loop ] ].

Lemma routing_loop_fails_witness :
  exists r,
    simulateRouting (Ring.devices 2) (Ring.links 2) "192.168.1.10" "192.168.99.10" false
    = Returned r /\
    SimulationResult.success r = false /\
    length (SimulationResult.path r) = 3%nat /\
    ((3 <= maxHops)%nat ->
     exists next, SimulationResult.message r = msgLoop next (SimulationResult.path r)) /\
    ((maxHops < 3)%nat -> SimulationResult.message r = msgMaxHops maxHops).
Proof.
  apply (routing_loop_fails (Ring.devices 2) (Ring.links 2) "192.168.1.10" "192.168.99.10"
           false Sample.PC1 3).
  - vm_compute. reflexivity.
  - vm_compute. reflexivity.
  - vm_compute. reflexivity.
  - walk_loop.
Defined.

Lemma msgMaxHops_not_msgLoop next path : msgMaxHops maxHops <> msgLoop next path.
Proof. unfold msgLoop. intros H. vm_compute in H. discriminate H. Qed.

(** C2 as stated fails: in the ring of ten routers the walk from the PC
    comes back to router 1 at the eleventh hop; the resolution stops after
    ten hops with the hop-limit failure, not the loop-detected one. *)
Lemma long_loop_counterexample :
  revisits (Ring.devices 10) (Ring.links 10) "192.168.99.10" ["p1"] Sample.PC1 11 /\
  simulateRouting (Ring.devices 10) (Ring.links 10) "192.168.1.10" "192.168.99.10" false
  = Returned (SimulationResult.plain false
                ["PC1"; "R1"; "R2"; "R3"; "R4"; "R5"; "R6"; "R7"; "R8"; "R9"; "R10"]
                (msgMaxHops 10) []) /\
  (forall next path, msgMaxHops 10 <> msgLoop next path).
Proof.
  split; [walk_loop|]. split; [vm_compute; reflexivity|].
  intros next path. apply msgMaxHops_not_msgLoop.
Qed.

(** ** Candidate routes at a router *)

Lemma filter_nil_iff {A : Type} (p : A -> bool) l :
  filter p l = [] <-> forall x, In x l -> p x = false.
Proof.
  induction l as [|a l IH]; cbn; [tauto|].
  destruct (p a) eqn:E.
  - split; [discriminate|]. intros H. specialize (H a (or_introl eq_refl)). congruence.
  - rewrite IH. split.
    + intros H x [<- | Hx]; auto.
    + intros H x Hx. apply H. auto.
Qed.

(** The candidates are the entries for the exact address, and only when
    there is none, the entries for the destination's network. *)
Lemma matchingRoutes_spec routingTable destIP destNetwork c :
  In c (matchingRoutes routingTable destIP destNetwork) <->
  In c routingTable /\
  (RouteEntry.destination c = destIP \/
   ((forall x, In x routingTable -> RouteEntry.destination x <> destIP) /\
    RouteEntry.destination c = destNetwork)).
Proof.
  unfold matchingRoutes.
  destruct (filter (fun r => String.eqb (RouteEntry.destination r) destIP) routingTable)
    as [|e exact] eqn:E.
  - rewrite filter_In, String.eqb_eq.
    pose proof (proj1 (filter_nil_iff _ _) E) as Hnone.
    assert (Hno : forall x, In x routingTable -> RouteEntry.destination x <> destIP).
    { intros x Hx. apply String.eqb_neq, Hnone, Hx. }
    split.
    + intros [Hin Hd]. auto.
    + intros [Hin [Hd | [_ Hd]]]; [|auto]. exfalso. exact (Hno c Hin Hd).
  - rewrite <- E, filter_In, String.eqb_eq.
    assert (He : In e routingTable /\ RouteEntry.destination e = destIP).
    { assert (Hin : In e (e :: exact)) by (left; reflexivity).
      rewrite <- E in Hin. apply filter_In in Hin as [Hin Hd].
      apply String.eqb_eq in Hd. auto. }
    split.
    + intros [Hin Hd]. auto.
    + intros [Hin [Hd | [Hno _]]]; [auto|]. exfalso. exact (Hno e (proj1 He) (proj2 He)).
Qed.

Lemma sliceTo_all {A : Type} (l : list A) : sliceTo (length l) l = l.
Proof. apply firstn_all. Qed.

(** C1 (as amended).  At a router the candidates are the table entries for
    the exact destination address, or failing any, for its network; they
    are tried in ascending order of metric.  When the first usable one is
    [route], preceded by the candidates [pre] that fail with the records
    [failures] (each holding its reason), the loop chooses [route] and has
    recorded exactly [failures], in order.  The step trace gets one step
    for the hop when [showSteps] is on and none otherwise; that step holds
    the chosen route and names the skipped routes by next hop and metric,
    without their reasons. *)
Theorem routes_tried_in_metric_order devices connections destIP showSteps currentDevice
  hopCount path steps routingTable pre route post failures :
  Device.type currentDevice = router ->
  Device.routingTable currentDevice = Some routingTable ->
  sortByMetric (matchingRoutes routingTable destIP (getNetwork destIP))
  = (pre ++ route :: post)%list ->
  Forall2 (failsWith devices connections currentDevice destIP (getNetwork destIP))
          pre failures ->
  attemptRoute devices connections currentDevice destIP (getNetwork destIP) route = None ->
  (forall c, In c (pre ++ route :: post)%list <->
             In c routingTable /\
             (RouteEntry.destination c = destIP \/
              ((forall x, In x routingTable -> RouteEntry.destination x <> destIP) /\
               RouteEntry.destination c = getNetwork destIP))) /\
  StronglySorted lighter (pre ++ route :: post)%list /\
  tryRoutes devices connections currentDevice destIP (getNetwork destIP)
    (pre ++ route :: post)%list [] = (Some route, failures) /\
  hopSteps (hop devices connections destIP showSteps currentDevice hopCount path steps)
  = Some (if showSteps
          then (steps ++ [routeStep currentDevice (getNetwork destIP) failures route])%list
          else steps).
Proof.
  intros Htype Htable Hsorted Hpre Hroute.
  pose proof (sortByMetric_perm (matchingRoutes routingTable destIP (getNetwork destIP)))
    as Hperm.
  rewrite Hsorted in Hperm.
  pose proof (tryRoutes_first_usable devices connections currentDevice destIP
                (getNetwork destIP) pre route post failures [] Hpre Hroute) as Htry.
  cbn [app] in Htry.
  destruct (tryRoutes_index devices connections currentDevice destIP (getNetwork destIP)
              pre route post failures Hpre Hroute) as [Hindex Hlen].
  split; [|split; [|split; [exact Htry|]]].
  - intros c. rewrite <- matchingRoutes_spec. split; intros H.
    + eapply Permutation_in; [symmetry; exact Hperm | exact H].
    + eapply Permutation_in; [exact Hperm | exact H].
  - rewrite <- Hsorted. apply sortByMetric_sorted.
  - unfold hop. rewrite Htype. cbn [DeviceType_eqb negb].
    unfold routerHop. rewrite Htable.
    destruct routingTable as [|entry table].
    { cbn in Hperm. apply Permutation_nil in Hperm. destruct pre; discriminate Hperm. }
    destruct (matchingRoutes (entry :: table) destIP (getNetwork destIP))
      as [|m matching] eqn:Hm.
    { rewrite ?Hm in Hperm. apply Permutation_nil in Hperm.
      destruct pre; discriminate Hperm. }
    rewrite ?Hm in Hsorted. rewrite Hsorted, Htry, Hindex.
    assert (Hsteps :
      pushIf (showSteps && (length pre =? 0)%nat)
        (pushIf ((0 <? length pre)%nat && showSteps) steps
           (Step.mk (Device.name currentDevice)
              (actionBackup failures (length pre) route) (Some route)))
        (Step.mk (Device.name currentDevice)
           (actionLookup (getNetwork destIP) route) (Some route))
      = if showSteps
        then (steps ++ [routeStep currentDevice (getNetwork destIP) failures route])%list
        else steps).
    { unfold pushIf, routeStep. destruct showSteps; cbn [andb].
      - inversion Hpre as [|c f pre' fs' Hc Hrest]; subst.
        + reflexivity.
        + cbn [length Nat.ltb Nat.leb Nat.eqb andb].
          unfold actionBackup, skippedRoutes.
          change (S (length pre')) with (length (c :: pre')). rewrite <- Hlen.
          rewrite sliceTo_all. reflexivity.
      - rewrite andb_false_r. reflexivity. }
    destruct (isDirect (RouteEntry.nextHop route)) eqn:Hd.
    + destruct (attempt_direct _ _ _ _ _ _ Hroute Hd) as (destDevice & -> & _).
      cbn [hopSteps SimulationResult.steps SimulationResult.plain]. rewrite Hsteps.
      reflexivity.
    + destruct (findNextRouter devices (RouteEntry.nextHop route));
        cbn [hopSteps failWith SimulationResult.steps SimulationResult.plain];
        rewrite Hsteps; reflexivity.
Qed.

(** When every candidate fails, the hop fails with the message that lists
    each attempt with its reason. *)
Lemma routes_all_fail devices connections destIP showSteps currentDevice hopCount path steps
  routingTable failures :
  Device.type currentDevice = router ->
  Device.routingTable currentDevice = Some routingTable ->
  matchingRoutes routingTable destIP (getNetwork destIP) <> [] ->
  Forall2 (failsWith devices connections currentDevice destIP (getNetwork destIP))
          (sortByMetric (matchingRoutes routingTable destIP (getNetwork destIP))) failures ->
  hop devices connections destIP showSteps currentDevice hopCount path steps
  = failWith path (msgAllFailed currentDevice destIP failures) steps.
Proof.
  intros Htype Htable Hsome Hfail.
  unfold hop. rewrite Htype. cbn [DeviceType_eqb negb]. unfold routerHop. rewrite Htable.
  destruct routingTable as [|entry table]; [exfalso; apply Hsome; reflexivity|].
  destruct (matchingRoutes (entry :: table) destIP (getNetwork destIP))
    as [|m matching] eqn:Hm; [congruence|].
  rewrite (tryRoutes_all_fail _ _ _ _ _ _ _ [] Hfail). reflexivity.
Qed.

Lemma routes_tried_in_metric_order_witness :
  hopSteps (hop Sample.backup Sample.backupLinks "192.168.2.10" true Sample.R1backup
              1 ["PC1"; "R1"] [])
  = Some [routeStep Sample.R1backup "192.168.2.0"
            [FailedRoute.mk "R3" 1 "物理连接断开"] Sample.viaR2].
Proof.
  refine (proj2 (proj2 (proj2
    (routes_tried_in_metric_order Sample.backup Sample.backupLinks "192.168.2.10" true
       Sample.R1backup 1 ["PC1"; "R1"] []
       [Sample.viaR2; Sample.viaR3; RouteEntry.mk "192.168.1.0" "-" 0 "LAN"]
       [Sample.viaR3] Sample.viaR2 [] [FailedRoute.mk "R3" 1 "物理连接断开"] _ _ _ _ _)))).
  - reflexivity.
  - reflexivity.
  - vm_compute. reflexivity.
  - constructor; [vm_compute; reflexivity | constructor].
  - vm_compute. reflexivity.
Defined.

(** C1 as stated fails on its last part: R1 tries the route through R3
    first and records why it fails, but the step trace names the skipped
    route by next hop and metric only, and with [showSteps] off, as every
    caller leaves it, there is no step at all. *)
Lemma failed_reason_not_in_trace_counterexample :
  tryRoutes Sample.backup Sample.backupLinks Sample.R1backup "192.168.2.10" "192.168.2.0"
    [Sample.viaR3; Sample.viaR2] []
  = (Some Sample.viaR2, [FailedRoute.mk "R3" 1 "物理连接断开"]) /\
  simulateRouting Sample.backup Sample.backupLinks "192.168.1.10" "192.168.2.10" true
  = Returned (SimulationResult.plain true ["PC1"; "R1"; "R2"; "PC2"] (msgArrived 2)
      [Step.mk "PC1" "PC PC1 发送数据到默认网关 R1" None;
       Step.mk "R1" "⚠️ 最优路由不可用 [R3(权重1)]，使用备用路由: R2(权重2)"
         (Some Sample.viaR2);
       Step.mk "R2" "查找路由表: 目标网段 192.168.2.0, 下一站 直连, 权重 0"
         (Some (RouteEntry.mk "192.168.2.0" "直连" 0 "LAN"))]) /\
  traceMentions
    [Step.mk "PC1" "PC PC1 发送数据到默认网关 R1" None;
     Step.mk "R1" "⚠️ 最优路由不可用 [R3(权重1)]，使用备用路由: R2(权重2)"
       (Some Sample.viaR2);
     Step.mk "R2" "查找路由表: 目标网段 192.168.2.0, 下一站 直连, 权重 0"
       (Some (RouteEntry.mk "192.168.2.0" "直连" 0 "LAN"))]
    "物理连接断开" = false /\
  simulateRouting Sample.backup Sample.backupLinks "192.168.1.10" "192.168.2.10" false
  = Returned (SimulationResult.plain true ["PC1"; "R1"; "R2"; "PC2"] (msgArrived 2) []).
Proof. repeat split; vm_compute; reflexivity. Qed.

(** ** The configured masks are not read *)

Lemma existsb_pointwise {A : Type} (p q : A -> bool) l :
  (forall x, p x = q x) -> existsb p l = existsb q l.
Proof.
  intros H. induction l as [|x l IH]; cbn; [reflexivity|]. rewrite H, IH. reflexivity.
Qed.

Section Remask.

Variables mask subnet : NetworkInterface.t -> option string.

Local Abbreviation re := (remask mask subnet).

Lemma find_map_remask (p : Device.t -> bool) devices :
  (forall d, p (re d) = p d) ->
  find p (map re devices) = option_map re (find p devices).
Proof.
  intros Hp. induction devices as [|d rest IH]; cbn; [reflexivity|].
  rewrite Hp. destruct (p d); [reflexivity | exact IH].
Qed.

Lemma someOf_remask (p : NetworkInterface.t -> bool) d :
  (forall i, p (setMask mask subnet i) = p i) ->
  someOf p (Device.interfaces (re d)) = someOf p (Device.interfaces d).
Proof.
  intros Hp. cbn. destruct (Device.interfaces d) as [l|]; cbn; [|reflexivity].
  induction l as [|i l IH]; cbn; [reflexivity|]. rewrite Hp, IH. reflexivity.
Qed.

Lemma existsb_remask (p : NetworkInterface.t -> bool) d :
  (forall i, p (setMask mask subnet i) = p i) ->
  existsb p (orEmpty (Device.interfaces (re d))) = existsb p (orEmpty (Device.interfaces d)).
Proof.
  intros Hp. cbn. destruct (Device.interfaces d) as [l|]; cbn; [|reflexivity].
  induction l as [|i l IH]; cbn; [reflexivity|]. rewrite Hp, IH. reflexivity.
Qed.

Lemma hasCommonNetwork_remask a b :
  hasCommonNetwork (re a) (re b) = hasCommonNetwork a b.
Proof.
  unfold hasCommonNetwork. rewrite existsb_remask.
  - apply existsb_pointwise. intros i. apply existsb_remask. reflexivity.
  - intros i. cbn [setMask NetworkInterface.ip]. reflexivity.
Qed.

Lemma findByIp_remask devices ip :
  find (fun d => String.eqb (Device.ip d) ip) (map re devices)
  = option_map re (find (fun d => String.eqb (Device.ip d) ip) devices).
Proof. apply find_map_remask. reflexivity. Qed.

Lemma findNextRouter_remask devices nextHop :
  findNextRouter (map re devices) nextHop = option_map re (findNextRouter devices nextHop).
Proof.
  unfold findNextRouter. rewrite find_map_remask by reflexivity.
  destruct (find (fun d => String.eqb (Device.name d) nextHop) devices); [reflexivity|].
  cbn [option_map]. apply find_map_remask. intros d.
  rewrite someOf_remask by reflexivity. reflexivity.
Qed.

Lemma findGateway_remask devices network :
  findGateway (map re devices) network = option_map re (findGateway devices network).
Proof.
  unfold findGateway. apply find_map_remask. intros d.
  rewrite someOf_remask by reflexivity. reflexivity.
Qed.

Lemma attemptRoute_remask devices connections currentDevice destIP destNetwork candidate :
  attemptRoute (map re devices) connections (re currentDevice) destIP destNetwork candidate
  = attemptRoute devices connections currentDevice destIP destNetwork candidate.
Proof.
  unfold attemptRoute. rewrite findByIp_remask, findNextRouter_remask.
  destruct (isDirect (RouteEntry.nextHop candidate)).
  - destruct (find _ devices) as [destDevice|]; cbn [option_map]; [|reflexivity].
    rewrite someOf_remask by reflexivity. reflexivity.
  - destruct (findNextRouter devices _) as [nextRouter|]; cbn [option_map]; [|reflexivity].
    rewrite hasCommonNetwork_remask. reflexivity.
Qed.

Lemma tryRoutes_remask devices connections currentDevice destIP destNetwork sortedRoutes :
  forall failedRoutes,
  tryRoutes (map re devices) connections (re currentDevice) destIP destNetwork
    sortedRoutes failedRoutes
  = tryRoutes devices connections currentDevice destIP destNetwork sortedRoutes failedRoutes.
Proof.
  induction sortedRoutes as [|c rest IH]; intros failedRoutes; cbn [tryRoutes]; [reflexivity|].
  rewrite attemptRoute_remask.
  destruct (attemptRoute devices connections currentDevice destIP destNetwork c);
    [apply IH | reflexivity].
Qed.

Lemma hop_remask devices connections destIP showSteps currentDevice hopCount path steps :
  hop (map re devices) connections destIP showSteps (re currentDevice) hopCount path steps
  = remaskHop mask subnet
      (hop devices connections destIP showSteps currentDevice hopCount path steps).
Proof.
  unfold hop. change (Device.type (re currentDevice)) with (Device.type currentDevice).
  destruct (negb (DeviceType_eqb (Device.type currentDevice) router)).
  - unfold endpointHop. change (Device.ip (re currentDevice)) with (Device.ip currentDevice).
    rewrite findGateway_remask.
    destruct (findGateway devices _) as [gateway|]; cbn [option_map]; [|reflexivity].
    change (hasPhysicalConnection (re currentDevice) (re gateway) connections)
      with (hasPhysicalConnection currentDevice gateway connections).
    destruct (negb (hasPhysicalConnection currentDevice gateway connections)); reflexivity.
  - unfold routerHop.
    change (Device.routingTable (re currentDevice)) with (Device.routingTable currentDevice).
    destruct (Device.routingTable currentDevice) as [[|entry table]|]; try reflexivity.
    destruct (matchingRoutes (entry :: table) destIP (getNetwork destIP)) as [|m matching];
      [reflexivity|].
    rewrite tryRoutes_remask.
    destruct (tryRoutes devices connections currentDevice destIP (getNetwork destIP)
                (sortByMetric (m :: matching)) []) as [[route|] failedRoutes];
      [|reflexivity].
    rewrite findByIp_remask, findNextRouter_remask.
    destruct (isDirect (RouteEntry.nextHop route)).
    + destruct (find _ devices); reflexivity.
    + destruct (findNextRouter devices (RouteEntry.nextHop route)); reflexivity.
Qed.

Lemma routingLoop_remask devices connections destIP showSteps : forall budget currentDevice
  hopCount visitedDevices path steps,
  routingLoop budget (map re devices) connections destIP showSteps (re currentDevice)
    hopCount visitedDevices path steps
  = routingLoop budget devices connections destIP showSteps currentDevice
      hopCount visitedDevices path steps.
Proof.
  induction budget as [|budget IH]; intros; cbn [routingLoop]; [reflexivity|].
  change (Device.ip (re currentDevice)) with (Device.ip currentDevice).
  destruct (String.eqb (Device.ip currentDevice) destIP); [reflexivity|].
  rewrite hop_remask.
  destruct (hop devices connections destIP showSteps currentDevice hopCount path steps)
    as [outcome | nextDevice steps']; cbn [remaskHop]; [reflexivity|].
  change (Device.id (re nextDevice)) with (Device.id nextDevice).
  change (Device.name (re nextDevice)) with (Device.name nextDevice).
  destruct (existsb _ visitedDevices); [reflexivity | apply IH].
Qed.

Lemma simulateRouting_remask devices connections sourceIP destIP showSteps :
  simulateRouting (map re devices) connections sourceIP destIP showSteps
  = simulateRouting devices connections sourceIP destIP showSteps.
Proof.
  unfold simulateRouting. rewrite findByIp_remask.
  destruct (negb (validateIP sourceIP)); [reflexivity|].
  destruct (negb (validateIP destIP)); [reflexivity|].
  destruct (find _ devices) as [sourceDevice|]; cbn [option_map]; [|reflexivity].
  change (Device.name (re sourceDevice)) with (Device.name sourceDevice).
  change (Device.id (re sourceDevice)) with (Device.id sourceDevice).
  destruct (String.eqb sourceIP destIP); [reflexivity | apply routingLoop_remask].
Qed.

End Remask.

Lemma split_dotted a b c d :
  dotFree a = true -> dotFree b = true -> dotFree c = true ->
  split dot (dotted a b c d) = a :: b :: c :: split dot d.
Proof.
  intros Ha Hb Hc. rewrite dotted_unfold.
  rewrite (split_dotFree_app a _ Ha), (split_dotFree_app b _ Hb), (split_dotFree_app c _ Hc).
  reflexivity.
Qed.

Lemma getNetwork_quad a b c d :
  dotFree a = true -> dotFree b = true -> dotFree c = true ->
  getNetwork (dotted a b c d) = dotted a b c "0".
Proof.
  intros Ha Hb Hc. rewrite getNetwork_dotted, (split_dotted a b c d Ha Hb Hc). reflexivity.
Qed.

Lemma part_dotFree ip i : dotFree (part ip i) = true.
Proof. apply templateAt_dotFree, split_dotFree. Qed.

Lemma getNetwork_network24 ip : getNetwork ip = network24 ip.
Proof. reflexivity. Qed.

(** Two addresses have the same network, as the resolver computes it,
    exactly when their first three parts agree. *)
Lemma getNetwork_eqb x y :
  String.eqb (getNetwork x) (getNetwork y) = sameFirstThree x y.
Proof.
  change (getNetwork x) with (dotted (part x 0) (part x 1) (part x 2) "0").
  change (getNetwork y) with (dotted (part y 0) (part y 1) (part y 2) "0").
  unfold sameFirstThree.
  destruct (String.eqb_spec (dotted (part x 0) (part x 1) (part x 2) "0")
              (dotted (part y 0) (part y 1) (part y 2) "0")) as [Heq | Hne].
  - apply dotted_inj in Heq as (-> & -> & -> & _); try apply part_dotFree.
    rewrite !String.eqb_refl. reflexivity.
  - destruct (String.eqb_spec (part x 0) (part y 0)) as [H0 | H0]; [|reflexivity].
    destruct (String.eqb_spec (part x 1) (part y 1)) as [H1 | H1]; [|reflexivity].
    destruct (String.eqb_spec (part x 2) (part y 2)) as [H2 | H2]; [|reflexivity].
    exfalso. apply Hne. now rewrite H0, H1, H2.
Qed.

Lemma find_pointwise {A : Type} (p q : A -> bool) l :
  (forall x, p x = q x) -> find p l = find q l.
Proof.
  intros H. induction l as [|x l IH]; cbn; [reflexivity|]. rewrite H, IH. reflexivity.
Qed.

Lemma someOf_pointwise {A : Type} (p q : A -> bool) xs :
  (forall x, p x = q x) -> someOf p xs = someOf q xs.
Proof. intros H. destruct xs as [l|]; [apply existsb_pointwise, H | reflexivity]. Qed.

Lemma someOf_getNetwork device ip :
  someOf (fun iface => String.eqb (getNetwork (NetworkInterface.ip iface)) (getNetwork ip))
         (Device.interfaces device)
  = onNetworkOf device ip.
Proof. apply someOf_pointwise. intros iface. apply getNetwork_eqb. Qed.

(** The gateway of an endpoint is the first router with an interface
    whose address has the endpoint's first three parts. *)
Lemma findGateway_onNetworkOf devices ip :
  findGateway devices (getNetwork ip)
  = find (fun d => isRouterDevice d && onNetworkOf d ip) devices.
Proof.
  unfold findGateway. apply find_pointwise. intros d.
  unfold isRouterDevice. now rewrite someOf_getNetwork.
Qed.

Lemma hasCommonNetwork_onNetworkOf a b :
  hasCommonNetwork a b
  = existsb (fun iface => onNetworkOf b (NetworkInterface.ip iface))
            (orEmpty (Device.interfaces a)).
Proof.
  unfold hasCommonNetwork, onNetworkOf. apply existsb_pointwise. intros i.
  destruct (Device.interfaces b) as [l|]; cbn [orEmpty someOf]; [|reflexivity].
  apply existsb_pointwise. intros j. rewrite getNetwork_eqb.
  unfold sameFirstThree.
  rewrite (String.eqb_sym (part (NetworkInterface.ip i) 0)),
          (String.eqb_sym (part (NetworkInterface.ip i) 1)),
          (String.eqb_sym (part (NetworkInterface.ip i) 2)).
  reflexivity.
Qed.

Lemma nextDeviceOf_endpoint devices connections destIP currentDevice :
  Device.type currentDevice <> router ->
  nextDeviceOf devices connections destIP currentDevice =
  match find (fun d => isRouterDevice d && onNetworkOf d (Device.ip currentDevice)) devices with
  | Some gateway =>
      if hasPhysicalConnection currentDevice gateway connections then Some gateway else None
  | None => None
  end.
Proof.
  intros Htype. unfold nextDeviceOf, hop.
  replace (DeviceType_eqb (Device.type currentDevice) router) with false
    by (destruct (Device.type currentDevice); try reflexivity; congruence).
  cbn [negb]. unfold endpointHop, failWith. rewrite findGateway_onNetworkOf.
  destruct (find _ devices) as [gateway|]; [|reflexivity].
  destruct (hasPhysicalConnection currentDevice gateway connections); reflexivity.
Qed.

Lemma attemptRoute_direct devices connections currentDevice destIP route :
  isDirect (RouteEntry.nextHop route) = true ->
  attemptRoute devices connections currentDevice destIP (getNetwork destIP) route =
  match find (fun d => String.eqb (Device.ip d) destIP) devices with
  | None =>
      Some (FailedRoute.mk "直连" (RouteEntry.metric route) ("目标IP " ++ destIP ++ " 不存在"))
  | Some destDevice =>
      if negb (onNetworkOf currentDevice destIP) then
        Some (FailedRoute.mk "直连" (RouteEntry.metric route) "路由器没有该网段的接口")
      else if negb (hasPhysicalConnection currentDevice destDevice connections) then
        Some (FailedRoute.mk "直连" (RouteEntry.metric route) "物理连接断开")
      else None
  end.
Proof.
  intros Hd. unfold attemptRoute. cbv zeta. rewrite Hd, someOf_getNetwork. reflexivity.
Qed.

(** What a router's hop does with the destination: the routes it can use
    are those for the destination address itself or for the destination's
    first three parts followed by [.0]. *)
Lemma routerHop_network24 devices connections destIP showSteps currentDevice hopCount path
  steps routingTable :
  Device.type currentDevice = router ->
  Device.routingTable currentDevice = Some routingTable ->
  let h := hop devices connections destIP showSteps currentDevice hopCount path steps in
  (routingTable <> [] ->
   (forall route, In route routingTable ->
      RouteEntry.destination route <> destIP /\
      RouteEntry.destination route <> network24 destIP) ->
   h = failWith path (msgNoRoute currentDevice destIP (network24 destIP) routingTable) steps) /\
  (forall next steps', h = Forward next steps' ->
     exists route,
       In route routingTable /\
       (RouteEntry.destination route = destIP \/
        RouteEntry.destination route = network24 destIP) /\
       isDirect (RouteEntry.nextHop route) = false /\
       findNextRouter devices (RouteEntry.nextHop route) = Some next /\
       hasPhysicalConnection currentDevice next connections = true /\
       existsb (fun iface => onNetworkOf next (NetworkInterface.ip iface))
               (orEmpty (Device.interfaces currentDevice)) = true) /\
  (forall r, h = Stop (Returned r) -> SimulationResult.success r = true ->
     exists route,
       In route routingTable /\
       (RouteEntry.destination route = destIP \/
        RouteEntry.destination route = network24 destIP) /\
       isDirect (RouteEntry.nextHop route) = true /\
       onNetworkOf currentDevice destIP = true).
Proof.
  intros Htype Htable. cbv zeta. unfold hop. rewrite Htype. cbn [DeviceType_eqb negb].
  unfold routerHop. rewrite Htable.
  destruct routingTable as [|entry table].
  { split; [intros H; congruence|]. split; [discriminate|].
    unfold failWith. intros r [= <-]. discriminate. }
  destruct (matchingRoutes (entry :: table) destIP (getNetwork destIP))
    as [|m matching] eqn:Hm.
  { split; [intros _ _; reflexivity|]. split; [discriminate|].
    unfold failWith. intros r [= <-]. discriminate. }
  assert (Hcand : forall route, In route (sortByMetric (m :: matching)) ->
            In route (entry :: table) /\
            (RouteEntry.destination route = destIP \/
             RouteEntry.destination route = network24 destIP)).
  { intros route Hin.
    apply (Permutation_in _ (Permutation_sym (sortByMetric_perm (m :: matching)))) in Hin.
    rewrite <- Hm in Hin. apply matchingRoutes_spec in Hin as [Ht [He | [_ Hn]]]; auto. }
  split.
  { intros _ Hnone. exfalso.
    destruct (Hcand m) as [Hin [He | Hn]].
    - apply (Permutation_in _ (sortByMetric_perm (m :: matching))). now left.
    - exact (proj1 (Hnone m Hin) He).
    - exact (proj2 (Hnone m Hin) Hn). }
  cbv zeta.
  destruct (tryRoutes devices connections currentDevice destIP (getNetwork destIP)
              (sortByMetric (m :: matching)) []) as [[route|] failedRoutes] eqn:Htry.
  2:{ split; [discriminate|]. unfold failWith. intros r [= <-]. discriminate. }
  destruct (tryRoutes_found devices connections currentDevice destIP (getNetwork destIP)
              _ _ _ _ Htry) as (pre & post & failures & Hsplit & _ & _ & Husable).
  assert (Hroute : In route (sortByMetric (m :: matching)))
    by (rewrite Hsplit; apply in_app_iff; right; now left).
  destruct (Hcand route Hroute) as [Hin Hdest].
  destruct (isDirect (RouteEntry.nextHop route)) eqn:Hd.
  - split.
    + destruct (find _ devices); discriminate.
    + intros r _ _. exists route.
      destruct (attempt_direct devices connections currentDevice destIP (getNetwork destIP)
                  route Husable Hd) as (destDevice & _ & Hnet & _).
      rewrite someOf_getNetwork in Hnet. auto.
  - split.
    + intros next steps' Hf. exists route.
      destruct (attempt_forward devices connections currentDevice destIP (getNetwork destIP)
                  route Husable Hd) as (nextRouter & Hnext & _ & Hphys & Hcommon).
      rewrite Hnext in Hf. injection Hf as <- _.
      rewrite hasCommonNetwork_onNetworkOf in Hcommon. auto 10.
    + intros r Hstop. destruct (findNextRouter devices (RouteEntry.nextHop route));
        [discriminate|]. unfold failWith in Hstop. injection Hstop as <-. discriminate.
Qed.

(** C9.  Every network comparison of the resolver is on the first three
    parts of the address followed by [.0], whatever masks are configured:
    the network of an address is that text, and two networks are equal
    exactly when the first three parts agree; an endpoint's gateway is
    the first router with an interface sharing the endpoint's first three
    parts; a router looks its table up for the destination address or for
    the destination's first three parts followed by [.0]; a direct route
    is usable only when the router has an interface sharing the
    destination's first three parts; two routers have a common network
    exactly when some interface of each share their first three parts;
    and the outcome of a resolution is the same whatever masks and
    subnets the interfaces are configured with. *)
Theorem resolver_ignores_masks :
  (forall a b c d,
     dotFree a = true -> dotFree b = true -> dotFree c = true ->
     getNetwork (dotted a b c d) = dotted a b c "0") /\
  (forall ip, getNetwork ip = network24 ip) /\
  (forall x y, String.eqb (getNetwork x) (getNetwork y) = sameFirstThree x y) /\
  (forall devices connections destIP currentDevice,
     Device.type currentDevice <> router ->
     nextDeviceOf devices connections destIP currentDevice =
     match find (fun d => isRouterDevice d && onNetworkOf d (Device.ip currentDevice))
                devices with
     | Some gateway =>
         if hasPhysicalConnection currentDevice gateway connections then Some gateway
         else None
     | None => None
     end) /\
  (forall devices connections destIP showSteps currentDevice hopCount path steps routingTable,
     Device.type currentDevice = router ->
     Device.routingTable currentDevice = Some routingTable ->
     let h := hop devices connections destIP showSteps currentDevice hopCount path steps in
     (routingTable <> [] ->
      (forall route, In route routingTable ->
         RouteEntry.destination route <> destIP /\
         RouteEntry.destination route <> network24 destIP) ->
      h = failWith path (msgNoRoute currentDevice destIP (network24 destIP) routingTable)
            steps) /\
     (forall next steps', h = Forward next steps' ->
        exists route,
          In route routingTable /\
          (RouteEntry.destination route = destIP \/
           RouteEntry.destination route = network24 destIP) /\
          isDirect (RouteEntry.nextHop route) = false /\
          findNextRouter devices (RouteEntry.nextHop route) = Some next /\
          hasPhysicalConnection currentDevice next connections = true /\
          existsb (fun iface => onNetworkOf next (NetworkInterface.ip iface))
                  (orEmpty (Device.interfaces currentDevice)) = true) /\
     (forall r, h = Stop (Returned r) -> SimulationResult.success r = true ->
        exists route,
          In route routingTable /\
          (RouteEntry.destination route = destIP \/
           RouteEntry.destination route = network24 destIP) /\
          isDirect (RouteEntry.nextHop route) = true /\
          onNetworkOf currentDevice destIP = true)) /\
  (forall devices connections currentDevice destIP route,
     isDirect (RouteEntry.nextHop route) = true ->
     attemptRoute devices connections currentDevice destIP (getNetwork destIP) route =
     match find (fun d => String.eqb (Device.ip d) destIP) devices with
     | None =>
         Some (FailedRoute.mk "直连" (RouteEntry.metric route)
                 ("目标IP " ++ destIP ++ " 不存在"))
     | Some destDevice =>
         if negb (onNetworkOf currentDevice destIP) then
           Some (FailedRoute.mk "直连" (RouteEntry.metric route) "路由器没有该网段的接口")
         else if negb (hasPhysicalConnection currentDevice destDevice connections) then
           Some (FailedRoute.mk "直连" (RouteEntry.metric route) "物理连接断开")
         else None
     end) /\
  (forall a b,
     hasCommonNetwork a b
     = existsb (fun iface => onNetworkOf b (NetworkInterface.ip iface))
               (orEmpty (Device.interfaces a))) /\
  (forall mask subnet devices connections sourceIP destIP showSteps,
     simulateRouting (map (remask mask subnet) devices) connections sourceIP destIP showSteps
     = simulateRouting devices connections sourceIP destIP showSteps).
Proof.
  split; [exact getNetwork_quad|].
  split; [exact getNetwork_network24|].
  split; [exact getNetwork_eqb|].
  split; [exact nextDeviceOf_endpoint|].
  split; [exact routerHop_network24|].
  split; [exact attemptRoute_direct|].
  split; [exact hasCommonNetwork_onNetworkOf | exact simulateRouting_remask].
Qed.

Lemma resolver_ignores_masks_witness :
  getNetwork (dotted "192" "168" "1" "130") = "192.168.1.0" /\
  simulateRouting
    (map (remask (fun _ => Some "255.255.255.128") (fun _ => None)) Sample.twoRouters)
    Sample.twoRoutersLinks "192.168.1.10" "192.168.2.10" false
  = Returned (SimulationResult.plain true ["PC1"; "R1"; "R2"; "PC2"] (msgArrived 2) []).
Proof.
  destruct resolver_ignores_masks as (Hquad & _ & _ & _ & _ & _ & _ & Hmask).
  split.
  - apply (Hquad "192" "168" "1" "130"); reflexivity.
  - rewrite Hmask. vm_compute. reflexivity.
Defined.

(** An example for C9: the PC 192.168.1.10 and the router interface
    192.168.1.129 are on different subnets under their configured mask
    255.255.255.128, and the resolver still takes the router as the PC's
    gateway. *)
Lemma gateway_across_configured_subnets :
  calculateSubnet "192.168.1.10" "255.255.255.128" = "192.168.1.0" /\
  calculateSubnet "192.168.1.129" "255.255.255.128" = "192.168.1.128" /\
  findGateway [Sample.PC25; Sample.R25] (getNetwork "192.168.1.10") = Some Sample.R25.
Proof. repeat split; vm_compute; reflexivity. Qed.

(** ** Round trips *)

Section RoundTripFacts.

Variable toLowerCase : string -> string.
Variable devices : list Device.t.
Variable connections : list Connection.t.

Lemma simulateDNSQuery_paths sourceIP dnsServerIP domain requestRoute r rp :
  simulateRouting devices connections sourceIP dnsServerIP false = Returned requestRoute ->
  SimulationResult.success requestRoute = true ->
  simulateDNSQuery toLowerCase devices connections sourceIP dnsServerIP domain = Returned r ->
  SimulationResult.responsePath r = Some rp ->
  SimulationResult.requestPath r = Some (SimulationResult.path requestRoute) /\
  rp = rev (SimulationResult.path requestRoute).
Proof.
  intros Hroute Hok. unfold simulateDNSQuery. rewrite Hroute, Hok.
  destruct (findByIp devices sourceIP) as [sourceDevice|]; [|intros [= <-]; discriminate].
  destruct (find _ devices) as [dnsDevice|]; [|intros [= <-]; discriminate].
  destruct (true && _ && _); intros [= <-]; [discriminate|].
  cbn. intros [= <-]. auto.
Qed.

Lemma simulateHTTPRequest_paths sourceIP targetIP httpSuccess statusCode httpMessage
  requestRoute r rp :
  simulateRouting devices connections sourceIP targetIP false = Returned requestRoute ->
  SimulationResult.success requestRoute = true ->
  simulateHTTPRequest devices connections sourceIP targetIP httpSuccess statusCode httpMessage
  = Returned r ->
  SimulationResult.responsePath r = Some rp ->
  SimulationResult.requestPath r = Some (SimulationResult.path requestRoute) /\
  rp = rev (SimulationResult.path requestRoute).
Proof.
  intros Hroute Hok. unfold simulateHTTPRequest. rewrite Hroute, Hok.
  destruct (findByIp devices targetIP) as [targetDevice|]; [|intros [= <-]; discriminate].
  destruct (negb _); [intros [= <-]; discriminate|].
  destruct (true && _ && _); intros [= <-]; [discriminate|].
  cbn. intros [= <-]. auto.
Qed.

End RoundTripFacts.


(** ** The HTTP handler *)

(** C8.  A request to a web server on its listening port whose page is
    absent or blank is answered with status 204 and a warning; no other
    outcome of the handler has that status: an unknown address gives 404,
    a device of another kind and a port mismatch give 503, a page gives
    200. *)
Theorem no_content_outcome devices targetIP requestPort displayName :
  let response := validateAndFetchWebServer devices targetIP requestPort displayName in
  let webServer :=
    find (fun d => DeviceType_eqb (Device.type d) web && String.eqb (Device.ip d) targetIP)
         devices in
  (forall w,
     webServer = Some w -> requestPort = portOr80 (Device.port w) ->
     noContent (Device.webContent w) = true ->
     response = HTTPResponse.mk false 204 None
                  ("⚠️ Web服务器 " ++ Device.name w ++ " 没有配置网页内容")) /\
  (HTTPResponse.statusCode response = 204%Z ->
   exists w,
     webServer = Some w /\ requestPort = portOr80 (Device.port w) /\
     noContent (Device.webContent w) = true) /\
  (webServer = None ->
   HTTPResponse.success response = false /\
   (HTTPResponse.statusCode response = 404%Z \/ HTTPResponse.statusCode response = 503%Z)) /\
  (forall w,
     webServer = Some w -> requestPort <> portOr80 (Device.port w) ->
     HTTPResponse.success response = false /\ HTTPResponse.statusCode response = 503%Z).
Proof.
  cbv zeta. unfold validateAndFetchWebServer.
  destruct (find (fun d => DeviceType_eqb (Device.type d) web && String.eqb (Device.ip d) targetIP)
              devices) as [w|];
    [ destruct (Z.eqb_spec requestPort (portOr80 (Device.port w))) as [Hp | Hp]; cbn [negb];
      [ destruct (noContent (Device.webContent w)) eqn:Hc | ]
    | destruct (find _ devices) ];
    (split; [|split; [|split]]); cbn;
    intros;
    repeat match goal with
           | H : Some _ = Some _ |- _ => injection H as <-
           | H : Some _ = None |- _ => discriminate H
           end;
    try discriminate; try congruence; try contradiction; eauto.
Qed.

Lemma no_content_outcome_witness :
  validateAndFetchWebServer Sample.services "192.168.2.81" 8080 "192.168.2.81"
  = HTTPResponse.mk false 204 None "⚠️ Web服务器 WEB2 没有配置网页内容".
Proof.
  apply (proj1 (no_content_outcome Sample.services "192.168.2.81" 8080 "192.168.2.81")
           Sample.WEB2); reflexivity.
Defined.

(** * Further properties of the resolver *)

(** ** The trace without [showSteps] *)

Lemma hop_quiet devices connections destIP currentDevice hopCount path steps :
  hopSteps (hop devices connections destIP false currentDevice hopCount path steps)
  = Some steps \/
  hop devices connections destIP false currentDevice hopCount path steps
  = Stop ThrownTypeError.
Proof.
  unfold hop. destruct (negb (DeviceType_eqb (Device.type currentDevice) router)).
  - left. unfold endpointHop, failWith.
    destruct (findGateway devices _) as [gateway|]; [|reflexivity].
    destruct (negb (hasPhysicalConnection currentDevice gateway connections)); reflexivity.
  - unfold routerHop, failWith.
    destruct (Device.routingTable currentDevice) as [[|entry table]|]; try (left; reflexivity).
    destruct (matchingRoutes (entry :: table) destIP (getNetwork destIP)) as [|m matching];
      [left; reflexivity|].
    destruct (tryRoutes devices connections currentDevice destIP (getNetwork destIP)
                (sortByMetric (m :: matching)) []) as [[route|] failedRoutes];
      [|left; reflexivity].
    rewrite andb_false_r. cbn [andb pushIf].
    destruct (isDirect (RouteEntry.nextHop route)).
    + destruct (find _ devices); [left; reflexivity | right; reflexivity].
    + destruct (findNextRouter devices (RouteEntry.nextHop route)); left; reflexivity.
Qed.

Lemma routingLoop_quiet devices connections destIP : forall budget currentDevice hopCount
  visitedDevices path steps r,
  routingLoop budget devices connections destIP false currentDevice hopCount
    visitedDevices path steps = Returned r ->
  SimulationResult.steps r = steps.
Proof.
  induction budget as [|budget IH]; intros currentDevice hopCount visitedDevices path steps r H;
    cbn [routingLoop] in H.
  - injection H as <-. reflexivity.
  - destruct (String.eqb (Device.ip currentDevice) destIP); [injection H as <-; reflexivity|].
    destruct (hop_quiet devices connections destIP currentDevice hopCount path steps)
      as [Hq | Hq].
    + destruct (hop _ _ _ _ _ _ _ _) as [[r'|] | nextDevice steps']; cbn in Hq.
      * injection H as <-. congruence.
      * discriminate Hq.
      * injection Hq as ->.
        destruct (existsb _ visitedDevices); [injection H as <-; reflexivity|].
        eapply IH; eassumption.
    + rewrite Hq in H. discriminate H.
Qed.

Lemma simulateRouting_quiet devices connections sourceIP destIP r :
  simulateRouting devices connections sourceIP destIP false = Returned r ->
  SimulationResult.steps r = [].
Proof.
  unfold simulateRouting. intros H.
  destruct (negb (validateIP sourceIP)); [injection H as <-; reflexivity|].
  destruct (negb (validateIP destIP)); [injection H as <-; reflexivity|].
  destruct (find _ devices); [|injection H as <-; reflexivity].
  destruct (String.eqb sourceIP destIP); [injection H as <-; reflexivity|].
  eapply routingLoop_quiet; eassumption.
Qed.

(** X1.  The results the store computes for a ping, a DNS query and an
    HTTP request never carry a step: all three call the resolver with
    [showSteps] off. *)
Theorem store_results_have_no_steps toLowerCase devices connections sourceIP targetIP :
  (exists r, simulatePing devices connections sourceIP targetIP = Returned r /\
             SimulationResult.steps r = []) /\
  (forall domain, exists r,
      simulateDNSQuery toLowerCase devices connections sourceIP targetIP domain = Returned r /\
      SimulationResult.steps r = []) /\
  (forall httpSuccess statusCode httpMessage, exists r,
      simulateHTTPRequest devices connections sourceIP targetIP httpSuccess statusCode
        httpMessage = Returned r /\
      SimulationResult.steps r = []).
Proof.
  destruct (simulateRouting_returns devices connections sourceIP targetIP false) as [route Hr].
  pose proof (simulateRouting_quiet _ _ _ _ _ Hr) as Hq.
  split; [|split].
  - exists route. split; [exact Hr | exact Hq].
  - intros domain. unfold simulateDNSQuery. rewrite Hr.
    destruct (findByIp devices sourceIP); [|eexists; split; reflexivity].
    destruct (find _ devices); [|eexists; split; reflexivity].
    destruct (_ && _ && _); eexists; (split; [reflexivity | exact Hq]).
  - intros httpSuccess statusCode httpMessage. unfold simulateHTTPRequest. rewrite Hr.
    destruct (findByIp devices targetIP); [|eexists; split; reflexivity].
    destruct (negb _); [eexists; split; reflexivity|].
    destruct (_ && _ && _); eexists; (split; [reflexivity | exact Hq]).
Qed.

(** ** The shape of a returned path *)

Lemma routingLoop_shape devices connections destIP showSteps : forall budget currentDevice
  hopCount visitedDevices path steps front r,
  path = (front ++ [Device.name currentDevice])%list ->
  In currentDevice devices ->
  routingLoop budget devices connections destIP showSteps currentDevice hopCount
    visitedDevices path steps = Returned r ->
  (exists tail, SimulationResult.path r = (path ++ tail)%list /\
                (length tail <= budget)%nat) /\
  (SimulationResult.success r = true ->
   exists d front', In d devices /\ Device.ip d = destIP /\
                    SimulationResult.path r = (front' ++ [Device.name d])%list) /\
  (SimulationResult.success r = true -> Device.ip currentDevice <> destIP ->
   (length path < length (SimulationResult.path r))%nat).
Proof.
  induction budget as [|budget IH]; intros currentDevice hopCount visitedDevices path steps
    front r Hpath Hin H; cbn [routingLoop] in H.
  - injection H as <-. cbn. split; [exists []; rewrite app_nil_r; auto|].
    split; discriminate.
  - destruct (String.eqb_spec (Device.ip currentDevice) destIP) as [Hip | Hip].
    + injection H as <-. cbn. split; [exists []; rewrite app_nil_r; split; [auto | simpl; lia]|].
      split; [|contradiction]. intros _. exists currentDevice, front. auto.
    + pose proof (hop_sound devices connections destIP showSteps currentDevice hopCount path
                    steps) as Hs.
      destruct (hop _ _ _ _ _ _ _ _) as [[r'|] | nextDevice steps']; cbn in Hs.
      * injection H as <-.
        destruct Hs as [[Hfail Hp] | (dest & Hd & Hdip & _ & Hok & Hp)].
        -- split; [exists []; rewrite app_nil_r; split; [auto | simpl; lia]|].
           split; congruence.
        -- split; [exists [Device.name dest]; split; [auto | simpl; lia]|].
           split.
           ++ intros _. exists dest, path. auto.
           ++ intros _ _. rewrite Hp, length_app. simpl. lia.
      * contradiction.
      * destruct Hs as [Hnext _].
        destruct (existsb _ visitedDevices).
        -- injection H as <-. cbn.
           split; [exists []; rewrite app_nil_r; split; [auto | simpl; lia]|].
           split; discriminate.
        -- destruct (IH nextDevice (S hopCount) _ _ steps' path r eq_refl Hnext H)
             as ((tail & Hp & Hlen) & Hdest & _).
           split; [|split].
           ++ exists (Device.name nextDevice :: tail). rewrite Hp, <- app_assoc.
              split; [reflexivity | simpl; lia].
           ++ exact Hdest.
           ++ intros _ _. rewrite Hp, !length_app. simpl. lia.
Qed.

(** X2.  Whatever the resolver returns, its path has at most 11 names
    ([maxHops + 1]) and, once the source device is found, starts with that
    device's name; a successful path ends with the name of a device that
    has the destination address. *)
Theorem path_shape devices connections sourceIP destIP showSteps r :
  simulateRouting devices connections sourceIP destIP showSteps = Returned r ->
  (length (SimulationResult.path r) <= S maxHops)%nat /\
  (forall sourceDevice,
     validateIP sourceIP = true -> validateIP destIP = true ->
     find (fun d => String.eqb (Device.ip d) sourceIP) devices = Some sourceDevice ->
     hd_error (SimulationResult.path r) = Some (Device.name sourceDevice)) /\
  (SimulationResult.success r = true ->
   exists d front, In d devices /\ Device.ip d = destIP /\
                   SimulationResult.path r = (front ++ [Device.name d])%list).
Proof.
  unfold simulateRouting. intros H.
  destruct (validateIP sourceIP); cbn [negb] in H;
    [|injection H as <-; cbn; split; [lia | split; [discriminate | discriminate]]].
  destruct (validateIP destIP); cbn [negb] in H;
    [|injection H as <-; cbn; split; [lia | split; [discriminate | discriminate]]].
  destruct (find _ devices) as [sourceDevice|] eqn:E;
    [|injection H as <-; cbn; split; [lia | split; [discriminate | discriminate]]].
  destruct (find_some _ _ E) as [Hin Hip]. apply String.eqb_eq in Hip.
  destruct (String.eqb_spec sourceIP destIP) as [Heq | Hne].
  - injection H as <-. cbn. split; [lia|]. split.
    + intros s _ _ [= <-]. reflexivity.
    + intros _. exists sourceDevice, []. subst. auto.
  - destruct (routingLoop_shape devices connections destIP showSteps maxHops sourceDevice
                0%nat _ _ _ [] r eq_refl Hin H) as ((tail & Hp & Hlen) & Hdest & _).
    split; [rewrite Hp; simpl; lia|]. split.
    + intros s _ _ [= <-]. rewrite Hp. reflexivity.
    + exact Hdest.
Qed.

Lemma path_shape_witness :
  hd_error ["PC1"; "R1"; "R2"; "PC2"] = Some "PC1" /\
  exists d front, In d Sample.twoRouters /\ Device.ip d = "192.168.2.10" /\
                  ["PC1"; "R1"; "R2"; "PC2"] = (front ++ [Device.name d])%list.
Proof.
  destruct (path_shape Sample.twoRouters Sample.twoRoutersLinks "192.168.1.10" "192.168.2.10"
              false (SimulationResult.plain true ["PC1"; "R1"; "R2"; "PC2"] (msgArrived 2) []))
    as (_ & Hhead & Hlast).
  - vm_compute. reflexivity.
  - split.
    + apply (Hhead Sample.PC1); vm_compute; reflexivity.
    + apply Hlast. reflexivity.
Defined.

(** X3.  A ping is animated exactly when it succeeds between two different
    addresses: a successful result has a path of more than one name if and
    only if source and destination differ. *)
Theorem ping_animates_between_distinct devices connections sourceIP destIP r :
  simulatePing devices connections sourceIP destIP = Returned r ->
  SimulationResult.success r = true ->
  (shouldAnimate r = true <-> sourceIP <> destIP).
Proof.
  unfold simulatePing, simulateRouting, shouldAnimate. intros H Hok. rewrite Hok. cbn [andb].
  destruct (validateIP sourceIP); cbn [negb] in H; [|injection H as <-; discriminate].
  destruct (validateIP destIP); cbn [negb] in H; [|injection H as <-; discriminate].
  destruct (find _ devices) as [sourceDevice|] eqn:E; [|injection H as <-; discriminate].
  destruct (find_some _ _ E) as [Hin Hip]. apply String.eqb_eq in Hip.
  destruct (String.eqb_spec sourceIP destIP) as [Heq | Hne].
  - injection H as <-. cbn. split; [discriminate | contradiction].
  - destruct (routingLoop_shape devices connections destIP false maxHops sourceDevice
                0%nat _ _ _ [] r eq_refl Hin H) as (_ & _ & Hlonger).
    split; [auto|]. intros _. apply Nat.ltb_lt.
    assert (Hs : Device.ip sourceDevice <> destIP) by congruence.
    specialize (Hlonger Hok Hs). simpl in Hlonger. exact Hlonger.
Qed.

Lemma ping_animates_between_distinct_witness :
  shouldAnimate (SimulationResult.plain true ["PC1"; "R1"; "R2"; "PC2"] (msgArrived 2) [])
  = true <-> "192.168.1.10" <> "192.168.2.10".
Proof.
  apply (ping_animates_between_distinct Sample.twoRouters Sample.twoRoutersLinks
           "192.168.1.10" "192.168.2.10").
  - vm_compute. reflexivity.
  - reflexivity.
Defined.

(** ** Links are undirected *)

Lemma existsb_swap {A B : Type} (p : A -> B -> bool) (la : list A) (lb : list B) :
  existsb (fun a => existsb (fun b => p a b) lb) la
  = existsb (fun b => existsb (fun a => p a b) la) lb.
Proof.
  induction la as [|a la IH]; cbn.
  - induction lb as [|b lb IHb]; cbn; [reflexivity | exact IHb].
  - rewrite IH. clear IH. induction lb as [|b lb IHb]; cbn; [reflexivity|].
    rewrite <- IHb. destruct (p a b), (existsb (fun b => p a b) lb),
      (existsb (fun a => p a b) la); reflexivity.
Qed.

(** X4.  The two link tests of the resolver do not depend on the
    direction: a connection joins its two devices either way round, and two
    routers share a network whichever is asked first. *)
Theorem links_are_undirected a b connections :
  hasPhysicalConnection a b connections = hasPhysicalConnection b a connections /\
  hasCommonNetwork a b = hasCommonNetwork b a.
Proof.
  split.
  - unfold hasPhysicalConnection. apply existsb_pointwise. intros c. apply orb_comm.
  - unfold hasCommonNetwork. rewrite existsb_swap.
    apply existsb_pointwise. intros i. apply existsb_pointwise. intros j.
    apply String.eqb_sym.
Qed.

(** * Further properties of the subnet utilities *)

Lemma cidrToMask_clamp cidr : cidrToMask cidr = cidrToMask (Z.min 32 (Z.max 0 cidr)).
Proof.
  unfold cidrToMask. f_equal. apply map_ext_in. intros i Hi. simpl in Hi.
  cbv zeta. do 3 f_equal. lia.
Qed.

(** X5.  Turning a prefix length into a mask and counting the mask's bits
    gives the prefix length back, for every length from 0 to 32; lengths
    outside that range behave like the nearest end of it. *)
Theorem maskToCIDR_cidrToMask fractionOnes cidr :
  maskToCIDR fractionOnes (cidrToMask cidr) = Z.to_nat (Z.min 32 (Z.max 0 cidr)).
Proof.
  rewrite cidrToMask_clamp.
  set (c := Z.min 32 (Z.max 0 cidr)).
  assert (Hc : (0 <= c <= 32)%Z) by (unfold c; lia).
  rewrite <- (Z2Nat.id c) at 1 by lia.
  assert (Hn : (Z.to_nat c <= 32)%nat) by lia.
  generalize dependent (Z.to_nat c). clear. intros n Hn.
  do 33 (destruct n as [|n]; [vm_compute; reflexivity|]). lia.
Qed.

Lemma existsb_eqb_In s l : existsb (String.eqb s) l = true <-> In s l.
Proof.
  rewrite existsb_exists. split.
  - intros (x & Hx & E). apply String.eqb_eq in E. subst. exact Hx.
  - intros H. exists s. split; [exact H | apply String.eqb_refl].
Qed.

Lemma isValidSubnetMask_listed mask : isValidSubnetMask mask = true <-> In mask validMasks.
Proof.
  split.
  - unfold isValidSubnetMask.
    destruct (negb _); [discriminate|]. destruct (existsb _ (map Number _)); [discriminate|].
    apply existsb_eqb_In.
  - intros H. unfold validMasks in H. simpl in H.
    repeat (destruct H as [<- | H]; [vm_compute; reflexivity|]). contradiction.
Qed.

(** X6.  The masks [isValidSubnetMask] accepts are exactly the masks
    [cidrToMask] makes for the prefix lengths 8, 16 and 24 to 30, and on
    each of them [cidrToMask] undoes [maskToCIDR]. *)
Theorem valid_masks_are_teaching_prefixes fractionOnes mask :
  (isValidSubnetMask mask = true <-> exists n, In n teachingPrefixes /\ mask = cidrToMask n) /\
  (isValidSubnetMask mask = true ->
   cidrToMask (Z.of_nat (maskToCIDR fractionOnes mask)) = mask).
Proof.
  rewrite isValidSubnetMask_listed. split; [split|].
  - change validMasks with (map cidrToMask teachingPrefixes).
    intros H. apply in_map_iff in H as (n & <- & Hn). eauto.
  - intros (n & Hn & ->). change validMasks with (map cidrToMask teachingPrefixes).
    apply in_map, Hn.
  - intros H. unfold validMasks in H. simpl in H.
    repeat (destruct H as [<- | H]; [vm_compute; reflexivity|]). contradiction.
Qed.

Lemma valid_masks_are_teaching_prefixes_witness :
  cidrToMask (Z.of_nat (maskToCIDR (fun _ _ => 0%nat) "255.255.255.192")) = "255.255.255.192".
Proof.
  apply (proj2 (valid_masks_are_teaching_prefixes (fun _ _ => 0%nat) "255.255.255.192")).
  vm_compute. reflexivity.
Defined.

(** ** Subnets of dotted quads *)

Lemma intToString_inj a b :
  (0 <= a)%Z -> (0 <= b)%Z -> intToString a = intToString b -> a = b.
Proof.
  intros Ha Hb H.
  destruct (readDigits_intToString a Ha) as [k Hk].
  destruct (readDigits_intToString b Hb) as [k' Hk'].
  rewrite H in Hk. congruence.
Qed.

Lemma quad_inj a b c d a' b' c' d' :
  (0 <= a)%Z -> (0 <= b)%Z -> (0 <= c)%Z -> (0 <= d)%Z ->
  (0 <= a')%Z -> (0 <= b')%Z -> (0 <= c')%Z -> (0 <= d')%Z ->
  quad a b c d = quad a' b' c' d' -> a = a' /\ b = b' /\ c = c' /\ d = d'.
Proof.
  intros Ha Hb Hc Hd Ha' Hb' Hc' Hd' H. unfold quad in H.
  apply dotted_inj in H as (H1 & H2 & H3 & H4);
    try (apply allDigits_dotFree, allDigits_intToString; assumption).
  repeat split; apply intToString_inj; assumption.
Qed.

Lemma land_octet a m : isOctet a -> (0 <= m)%Z -> isOctet (Z.land a m).
Proof.
  unfold isOctet. intros Ha Hm.
  assert (H0 : (0 <= Z.land a m)%Z) by (apply Z.land_nonneg; lia).
  split; [exact H0|].
  destruct (Z.eq_dec (Z.land a m) 0) as [-> | Hne]; [lia|].
  assert (Hlog : (Z.log2 (Z.land a m) < 8)%Z).
  { pose proof (Z.log2_land a m ltac:(lia) Hm) as Hl.
    assert (Z.log2 a < 8)%Z.
    { destruct (Z.eq_dec a 0) as [-> | Hna]; [reflexivity|].
      apply Z.log2_lt_pow2; [lia|]. change (2 ^ 8)%Z with 256%Z. lia. }
    lia. }
  assert (Hlt : (Z.land a m < 2 ^ 8)%Z) by (apply Z.log2_lt_pow2; lia).
  change (2 ^ 8)%Z with 256%Z in Hlt. lia.
Qed.

Lemma calculateSubnet_quad a b c d m1 m2 m3 m4 :
  isOctet a -> isOctet b -> isOctet c -> isOctet d ->
  isOctet m1 -> isOctet m2 -> isOctet m3 -> isOctet m4 ->
  calculateSubnet (quad a b c d) (quad m1 m2 m3 m4)
  = quad (Z.land a m1) (Z.land b m2) (Z.land c m3) (Z.land d m4).
Proof.
  unfold isOctet. intros.
  rewrite (calculateSubnet_four _ _ _ _ _ _ _ _ _ _
             (split_quad a b c d ltac:(lia) ltac:(lia) ltac:(lia) ltac:(lia))
             (split_quad m1 m2 m3 m4 ltac:(lia) ltac:(lia) ltac:(lia) ltac:(lia))).
  rewrite !bitAnd_octets by lia. reflexivity.
Qed.

Lemma quad_not_empty a b c d : isEmpty (quad a b c d) = false.
Proof. unfold isEmpty, quad, dotted. apply append_not_empty, intToString_not_empty. Qed.

(** X7.  On dotted quads of octets, [isInSameSubnet] holds exactly when
    the two addresses agree on every octet after masking. *)
Theorem isInSameSubnet_octets a b c d a' b' c' d' m1 m2 m3 m4 :
  isOctet a -> isOctet b -> isOctet c -> isOctet d ->
  isOctet a' -> isOctet b' -> isOctet c' -> isOctet d' ->
  isOctet m1 -> isOctet m2 -> isOctet m3 -> isOctet m4 ->
  (isInSameSubnet (quad a b c d) (quad m1 m2 m3 m4) (quad a' b' c' d') = true <->
   Z.land a m1 = Z.land a' m1 /\ Z.land b m2 = Z.land b' m2 /\
   Z.land c m3 = Z.land c' m3 /\ Z.land d m4 = Z.land d' m4).
Proof.
  intros Ha Hb Hc Hd Ha' Hb' Hc' Hd' H1 H2 H3 H4. unfold isInSameSubnet. cbv zeta.
  rewrite !calculateSubnet_quad by assumption. rewrite !quad_not_empty. cbn [orb].
  rewrite String.eqb_eq. unfold isOctet in *. split.
  - intros H. apply quad_inj in H; try (apply Z.land_nonneg; lia). exact H.
  - intros (-> & -> & -> & ->). reflexivity.
Qed.

Lemma isInSameSubnet_octets_witness :
  isInSameSubnet (quad 192 168 1 10) (quad 255 255 255 128) (quad 192 168 1 100) = true <->
  Z.land 192 255 = Z.land 192 255 /\ Z.land 168 255 = Z.land 168 255 /\
  Z.land 1 255 = Z.land 1 255 /\ Z.land 10 128 = Z.land 100 128.
Proof.
  apply isInSameSubnet_octets; unfold isOctet; lia.
Defined.

Lemma calculateSubnet_not_empty_iff ip subnetMask :
  isEmpty (calculateSubnet ip subnetMask) = false ->
  deriveSubnet ip subnetMask = calculateSubnet ip subnetMask.
Proof.
  unfold deriveSubnet, isEmpty. intros H. rewrite H. reflexivity.
Qed.

(** X8.  The store's [isInSameSubnetHelper] agrees with the utility
    [isInSameSubnet] wherever the latter says yes; through the fall-backs
    of [deriveSubnet] it also says yes on some inputs the utility rejects. *)
Theorem helper_extends_isInSameSubnet :
  (forall ip1 mask ip2,
     isInSameSubnet ip1 mask ip2 = true -> isInSameSubnetHelper ip1 mask ip2 = true) /\
  (exists ip1 mask ip2,
     isInSameSubnetHelper ip1 mask ip2 = true /\ isInSameSubnet ip1 mask ip2 = false).
Proof.
  split.
  - intros ip1 mask ip2. unfold isInSameSubnet, isInSameSubnetHelper. cbv zeta.
    destruct (isEmpty (calculateSubnet ip1 mask)) eqn:E1; [discriminate|].
    destruct (isEmpty (calculateSubnet ip2 mask)) eqn:E2; [discriminate|].
    cbn [orb]. rewrite !calculateSubnet_not_empty_iff by assumption. auto.
  - exists "1.2.3", "255.255.255.0", "1.2.3.9". split; vm_compute; reflexivity.
Qed.

Lemma helper_extends_isInSameSubnet_witness :
  isInSameSubnetHelper "192.168.1.10" "255.255.255.0" "192.168.1.200" = true.
Proof.
  apply (proj1 helper_extends_isInSameSubnet). vm_compute. reflexivity.
Defined.

Lemma deriveSubnet_quad a b c d m1 m2 m3 m4 :
  isOctet a -> isOctet b -> isOctet c -> isOctet d ->
  isOctet m1 -> isOctet m2 -> isOctet m3 -> isOctet m4 ->
  deriveSubnet (quad a b c d) (quad m1 m2 m3 m4)
  = quad (Z.land a m1) (Z.land b m2) (Z.land c m3) (Z.land d m4).
Proof.
  intros Ha Hb Hc Hd H1 H2 H3 H4.
  rewrite calculateSubnet_not_empty_iff;
    rewrite calculateSubnet_quad by assumption; [reflexivity | apply quad_not_empty].
Qed.

(** X9.  The subnet of a subnet address is that address: on dotted quads
    of octets, [deriveSubnet] applied again with the same mask changes
    nothing. *)
Theorem deriveSubnet_idempotent a b c d m1 m2 m3 m4 :
  isOctet a -> isOctet b -> isOctet c -> isOctet d ->
  isOctet m1 -> isOctet m2 -> isOctet m3 -> isOctet m4 ->
  deriveSubnet (deriveSubnet (quad a b c d) (quad m1 m2 m3 m4)) (quad m1 m2 m3 m4)
  = deriveSubnet (quad a b c d) (quad m1 m2 m3 m4).
Proof.
  intros Ha Hb Hc Hd H1 H2 H3 H4.
  rewrite (deriveSubnet_quad a b c d m1 m2 m3 m4) by assumption.
  rewrite deriveSubnet_quad;
    try assumption; try (apply land_octet; [assumption | unfold isOctet in *; lia]).
  rewrite <- !Z.land_assoc, !Z.land_diag. reflexivity.
Qed.

Lemma deriveSubnet_idempotent_witness :
  deriveSubnet (deriveSubnet (quad 192 168 1 130) (quad 255 255 255 128))
    (quad 255 255 255 128)
  = deriveSubnet (quad 192 168 1 130) (quad 255 255 255 128).
Proof.
  apply deriveSubnet_idempotent; unfold isOctet; lia.
Defined.

(** * Further properties of the validators *)

Lemma onlyDigitsAndDots_split s :
  onlyDigitsAndDots s = forallb allDigits (split dot s).
Proof.
  induction s as [|c rest IH]; [reflexivity|].
  rewrite split_cons. cbn [onlyDigitsAndDots]. rewrite IH.
  destruct (Ascii.eqb c dot) eqn:E.
  - rewrite orb_true_r. reflexivity.
  - rewrite orb_false_r. pose proof (split_not_nil dot rest) as Hn.
    destruct (split dot rest) as [|piece pieces]; [congruence|].
    cbn [forallb]. rewrite allDigits_cons, andb_assoc. reflexivity.
Qed.

Lemma countDots_split s : length (split dot s) = S (countDots s).
Proof.
  induction s as [|c rest IH]; [reflexivity|].
  rewrite split_cons. cbn [countDots].
  destruct (Ascii.eqb c dot); [simpl; rewrite IH; reflexivity|].
  destruct (split dot rest) as [|piece pieces]; [discriminate IH | exact IH].
Qed.

Lemma hasConsecutiveDots_split s :
  hasConsecutiveDots s = true -> In EmptyString (tl (split dot s)).
Proof.
  induction s as [|c rest IH]; [discriminate|].
  destruct rest as [|c' rest']; [discriminate|].
  cbn [hasConsecutiveDots]. intros H. apply orb_true_iff in H as [H | H].
  - apply andb_true_iff in H as [Hc Hc'].
    rewrite split_cons, Hc, split_cons, Hc'. left. reflexivity.
  - specialize (IH H). rewrite split_cons.
    destruct (Ascii.eqb c dot).
    + cbn [tl]. destruct (split dot (String c' rest')) as [|p ps]; [contradiction|].
      right. exact IH.
    + destruct (split dot (String c' rest')) as [|p ps]; [contradiction | exact IH].
Qed.

Lemma matchIpPattern_some ip groups :
  matchIpPattern ip = Some groups ->
  groups = split dot ip /\ length groups = 4%nat /\
  Forall (fun g => allDigits g = true /\ g <> EmptyString) groups.
Proof.
  unfold matchIpPattern.
  destruct ((length (split dot ip) =? 4)%nat && forallb isOctetText (split dot ip)) eqn:E;
    [|discriminate].
  intros [= <-]. apply andb_true_iff in E as [Hlen Hoct]. apply Nat.eqb_eq in Hlen.
  split; [reflexivity|]. split; [exact Hlen|].
  apply Forall_forall. intros g Hg. rewrite forallb_forall in Hoct.
  specialize (Hoct g Hg). unfold isOctetText in Hoct.
  apply andb_true_iff in Hoct as [Hoct _]. apply andb_true_iff in Hoct as [Hd Hl].
  split; [exact Hd|]. intros ->. discriminate Hl.
Qed.

Lemma firstOver255_none segments : forall i,
  Forall (fun seg => forall v, parseInt seg = Some v -> (0 <= v <= 255)%Z) segments ->
  firstOver255 segments i = None.
Proof.
  induction segments as [|seg rest IH]; intros i H; [reflexivity|].
  inversion H as [|? ? Hseg Hrest]; subst. cbn [firstOver255].
  destruct (isEmpty seg); [apply IH, Hrest|].
  destruct (parseInt seg) as [v|] eqn:E; [|apply IH, Hrest].
  specialize (Hseg v eq_refl).
  replace (255 <? v)%Z with false by (symmetry; apply Z.ltb_ge; lia).
  apply IH, Hrest.
Qed.

(** X10.  The check run while the user types never warns about an address
    the final check accepts. *)
Theorem validateIPInput_silent_on_valid ip :
  Validation.valid (validateIPAddress ip) = true -> validateIPInput ip = None.
Proof.
  intros H. destruct (validateIPAddress_valid ip H) as (groups & Hm & Hrange).
  destruct (matchIpPattern_some ip groups Hm) as (-> & Hlen & Hdigits).
  unfold validateIPInput.
  destruct (isEmpty ip || isEmpty (trim ip)); [reflexivity|].
  rewrite onlyDigitsAndDots_split.
  replace (forallb allDigits (split dot ip)) with true.
  2:{ symmetry. apply forallb_forall. intros g Hg.
      rewrite Forall_forall in Hdigits. apply (Hdigits g Hg). }
  cbn [negb].
  assert (Hdots : countDots ip = 3%nat) by (pose proof (countDots_split ip); lia).
  rewrite Hdots. cbn [Nat.ltb Nat.leb].
  destruct (hasConsecutiveDots ip) eqn:Hcd.
  - exfalso. apply hasConsecutiveDots_split in Hcd.
    rewrite Forall_forall in Hdigits.
    destruct (split dot ip) as [|p ps]; [contradiction|].
    destruct (Hdigits EmptyString (or_intror Hcd)) as [_ Hne]. congruence.
  - apply firstOver255_none. apply firstOutOfRange_none in Hrange.
    rewrite Forall_map in Hrange. exact Hrange.
Qed.

Lemma validateIPInput_silent_on_valid_witness : validateIPInput "192.168.1.10" = None.
Proof. apply validateIPInput_silent_on_valid. vm_compute. reflexivity. Defined.

Lemma parseInt10_digits s :
  allDigits s = true -> s <> EmptyString -> parseInt10 s = parseInt s.
Proof.
  intros Hd Hne. destruct s as [|c rest]; [congruence|].
  pose proof Hd as Hc. rewrite allDigits_cons in Hc. apply andb_true_iff in Hc as [Hc _].
  unfold parseInt10, parseInt.
  rewrite (trimStart_digit _ _ Hc), (digit_no_sign _ _ Hc), (digits_no_hex_prefix _ Hd).
  reflexivity.
Qed.

Lemma groupsInRange_forallb groups :
  Forall (fun g => allDigits g = true /\ g <> EmptyString) groups ->
  HTTPHandler.groupsInRange groups = forallb (fun part => inByteRange (parseInt10 part)) groups.
Proof.
  induction 1 as [|g rest [Hd Hne] Hrest IH]; [reflexivity|].
  cbn [HTTPHandler.groupsInRange forallb]. rewrite (parseInt10_digits g Hd Hne), IH.
  destruct (parseInt_digits g Hd Hne) as [v ->]. cbn [inByteRange].
  destruct (Z.ltb_spec v 0), (Z.ltb_spec 255 v), (Z.leb_spec 0 v), (Z.leb_spec v 255);
    try lia; reflexivity.
Qed.

(** X11.  The address tests of the DNS resolver and of the HTTP handler,
    written separately, accept the same texts. *)
Theorem address_tests_agree input :
  HTTPHandler.isIPAddress input = DNSResolver.validateIP input.
Proof.
  unfold HTTPHandler.isIPAddress, DNSResolver.validateIP.
  destruct (matchIpPattern input) as [groups|] eqn:E; [|reflexivity].
  destruct (matchIpPattern_some input groups E) as (-> & _ & Hd).
  apply groupsInRange_forallb, Hd.
Qed.

(** X12.  The three address validators are ordered: what
    [validateIPAddress] accepts, [DNSResolver.validateIP] accepts, and
    what that accepts, the store's [validateIP] accepts; neither converse
    holds. *)
Theorem validators_are_ordered :
  (forall ip, Validation.valid (validateIPAddress ip) = true ->
              DNSResolver.validateIP ip = true) /\
  (forall ip, DNSResolver.validateIP ip = true -> validateIP ip = true) /\
  (exists ip, DNSResolver.validateIP ip = true /\
              Validation.valid (validateIPAddress ip) = false) /\
  (exists ip, validateIP ip = true /\ DNSResolver.validateIP ip = false).
Proof.
  split; [|split; [|split]].
  - intros ip H. destruct (validateIPAddress_valid ip H) as (groups & Hm & Hrange).
    destruct (matchIpPattern_some ip groups Hm) as (-> & Hlen & Hd).
    unfold DNSResolver.validateIP. rewrite Hm.
    apply firstOutOfRange_none in Hrange. rewrite Forall_map in Hrange.
    apply forallb_forall. intros g Hg. rewrite Forall_forall in Hd, Hrange.
    destruct (Hd g Hg) as [Hdg Hne]. rewrite (parseInt10_digits g Hdg Hne).
    destruct (parseInt_digits g Hdg Hne) as [v Hv]. rewrite Hv.
    specialize (Hrange g Hg v Hv). cbn. apply andb_true_iff. split; apply Z.leb_le; lia.
  - intros ip. unfold DNSResolver.validateIP, validateIP.
    destruct (matchIpPattern ip) as [groups|] eqn:E; [|discriminate].
    destruct (matchIpPattern_some ip groups E) as (Hg & Hlen & Hd). subst groups.
    rewrite Hlen. cbn [Nat.eqb negb]. intros H.
    apply forallb_forall. intros g Hin. rewrite forallb_forall in H.
    specialize (H g Hin). rewrite Forall_forall in Hd. destruct (Hd g Hin) as [Hdg Hne].
    rewrite (parseInt10_digits g Hdg Hne) in H. exact H.
  - exists "127.0.0.1". split; vm_compute; reflexivity.
  - exists "1.2.3.4x". split; vm_compute; reflexivity.
Qed.

Lemma validators_are_ordered_witness :
  DNSResolver.validateIP "192.168.1.10" = true /\ validateIP "192.168.1.10" = true.
Proof.
  destruct validators_are_ordered as (H1 & H2 & _).
  assert (H : DNSResolver.validateIP "192.168.1.10" = true)
    by (apply H1; vm_compute; reflexivity).
  split; [exact H | apply H2, H].
Defined.

(** ** The DNS resolver and the HTTP handler *)

Lemma validateAndFetchWebServer_success devices targetIP requestPort displayName :
  HTTPResponse.success (validateAndFetchWebServer devices targetIP requestPort displayName)
    = true ->
  exists webServer,
    In webServer devices /\ Device.type webServer = web /\ Device.ip webServer = targetIP /\
    requestPort = portOr80 (Device.port webServer) /\
    noContent (Device.webContent webServer) = false /\
    validateAndFetchWebServer devices targetIP requestPort displayName =
      HTTPResponse.mk true 200 (Device.webContent webServer)
        ("✅ HTTP 200 OK - 成功访问 " ++ displayName).
Proof.
  unfold validateAndFetchWebServer.
  destruct (find _ devices) as [webServer|] eqn:Hfind.
  - apply find_some in Hfind. destruct Hfind as [Hin Hb].
    apply andb_true_iff in Hb. destruct Hb as [Ht Hip].
    cbv zeta.
    destruct (requestPort =? portOr80 (Device.port webServer))%Z eqn:Hport; cbn [negb].
    + destruct (noContent (Device.webContent webServer)) eqn:Hc; cbn; [discriminate|].
      intros _. exists webServer.
      split; [assumption|].
      split; [destruct (Device.type webServer); cbn in Ht; congruence|].
      split; [now apply String.eqb_eq|].
      split; [now apply Z.eqb_eq|].
      split; [assumption|reflexivity].
    + cbn. discriminate.
  - clear Hfind. destruct (find _ devices); cbn; discriminate.
Qed.

Lemma validateAndFetchWebServer_codes devices targetIP requestPort displayName :
  In (HTTPResponse.statusCode
        (validateAndFetchWebServer devices targetIP requestPort displayName))
     [200; 204; 404; 503]%Z.
Proof.
  unfold validateAndFetchWebServer.
  destruct (find _ devices) as [webServer|].
  - cbv zeta. destruct (negb _); [cbn; tauto|].
    destruct (noContent _); cbn; tauto.
  - destruct (find _ devices); cbn; tauto.
Qed.

(** X13.  [DNSResolver.resolveDomain] succeeds only on evidence: a
    successful result names the address of a record that the DNS
    server at the queried address holds for the queried domain (compared
    in lower case), a device with that address exists, the store's own
    look-up in that server returns the same address, and
    [findDNSServerByDomain] finds a server for the domain. *)
Theorem resolveDomain_sound toLowerCase devices query :
  DNSQueryResult.success (resolveDomain toLowerCase devices query) = true ->
  exists dnsServer records record target,
    findDnsServer devices (DNSQuery.dnsServerIP query) = Some dnsServer /\
    Device.dnsRecords dnsServer = Some records /\
    In record records /\
    toLowerCase (DNSRecord.domain record) = toLowerCase (DNSQuery.domain query) /\
    DNSQueryResult.resolvedIP (resolveDomain toLowerCase devices query)
      = Some (DNSRecord.ip record) /\
    In target devices /\ Device.ip target = DNSRecord.ip record /\
    lookupRecord toLowerCase dnsServer (DNSQuery.domain query) = DNSRecord.ip record /\
    findDNSServerByDomain toLowerCase devices (DNSQuery.domain query) <> None.
Proof.
  unfold resolveDomain.
  destruct (findDnsServer devices (DNSQuery.dnsServerIP query)) as [dnsServer|] eqn:Hserver;
    [|cbn; discriminate].
  cbv zeta.
  destruct (Device.dnsRecords dnsServer) as [records|] eqn:Hrecords; [|cbn; discriminate].
  destruct records as [|r0 records0]; [cbn; discriminate|].
  remember (r0 :: records0) as records eqn:Hrs.
  destruct (find (matchesDomain toLowerCase (DNSQuery.domain query)) records)
    as [record|] eqn:Hrecord; [|cbn; discriminate].
  destruct (find (fun d => String.eqb (Device.ip d) (DNSRecord.ip record)) devices)
    as [target|] eqn:Htarget; [|cbn; discriminate].
  intros _. cbn [DNSQueryResult.resolvedIP].
  exists dnsServer, records, record, target.
  pose proof (find_some _ _ Hrecord) as [Hin Hmatch].
  pose proof (find_some _ _ Htarget) as [Hint Hip].
  unfold matchesDomain in Hmatch. apply String.eqb_eq in Hmatch.
  apply String.eqb_eq in Hip.
  repeat split; try assumption.
  - unfold lookupRecord. rewrite Hrecords.
    unfold matchesDomain in Hrecord. now rewrite Hrecord.
  - unfold findDNSServerByDomain. intros Hnone.
    unfold findDnsServer in Hserver. apply find_some in Hserver.
    destruct Hserver as [Hins Hb]. apply andb_true_iff in Hb. destruct Hb as [Hdns _].
    pose proof (find_none _ _ Hnone _ Hins) as Hf. cbn beta in Hf.
    rewrite Hdns, Hrecords in Hf. cbn [andb someOf] in Hf.
    assert (Hex : existsb (matchesDomain toLowerCase (DNSQuery.domain query)) records = true).
    { apply existsb_exists. exists record. split; [assumption|].
      unfold matchesDomain. now apply String.eqb_eq. }
    unfold someOf in Hf. congruence.
Qed.

Lemma resolveDomain_sound_witness :
  exists dnsServer records record target,
    findDnsServer Sample.services "192.168.2.50" = Some dnsServer /\
    Device.dnsRecords dnsServer = Some records /\
    In record records /\
    toLowerAscii (DNSRecord.domain record) = toLowerAscii "WWW.school.com" /\
    DNSQueryResult.resolvedIP
      (resolveDomain toLowerAscii Sample.services
         (DNSQuery.mk "WWW.school.com" "192.168.1.10" "192.168.2.50"))
      = Some (DNSRecord.ip record) /\
    In target Sample.services /\ Device.ip target = DNSRecord.ip record /\
    lookupRecord toLowerAscii dnsServer "WWW.school.com" = DNSRecord.ip record /\
    findDNSServerByDomain toLowerAscii Sample.services "WWW.school.com" <> None.
Proof.
  apply (resolveDomain_sound toLowerAscii Sample.services
           (DNSQuery.mk "WWW.school.com" "192.168.1.10" "192.168.2.50")).
  vm_compute. reflexivity.
Defined.

(** X14.  [HTTPHandler.handleRequest] reports success only when the
    whole chain holds: the DNS result it returns is successful and
    carries an address, a web server has that address and listens on the
    requested port (80 where either is absent or zero), and the response
    is a 200 whose content is that server's non-blank page. *)
Theorem handleRequest_success_chain toLowerCase devices request dnsServerIP :
  HTTPResponse.success (fst (handleRequest toLowerCase devices request dnsServerIP)) = true ->
  exists resolvedIP webServer,
    DNSQueryResult.success (snd (handleRequest toLowerCase devices request dnsServerIP))
      = true /\
    DNSQueryResult.resolvedIP (snd (handleRequest toLowerCase devices request dnsServerIP))
      = Some resolvedIP /\
    In webServer devices /\ Device.type webServer = web /\
    Device.ip webServer = resolvedIP /\
    portOr80 (HTTPRequest.port request) = portOr80 (Device.port webServer) /\
    noContent (Device.webContent webServer) = false /\
    HTTPResponse.statusCode (fst (handleRequest toLowerCase devices request dnsServerIP))
      = 200%Z /\
    HTTPResponse.content (fst (handleRequest toLowerCase devices request dnsServerIP))
      = Device.webContent webServer.
Proof.
  unfold handleRequest. cbv zeta.
  destruct (DNSQueryResult.success (resolveDomain _ _ _)) eqn:Hs; [|cbn; discriminate].
  destruct (DNSQueryResult.resolvedIP (resolveDomain _ _ _)) as [resolvedIP|] eqn:Hip;
    [|cbn; discriminate].
  destruct (isEmpty resolvedIP); [cbn; discriminate|].
  cbn [fst snd]. intros Hok.
  destruct (validateAndFetchWebServer_success _ _ _ _ Hok)
    as (webServer & Hin & Ht & Haddr & Hport & Hc & Heq).
  exists resolvedIP, webServer. rewrite Heq. cbn.
  repeat split; assumption.
Qed.

Lemma handleRequest_success_chain_witness :
  exists resolvedIP webServer,
    DNSQueryResult.success
      (snd (handleRequest toLowerAscii Sample.services
              (HTTPRequest.mk "www.school.com" "192.168.1.10" "" None) "192.168.2.50"))
      = true /\
    DNSQueryResult.resolvedIP
      (snd (handleRequest toLowerAscii Sample.services
              (HTTPRequest.mk "www.school.com" "192.168.1.10" "" None) "192.168.2.50"))
      = Some resolvedIP /\
    In webServer Sample.services /\ Device.type webServer = web /\
    Device.ip webServer = resolvedIP /\
    portOr80 None = portOr80 (Device.port webServer) /\
    noContent (Device.webContent webServer) = false /\
    HTTPResponse.statusCode
      (fst (handleRequest toLowerAscii Sample.services
              (HTTPRequest.mk "www.school.com" "192.168.1.10" "" None) "192.168.2.50"))
      = 200%Z /\
    HTTPResponse.content
      (fst (handleRequest toLowerAscii Sample.services
              (HTTPRequest.mk "www.school.com" "192.168.1.10" "" None) "192.168.2.50"))
      = Device.webContent webServer.
Proof.
  apply (handleRequest_success_chain toLowerAscii Sample.services
           (HTTPRequest.mk "www.school.com" "192.168.1.10" "" None) "192.168.2.50").
  vm_compute. reflexivity.
Defined.

(** X15.  [HTTPHandler.handleDirectIPRequest] answers 400 exactly when
    the target is not a dotted quad of octets; otherwise the status is
    one of 200, 204, 404 and 503, and a 200 carries the non-blank page of
    a web server at the target address. *)
Theorem handleDirectIPRequest_statuses devices request :
  let response := handleDirectIPRequest devices request in
  (HTTPResponse.statusCode response = 400%Z <->
     HTTPHandler.isIPAddress (HTTPRequest.targetIP request) = false) /\
  In (HTTPResponse.statusCode response) [200; 204; 400; 404; 503]%Z /\
  (HTTPResponse.success response = true <-> HTTPResponse.statusCode response = 200%Z) /\
  (HTTPResponse.success response = true ->
     exists webServer,
       In webServer devices /\ Device.type webServer = web /\
       Device.ip webServer = HTTPRequest.targetIP request /\
       HTTPResponse.content response = Device.webContent webServer /\
       noContent (Device.webContent webServer) = false).
Proof.
  cbv zeta. unfold handleDirectIPRequest. cbv zeta.
  set (targetIP := HTTPRequest.targetIP request).
  assert (Hempty : isEmpty targetIP = true -> HTTPHandler.isIPAddress targetIP = false).
  { unfold isEmpty. intros H. apply String.eqb_eq in H. rewrite H. reflexivity. }
  destruct (isEmpty targetIP) eqn:He; cbn [orb].
  - cbn. rewrite (Hempty eq_refl). repeat split; try tauto; try discriminate.
  - destruct (HTTPHandler.isIPAddress targetIP) eqn:Hip; cbn [negb].
    + pose proof (validateAndFetchWebServer_codes devices targetIP
                    (portOr80 (HTTPRequest.port request)) targetIP) as Hcodes.
      pose proof (validateAndFetchWebServer_success devices targetIP
                    (portOr80 (HTTPRequest.port request)) targetIP) as Hsucc.
      set (response := validateAndFetchWebServer _ _ _ _) in *.
      repeat split.
      * intros H4. rewrite H4 in Hcodes. cbn in Hcodes.
        repeat (destruct Hcodes as [Hcodes|Hcodes]; [discriminate|]). contradiction.
      * discriminate.
      * cbn in Hcodes |- *. tauto.
      * intros Hok. destruct (Hsucc Hok) as (w & _ & _ & _ & _ & _ & Heq).
        rewrite Heq. reflexivity.
      * intros H200. unfold response, validateAndFetchWebServer in *.
        destruct (find _ devices).
        -- cbv zeta in *. destruct (negb _); [cbn in H200; discriminate|].
           destruct (noContent _); [cbn in H200; discriminate|reflexivity].
        -- destruct (find _ devices); cbn in H200; discriminate.
      * intros Hok. destruct (Hsucc Hok) as (w & Hin & Ht & Ha & _ & Hc & Heq).
        exists w. rewrite Heq. cbn. repeat split; assumption.
    + cbn. repeat split; try tauto; try discriminate.
Qed.

(** ** Normalising routers *)

Lemma deriveSubnet_not_empty ip mask : isEmpty (deriveSubnet ip mask) = false.
Proof.
  unfold deriveSubnet, isEmpty. cbv zeta.
  destruct (String.eqb (calculateSubnet ip mask) "") eqn:E; cbn [negb]; [|exact E].
  destruct (3 <=? length (split dot ip))%nat; [|reflexivity].
  destruct (templateAt (split dot ip) 0); reflexivity.
Qed.

Lemma orElse_not_empty value fallback :
  isEmpty fallback = false -> isEmpty (orElse value fallback) = false.
Proof.
  intros H. unfold orElse. destruct value as [s|]; [|exact H].
  destruct (isEmpty s) eqn:E; [exact H | exact E].
Qed.

Lemma orElse_Some s fallback : isEmpty s = false -> orElse (Some s) fallback = s.
Proof. intros H. unfold orElse. now rewrite H. Qed.

Lemma findIndex_setAt {A : Type} (p : A -> bool) (v : A) : forall xs i,
  findIndex p xs = Some i -> p v = true ->
  (exists x, nth_error xs i = Some x /\ p x = true) /\
  findIndex p (setAt xs i v) = Some i /\
  nth_error (setAt xs i v) i = Some v /\
  find p (setAt xs i v) = Some v /\
  length (setAt xs i v) = length xs /\
  (forall w, setAt (setAt xs i v) i w = setAt xs i w).
Proof.
  induction xs as [|x rest IH]; intros i Hi Hv; cbn in Hi; [discriminate|].
  destruct (p x) eqn:Hx.
  - injection Hi as <-. cbn. rewrite Hv. repeat split; eauto.
  - destruct (findIndex p rest) as [j|] eqn:Hj; [|discriminate].
    injection Hi as <-. destruct (IH j eq_refl Hv) as (Hex & Hf & Hn & Hfind & Hlen & Hset).
    cbn. rewrite Hx, Hf. cbn. repeat split; auto.
    intros w. now rewrite Hset.
Qed.

Lemma findIndex_None_find {A : Type} (p : A -> bool) xs :
  findIndex p xs = None -> find p xs = None.
Proof.
  induction xs as [|x rest IH]; cbn; [reflexivity|].
  destruct (p x); [discriminate|].
  destruct (findIndex p rest); [discriminate|]. intros _. now apply IH.
Qed.

Lemma isRouterDevice_ensured device :
  isRouterDevice (ensureRouterLanInterface device) = isRouterDevice device.
Proof.
  unfold ensureRouterLanInterface.
  destruct (isRouterDevice device) eqn:Hr; cbn [negb]; [|exact Hr].
  cbv zeta. destruct (findIndex isLan _); [|exact Hr].
  destruct (nth_error _ _); exact Hr.
Qed.

Lemma fallbackIP_not_empty ip :
  isEmpty (if negb (isEmpty ip) then ip else "192.168.1.1") = false.
Proof. destruct (isEmpty ip) eqn:E; cbn [negb]; [reflexivity | exact E]. Qed.

(** What [ensureRouterLanInterface] makes of a router: a device whose
    address is set and whose first LAN interface is complete. *)
Lemma ensureRouterLanInterface_router device :
  isRouterDevice device = true ->
  exists ip interfaces lan,
    ensureRouterLanInterface device = withIpInterfaces device ip (Some interfaces) /\
    isEmpty ip = false /\
    findIndex isLan interfaces <> None /\
    find isLan interfaces = Some lan /\
    isEmpty (NetworkInterface.ip lan) = false /\
    (exists mask, NetworkInterface.subnetMask lan = Some mask /\ isEmpty mask = false) /\
    (exists subnet, NetworkInterface.subnet lan = Some subnet /\ isEmpty subnet = false).
Proof.
  intros Hr. unfold ensureRouterLanInterface. rewrite Hr. cbn [negb]. cbv zeta.
  set (interfaces := orEmpty (Device.interfaces device)).
  set (fallbackIP := if negb (isEmpty (Device.ip device)) then Device.ip device
                     else "192.168.1.1").
  assert (Hfb : isEmpty fallbackIP = false) by apply fallbackIP_not_empty.
  destruct (findIndex isLan interfaces) as [lanIndex|] eqn:Hidx.
  - set (build := fun lanIface : NetworkInterface.t =>
           NetworkInterface.mk (NetworkInterface.id lanIface) (NetworkInterface.name lanIface)
             (if negb (isEmpty (NetworkInterface.ip lanIface)) then NetworkInterface.ip lanIface
              else fallbackIP)
             (Some (orElse (NetworkInterface.subnet lanIface)
                      (deriveSubnet
                         (if negb (isEmpty (NetworkInterface.ip lanIface))
                          then NetworkInterface.ip lanIface else fallbackIP)
                         (orElse (NetworkInterface.subnetMask lanIface) DEFAULT_SUBNET_MASK))))
             (Some (orElse (NetworkInterface.subnetMask lanIface) DEFAULT_SUBNET_MASK))).
    destruct (nth_error interfaces lanIndex) as [lanIface|] eqn:Hnth.
    + assert (Hlan : isLan lanIface = true).
      { destruct (findIndex_setAt isLan lanIface interfaces lanIndex Hidx) as ((x & Hx & Hp) & _).
        - destruct (findIndex_setAt isLan (NetworkInterface.mk None "LAN" "" None None)
                      interfaces lanIndex Hidx eq_refl) as ((x & Hx & Hp) & _).
          congruence.
        - congruence. }
      assert (Hb : isLan (build lanIface) = true) by exact Hlan.
      destruct (findIndex_setAt isLan (build lanIface) interfaces lanIndex Hidx Hb)
        as (_ & Hf & _ & Hfind & Hlen & _).
      assert (HlanIP : isEmpty (if negb (isEmpty (NetworkInterface.ip lanIface))
                                then NetworkInterface.ip lanIface else fallbackIP) = false).
      { destruct (isEmpty (NetworkInterface.ip lanIface)) eqn:E; cbn [negb]; assumption. }
      exists (if isEmpty (Device.ip device)
              then (if negb (isEmpty (NetworkInterface.ip lanIface))
                    then NetworkInterface.ip lanIface else fallbackIP)
              else Device.ip device),
             (setAt interfaces lanIndex (build lanIface)), (build lanIface).
      split; [reflexivity|].
      split; [destruct (isEmpty (Device.ip device)) eqn:E; assumption|].
      split; [congruence|]. split; [exact Hfind|].
      split; [exact HlanIP|]. split.
      { eexists. split; [reflexivity|]. apply orElse_not_empty. reflexivity. }
      eexists. split; [reflexivity|]. apply orElse_not_empty, deriveSubnet_not_empty.
    + destruct (findIndex_setAt isLan (NetworkInterface.mk None "LAN" "" None None)
                  interfaces lanIndex Hidx eq_refl) as ((x & Hx & Hp) & _).
      congruence.
  - eexists fallbackIP, (_ :: interfaces), _.
    split; [reflexivity|]. split; [exact Hfb|].
    split; [cbn; discriminate|]. split; [reflexivity|].
    cbn [NetworkInterface.ip NetworkInterface.subnet NetworkInterface.subnetMask].
    split; [exact Hfb|]. split; [eexists; split; reflexivity|].
    eexists. split; [reflexivity|]. apply deriveSubnet_not_empty.
Qed.

Lemma ensureRouterLanInterface_idempotent device :
  ensureRouterLanInterface (ensureRouterLanInterface device) = ensureRouterLanInterface device.
Proof.
  destruct (isRouterDevice device) eqn:Hr.
  2:{ unfold ensureRouterLanInterface. rewrite Hr. cbn [negb]. now rewrite Hr. }
  unfold ensureRouterLanInterface at 2 3. rewrite Hr. cbn [negb]. cbv zeta.
  set (interfaces := orEmpty (Device.interfaces device)).
  set (fallbackIP := if negb (isEmpty (Device.ip device)) then Device.ip device
                     else "192.168.1.1").
  assert (Hfb : isEmpty fallbackIP = false) by apply fallbackIP_not_empty.
  destruct (findIndex isLan interfaces) as [lanIndex|] eqn:Hidx.
  - destruct (nth_error interfaces lanIndex) as [lanIface|] eqn:Hnth.
    2:{ unfold ensureRouterLanInterface. rewrite Hr. cbn [negb]. cbv zeta.
        fold interfaces. rewrite Hidx, Hnth. reflexivity. }
    set (lanIP := if negb (isEmpty (NetworkInterface.ip lanIface))
                  then NetworkInterface.ip lanIface else fallbackIP).
    set (mask := orElse (NetworkInterface.subnetMask lanIface) DEFAULT_SUBNET_MASK).
    set (subnet := orElse (NetworkInterface.subnet lanIface) (deriveSubnet lanIP mask)).
    set (lan' := NetworkInterface.mk _ _ lanIP (Some subnet) (Some mask)).
    assert (HlanIP : isEmpty lanIP = false).
    { unfold lanIP. destruct (isEmpty (NetworkInterface.ip lanIface)) eqn:E; cbn [negb];
        assumption. }
    assert (Hmask : isEmpty mask = false) by (apply orElse_not_empty; reflexivity).
    assert (Hsubnet : isEmpty subnet = false)
      by (apply orElse_not_empty, deriveSubnet_not_empty).
    assert (Hlan : isLan lan' = true).
    { destruct (findIndex_setAt isLan (NetworkInterface.mk None "LAN" "" None None)
                  interfaces lanIndex Hidx eq_refl) as ((x & Hx & Hp) & _).
      unfold lan', isLan. cbn. unfold isLan in Hp. congruence. }
    destruct (findIndex_setAt isLan lan' interfaces lanIndex Hidx Hlan)
      as (_ & Hf & Hn & _ & _ & Hset).
    set (ip' := if isEmpty (Device.ip device) then lanIP else Device.ip device).
    assert (Hip' : isEmpty ip' = false).
    { unfold ip'. destruct (isEmpty (Device.ip device)) eqn:E; assumption. }
    unfold ensureRouterLanInterface.
    change (isRouterDevice (withIpInterfaces device ip' (Some (setAt interfaces lanIndex lan'))))
      with (isRouterDevice device).
    rewrite Hr. cbn [negb]. cbv zeta.
    cbn [withIpInterfaces Device.interfaces Device.ip orEmpty Device.id Device.name
         Device.type Device.routingTable Device.dnsRecords Device.webContent Device.port].
    rewrite Hf, Hn.
    cbn [lan' NetworkInterface.ip NetworkInterface.subnetMask NetworkInterface.subnet
         NetworkInterface.id NetworkInterface.name].
    rewrite Hip', HlanIP. cbn [negb].
    rewrite (orElse_Some mask _ Hmask), (orElse_Some subnet _ Hsubnet).
    rewrite Hset. reflexivity.
  - set (lan' := NetworkInterface.mk (Some (Device.id device ++ "-lan")) "LAN" fallbackIP
                   (Some (deriveSubnet fallbackIP DEFAULT_SUBNET_MASK))
                   (Some DEFAULT_SUBNET_MASK)).
    unfold ensureRouterLanInterface.
    change (isRouterDevice (withIpInterfaces device fallbackIP (Some (lan' :: interfaces))))
      with (isRouterDevice device).
    rewrite Hr. cbn [negb]. cbv zeta.
    cbn [withIpInterfaces Device.interfaces Device.ip orEmpty Device.id Device.name
         Device.type Device.routingTable Device.dnsRecords Device.webContent Device.port].
    cbn [findIndex]. change (isLan lan') with true. cbv iota. cbn [nth_error setAt].
    unfold lan'.
    cbn [NetworkInterface.ip NetworkInterface.subnetMask NetworkInterface.subnet
         NetworkInterface.id NetworkInterface.name].
    rewrite Hfb. cbn [negb].
    change (orElse (Some DEFAULT_SUBNET_MASK) DEFAULT_SUBNET_MASK) with DEFAULT_SUBNET_MASK.
    rewrite (orElse_Some _ _ (deriveSubnet_not_empty fallbackIP DEFAULT_SUBNET_MASK)).
    reflexivity.
Qed.

(** X16.  [normalizeDevices] is idempotent: normalising a topology that
    was already normalised changes nothing. *)
Theorem normalizeDevices_idempotent devices :
  normalizeDevices (normalizeDevices devices) = normalizeDevices devices.
Proof.
  unfold normalizeDevices. rewrite map_map. apply map_ext.
  intros device. apply ensureRouterLanInterface_idempotent.
Qed.

(** X17.  After [normalizeDevices] every router has an address and a LAN
    interface whose address, mask and subnet are all set; every other
    device is left as it was, and ids, names and types are unchanged
    throughout. *)
Theorem normalizeDevices_gives_lan devices :
  map Device.id (normalizeDevices devices) = map Device.id devices /\
  map Device.name (normalizeDevices devices) = map Device.name devices /\
  map Device.type (normalizeDevices devices) = map Device.type devices /\
  (forall device, In device devices -> isRouterDevice device = false ->
     ensureRouterLanInterface device = device) /\
  (forall device, In device (normalizeDevices devices) -> isRouterDevice device = true ->
     isEmpty (Device.ip device) = false /\
     exists lan mask subnet,
       getLanInterface device = Some lan /\
       isEmpty (NetworkInterface.ip lan) = false /\
       NetworkInterface.subnetMask lan = Some mask /\ isEmpty mask = false /\
       NetworkInterface.subnet lan = Some subnet /\ isEmpty subnet = false).
Proof.
  assert (Hfields : forall device,
            Device.id (ensureRouterLanInterface device) = Device.id device /\
            Device.name (ensureRouterLanInterface device) = Device.name device /\
            Device.type (ensureRouterLanInterface device) = Device.type device).
  { intros device. unfold ensureRouterLanInterface.
    destruct (negb (isRouterDevice device)); [auto|]. cbv zeta.
    destruct (findIndex isLan _); [|auto]. destruct (nth_error _ _); auto. }
  unfold normalizeDevices. rewrite !map_map.
  split; [apply map_ext; intros d; apply Hfields|].
  split; [apply map_ext; intros d; apply Hfields|].
  split; [apply map_ext; intros d; apply Hfields|].
  split.
  - intros device _ Hr. unfold ensureRouterLanInterface. now rewrite Hr.
  - intros device Hin Hr. apply in_map_iff in Hin as (d0 & <- & _).
    rewrite isRouterDevice_ensured in Hr.
    destruct (ensureRouterLanInterface_router d0 Hr)
      as (ip & interfaces & lan & -> & Hip & _ & Hfind & Hlip & (mask & Hm & Hme)
          & (subnet & Hs & Hse)).
    split; [exact Hip|]. exists lan, mask, subnet.
    unfold getLanInterface. cbn. auto 10.
Qed.

(** ** Naming a new interface *)

Lemma ethName_inj a b : ethName a = ethName b -> a = b.
Proof.
  unfold ethName, natToString. intros H. cbn in H. injection H as H.
  apply intToString_inj in H; lia.
Qed.

Lemma nextEthIndex_run device : forall budget index,
  let found := nextEthIndex device budget index in
  (index <= found <= index + budget)%nat /\
  (forall m, (index <= m < found)%nat -> hasInterfaceNamed device (ethName m) = true) /\
  ((found < index + budget)%nat -> hasInterfaceNamed device (ethName found) = false).
Proof.
  induction budget as [|budget IH]; intros index; cbn [nextEthIndex].
  - cbv zeta. repeat split; intros; lia.
  - destruct (hasInterfaceNamed device (ethName index)) eqn:E.
    + destruct (IH (S index)) as (Hr & Hall & Hnot).
      cbv zeta. repeat split; try lia.
      * intros m Hm. destruct (Nat.eq_dec m index) as [-> | NE]; [exact E|].
        apply Hall. lia.
      * intros Hlt. apply Hnot. lia.
    + cbv zeta. repeat split; intros; try lia; auto.
Qed.

(** A device that has an interface named eth[m] for every [m] from
    [first] up to [first + count - 1] has at least [count] interfaces. *)
Lemma named_segment_length device first count :
  (forall m, (first <= m < first + count)%nat ->
     hasInterfaceNamed device (ethName m) = true) ->
  (count <= length (orEmpty (Device.interfaces device)))%nat.
Proof.
  intros H.
  set (names := map NetworkInterface.name (orEmpty (Device.interfaces device))).
  assert (Hincl : incl (map ethName (seq first count)) names).
  { intros name Hname. apply in_map_iff in Hname as (m & <- & Hm). apply in_seq in Hm.
    specialize (H m Hm). unfold hasInterfaceNamed in H.
    apply existsb_exists in H as (iface & Hi & He). apply String.eqb_eq in He.
    unfold names. rewrite <- He. now apply in_map. }
  assert (Hnd : NoDup (map ethName (seq first count))).
  { apply Finite.Injective_map_NoDup; [|apply seq_NoDup].
    intros a b. apply ethName_inj. }
  pose proof (NoDup_incl_length Hnd Hincl) as Hlen.
  unfold names in Hlen. rewrite !length_map, length_seq in Hlen. exact Hlen.
Qed.

Lemma nextEthIndex_spec device :
  let found := nextEthIndex device (S (length (orEmpty (Device.interfaces device)))) 1 in
  hasInterfaceNamed device (ethName found) = false /\
  (forall m, (1 <= m < found)%nat -> hasInterfaceNamed device (ethName m) = true) /\
  (1 <= found <= S (length (orEmpty (Device.interfaces device))))%nat.
Proof.
  destruct (nextEthIndex_run device (S (length (orEmpty (Device.interfaces device)))) 1)
    as (Hr & Hall & Hnot).
  cbv zeta.
  set (found := nextEthIndex device _ 1) in *.
  assert (Hlen : (found - 1 <= length (orEmpty (Device.interfaces device)))%nat).
  { apply (named_segment_length device 1). intros m Hm. apply Hall. lia. }
  repeat split; try lia; [|exact Hall]. apply Hnot. lia.
Qed.

(** X18.  [nextEthName] returns a name that no interface of the device
    has: eth[N] for the least [N] from 1 on that is free, which is at
    most one more than the number of interfaces. *)
Theorem nextEthName_is_fresh device :
  exists index,
    nextEthName device = ethName index /\
    (1 <= index <= S (length (orEmpty (Device.interfaces device))))%nat /\
    (forall iface, In iface (orEmpty (Device.interfaces device)) ->
       NetworkInterface.name iface <> nextEthName device) /\
    (forall m, (1 <= m < index)%nat ->
       exists iface, In iface (orEmpty (Device.interfaces device)) /\
                     NetworkInterface.name iface = ethName m).
Proof.
  destruct (nextEthIndex_spec device) as (Hfree & Hbelow & Hrange).
  exists (nextEthIndex device (S (length (orEmpty (Device.interfaces device)))) 1).
  split; [reflexivity|]. split; [exact Hrange|]. split.
  - intros iface Hin Heq. unfold nextEthName in Heq.
    unfold hasInterfaceNamed in Hfree.
    pose proof (existsb_exists
                  (fun iface => String.eqb (NetworkInterface.name iface)
                     (ethName (nextEthIndex device
                                 (S (length (orEmpty (Device.interfaces device)))) 1)))
                  (orEmpty (Device.interfaces device))) as [_ Hex].
    rewrite Hex in Hfree; [discriminate|].
    exists iface. split; [exact Hin|]. now apply String.eqb_eq.
  - intros m Hm. specialize (Hbelow m Hm). unfold hasInterfaceNamed in Hbelow.
    apply existsb_exists in Hbelow as (iface & Hin & He).
    exists iface. split; [exact Hin|]. now apply String.eqb_eq.
Qed.

(** ** The topology actions *)

Lemma findById_map f devices id :
  (forall d, Device.id (f d) = Device.id d) ->
  findById (map f devices) id = option_map f (findById devices id).
Proof.
  intros Hf. unfold findById. induction devices as [|d rest IH]; [reflexivity|].
  cbn [map find]. rewrite Hf. destruct (String.eqb (Device.id d) id); [reflexivity | exact IH].
Qed.

Lemma wiredConnection_map f devices c :
  (forall d, Device.id (f d) = Device.id d) ->
  (forall d, Device.type (f d) = Device.type d) ->
  wiredConnection (map f devices) c = wiredConnection devices c.
Proof.
  intros Hid Htype. unfold wiredConnection. rewrite !findById_map by exact Hid.
  destruct (findById devices (Connection.source c)) as [s|]; [|reflexivity].
  destruct (findById devices (Connection.target c)) as [t|]; [|reflexivity].
  cbn [option_map]. unfold isRouterDevice. now rewrite !Htype.
Qed.

Lemma joins_sym a b c :
  joins a b c = joins (Connection.source c) (Connection.target c)
                  (Connection.mk "" a b None None).
Proof.
  unfold joins. cbn [Connection.source Connection.target].
  rewrite (String.eqb_sym a (Connection.source c)), (String.eqb_sym b (Connection.target c)),
          (String.eqb_sym a (Connection.target c)), (String.eqb_sym b (Connection.source c)).
  destruct (String.eqb (Connection.source c) a), (String.eqb (Connection.target c) b),
           (String.eqb (Connection.source c) b), (String.eqb (Connection.target c) a);
    reflexivity.
Qed.

Lemma joins_ends a b c c' :
  Connection.source c = Connection.source c' -> Connection.target c = Connection.target c' ->
  joins a b c = joins a b c'.
Proof. intros Hs Ht. unfold joins. now rewrite Hs, Ht. Qed.

Lemma singleLinks_app connections c :
  singleLinks (connections ++ [c])%list =
  singleLinks connections &&
  negb (existsb (joins (Connection.source c) (Connection.target c)) connections).
Proof.
  induction connections as [|x rest IH]; cbn [app singleLinks existsb].
  - cbn. reflexivity.
  - rewrite existsb_app, IH. cbn [existsb]. rewrite orb_false_r.
    rewrite (joins_sym (Connection.source x) (Connection.target x) c).
    rewrite (joins_ends (Connection.source c) (Connection.target c)
               (Connection.mk "" (Connection.source x) (Connection.target x) None None) x)
      by reflexivity.
    clear IH.
    destruct (existsb (joins (Connection.source x) (Connection.target x)) rest),
             (joins (Connection.source c) (Connection.target c) x), (singleLinks rest),
             (existsb (joins (Connection.source c) (Connection.target c)) rest); reflexivity.
Qed.

Lemma existsb_filter_false {A : Type} (p q : A -> bool) l :
  existsb p l = false -> existsb p (filter q l) = false.
Proof.
  induction l as [|x rest IH]; [reflexivity|]. cbn [existsb filter]. intros H.
  apply orb_false_iff in H as [Hx Hr]. destruct (q x); cbn [existsb]; [rewrite Hx|]; auto.
Qed.

Lemma singleLinks_filter q connections :
  singleLinks connections = true -> singleLinks (filter q connections) = true.
Proof.
  induction connections as [|c rest IH]; [reflexivity|]. cbn [singleLinks filter]. intros H.
  apply andb_true_iff in H as [Hc Hr]. apply negb_true_iff in Hc.
  destruct (q c); [|auto]. cbn [singleLinks].
  rewrite (existsb_filter_false _ q _ Hc), (IH Hr). reflexivity.
Qed.

Lemma forallb_filter_true {A : Type} (p q : A -> bool) l :
  forallb p l = true -> forallb p (filter q l) = true.
Proof.
  induction l as [|x rest IH]; [reflexivity|]. cbn [forallb filter]. intros H.
  apply andb_true_iff in H as [Hx Hr]. destruct (q x); cbn [forallb]; [rewrite Hx|]; auto.
Qed.

Lemma forallb_pointwise {A : Type} (p q : A -> bool) l :
  (forall x, p x = q x) -> forallb p l = forallb q l.
Proof.
  intros H. induction l as [|x l IH]; cbn; [reflexivity|]. rewrite H, IH. reflexivity.
Qed.

Lemma findById_app devices device id d :
  findById devices id = Some d -> findById (devices ++ [device])%list id = Some d.
Proof.
  unfold findById. induction devices as [|x rest IH]; cbn [find app]; [discriminate|].
  destruct (String.eqb (Device.id x) id); auto.
Qed.

Lemma findById_filter devices removed id :
  String.eqb id removed = false ->
  findById (filter (fun d => negb (String.eqb (Device.id d) removed)) devices) id =
  findById devices id.
Proof.
  intros Hne. unfold findById. induction devices as [|x rest IH]; [reflexivity|].
  cbn [filter find]. destruct (String.eqb (Device.id x) removed) eqn:Hx; cbn [negb].
  - apply String.eqb_eq in Hx. rewrite Hx, (String.eqb_sym removed id), Hne. exact IH.
  - cbn [find]. destruct (String.eqb (Device.id x) id); [reflexivity | exact IH].
Qed.

Lemma editsInterfaces_id shrink : editsInterfaces shrink (fun d => d).
Proof. intros d. destruct shrink; repeat split; apply incl_refl. Qed.

Lemma attachInterfaces_edits sourceDevice targetDevice sourceInterface targetInterface :
  editsInterfaces false
    (attachInterfaces sourceDevice targetDevice sourceInterface targetInterface).
Proof.
  intros d. unfold attachInterfaces.
  destruct (String.eqb (Device.id d) (Device.id sourceDevice)).
  - cbn. repeat split. apply incl_appl, incl_refl.
  - destruct (String.eqb (Device.id d) (Device.id targetDevice)).
    + cbn. repeat split. apply incl_appl, incl_refl.
    + repeat split. apply incl_refl.
Qed.

Lemma dropInterface_edits removed d :
  Device.id (dropInterface removed d) = Device.id d /\
  Device.name (dropInterface removed d) = Device.name d /\
  Device.type (dropInterface removed d) = Device.type d /\
  Device.ip (dropInterface removed d) = Device.ip d /\
  Device.routingTable (dropInterface removed d) = Device.routingTable d /\
  incl (orEmpty (Device.interfaces (dropInterface removed d)))
       (orEmpty (Device.interfaces d)).
Proof.
  unfold dropInterface. cbn. repeat split.
  destruct (Device.interfaces d) as [l|]; cbn; [|apply incl_refl].
  intros x Hx. apply filter_In in Hx. tauto.
Qed.

Lemma detachInterfaces_edits connection sourceRemoved targetRemoved :
  editsInterfaces true (detachInterfaces connection sourceRemoved targetRemoved).
Proof.
  intros d. unfold detachInterfaces.
  destruct (String.eqb (Device.id d) (Connection.source connection));
    [apply dropInterface_edits|].
  destruct (String.eqb (Device.id d) (Connection.target connection));
    [apply dropInterface_edits|].
  repeat split. apply incl_refl.
Qed.

(** The devices after [addConnection] are the devices before with some
    interfaces added; the connections are those before, with at most one
    added at the end that has the id and the ends asked for. *)
Lemma addConnection_shape sourceStamp targetStamp state connection :
  let result := addConnection sourceStamp targetStamp state connection in
  (fst result = state \/
   exists f c',
     editsInterfaces false f /\
     Store.devices (fst result) = map f (Store.devices state) /\
     Store.connections (fst result) = (Store.connections state ++ [c'])%list /\
     Connection.id c' = Connection.id connection /\
     Connection.source c' = Connection.source connection /\
     Connection.target c' = Connection.target connection /\
     snd result = None /\
     wiredConnection (Store.devices state) connection = true /\
     existsb (joins (Connection.source connection) (Connection.target connection))
       (Store.connections state) = false) /\
  (snd result <> None -> fst result = state).
Proof.
  cbv zeta. unfold addConnection. cbv zeta.
  destruct (findById (Store.devices state) (Connection.source connection))
    as [sourceDevice|] eqn:Hs; [|cbn; split; [left; reflexivity | congruence]].
  destruct (findById (Store.devices state) (Connection.target connection))
    as [targetDevice|] eqn:Ht; [|cbn; split; [left; reflexivity | congruence]].
  destruct (existsb _ (Store.connections state)) eqn:Hdup; [cbn; auto|].
  destruct (negb (isRouterDevice sourceDevice) && negb (isRouterDevice targetDevice))
    eqn:Hends; [cbn; auto|].
  assert (Hwired : wiredConnection (Store.devices state) connection = true).
  { unfold wiredConnection. rewrite Hs, Ht.
    destruct (isRouterDevice sourceDevice), (isRouterDevice targetDevice);
      cbn in Hends |- *; congruence. }
  destruct (_ && (0 <? length (duplicateIPs (Store.devices state)))%nat); [cbn; auto|].
  destruct (isRouterDevice sourceDevice && isRouterDevice targetDevice).
  - match goal with |- context [match ?x with Some _ => _ | None => _ end] =>
      destruct x end; [cbn; auto|].
    cbn [fst snd]. split; [|congruence]. right.
    eexists _, _. split; [apply attachInterfaces_edits|].
    cbn [commitConnection Store.devices Store.connections Connection.id Connection.source
         Connection.target].
    repeat split; assumption.
  - destruct (getLanInterface _) as [lanInterface|]; [|cbn; auto].
    destruct (String.eqb _ _); [cbn; auto|].
    destruct (negb (isInSameSubnetHelper _ _ _)); [cbn; auto|].
    cbn [fst snd]. split; [|congruence]. right.
    exists (fun d => d), connection. split; [apply editsInterfaces_id|].
    cbn [commitConnection Store.devices Store.connections]. rewrite map_id.
    repeat split; assumption.
Qed.

Lemma filter_find_none {A : Type} (p : A -> bool) l :
  find p l = None -> filter (fun x => negb (p x)) l = l.
Proof.
  induction l as [|x rest IH]; [reflexivity|]. cbn [find filter].
  destruct (p x); [discriminate|]. cbn [negb]. intros H. now rewrite (IH H).
Qed.

(** The devices after [deleteConnection] are the devices before with some
    interfaces removed. *)
Lemma deleteConnection_shape state id :
  exists f,
    editsInterfaces true f /\
    Store.devices (deleteConnection state id) = map f (Store.devices state) /\
    Store.connections (deleteConnection state id) =
      filter (fun c => negb (String.eqb (Connection.id c) id)) (Store.connections state) /\
    Store.selectedDevice (deleteConnection state id) = Store.selectedDevice state.
Proof.
  unfold deleteConnection.
  destruct (find _ (Store.connections state)) as [connection|] eqn:Hfind.
  - cbv zeta. cbn [Store.devices Store.connections Store.selectedDevice].
    assert (Hkeep : exists f, editsInterfaces true f /\
                              Store.devices state = map f (Store.devices state))
      by (exists (fun d => d); split; [apply editsInterfaces_id | now rewrite map_id]).
    assert (Hdetach : forall a b, exists f, editsInterfaces true f /\
              map (detachInterfaces connection a b) (Store.devices state) =
              map f (Store.devices state))
      by (intros a b; eexists; split; [apply detachInterfaces_edits | reflexivity]).
    assert (Hlegacy : exists f, editsInterfaces true f /\
      match findById (Store.devices state) (Connection.source connection),
            findById (Store.devices state) (Connection.target connection) with
      | Some sourceDevice, Some targetDevice =>
          if isRouterDevice sourceDevice && isRouterDevice targetDevice then
            match scanInterfaces (orEmpty (Device.interfaces sourceDevice))
                    (orEmpty (Device.interfaces targetDevice)) (None, None) with
            | (Some sourceIfaceToRemove, Some targetIfaceToRemove) =>
                if negb (isEmpty sourceIfaceToRemove) && negb (isEmpty targetIfaceToRemove)
                then map (detachInterfaces connection sourceIfaceToRemove
                            targetIfaceToRemove) (Store.devices state)
                else Store.devices state
            | _ => Store.devices state
            end
          else Store.devices state
      | _, _ => Store.devices state
      end = map f (Store.devices state)).
    { destruct (findById _ (Connection.source connection)); [|exact Hkeep].
      destruct (findById _ (Connection.target connection)); [|exact Hkeep].
      destruct (_ && _); [|exact Hkeep].
      destruct (scanInterfaces _ _ _) as [[a|] [b|]]; try exact Hkeep.
      destruct (_ && _); [apply Hdetach | exact Hkeep]. }
    destruct (Connection.sourceInterfaceId connection) as [a|];
      [destruct (Connection.targetInterfaceId connection) as [b|];
       [destruct (negb (isEmpty a) && negb (isEmpty b))|]|].
    + destruct (Hdetach a b) as (f & Hf & Heq). exists f. auto.
    + destruct Hlegacy as (f & Hf & Heq). exists f. auto.
    + destruct Hlegacy as (f & Hf & Heq). exists f. auto.
    + destruct Hlegacy as (f & Hf & Heq). exists f. auto.
  - exists (fun d => d). split; [apply editsInterfaces_id|]. rewrite map_id.
    repeat split. symmetry. apply filter_find_none, Hfind.
Qed.

Lemma wellWired_perform state action :
  wellWired state = true -> wellWired (perform state action) = true.
Proof.
  unfold wellWired. intros H. apply andb_true_iff in H as [Hw Hs].
  destruct action as [device | id | sourceStamp targetStamp connection | id]; cbn [perform].
  - unfold addDevice. cbn [Store.devices Store.connections]. rewrite Hs, andb_true_r.
    rewrite forallb_forall in *. intros c Hc. specialize (Hw c Hc).
    unfold wiredConnection in *.
    destruct (findById (Store.devices state) (Connection.source c)) as [s|] eqn:Es;
      [|discriminate].
    destruct (findById (Store.devices state) (Connection.target c)) as [t|] eqn:Et;
      [|discriminate].
    now rewrite (findById_app _ _ _ _ Es), (findById_app _ _ _ _ Et).
  - unfold deleteDevice. cbn [Store.devices Store.connections].
    rewrite (singleLinks_filter _ _ Hs), andb_true_r.
    rewrite forallb_forall in *. intros c Hc. apply filter_In in Hc as [Hc Hkeep].
    apply andb_true_iff in Hkeep as [Hk1 Hk2]. apply negb_true_iff in Hk1, Hk2.
    unfold wiredConnection. rewrite !findById_filter by assumption. apply Hw, Hc.
  - destruct (addConnection_shape sourceStamp targetStamp state connection) as [Hshape _].
    cbv zeta in Hshape.
    destruct Hshape as [-> | (f & c' & Hf & Hd & Hc & _ & Hsrc & Htgt & _ & Hwired & Hnew)].
    + now rewrite Hw, Hs.
    + rewrite Hd, Hc. rewrite forallb_app, singleLinks_app. cbn [forallb].
      assert (Hmap : forall c, wiredConnection (map f (Store.devices state)) c =
                               wiredConnection (Store.devices state) c).
      { intros c. apply wiredConnection_map; intros d; apply Hf. }
      rewrite (forallb_pointwise _ _ _ Hmap), Hw, Hmap, Hs, Hsrc, Htgt, Hnew.
      unfold wiredConnection in *. rewrite Hsrc, Htgt. now rewrite Hwired.
  - destruct (deleteConnection_shape state id) as (f & Hf & Hd & Hc & _).
    rewrite Hd, Hc. rewrite (singleLinks_filter _ _ Hs), andb_true_r.
    assert (Hmap : forall c, wiredConnection (map f (Store.devices state)) c =
                             wiredConnection (Store.devices state) c).
    { intros c. apply wiredConnection_map; intros d; apply Hf. }
    rewrite (forallb_pointwise _ _ _ Hmap). now apply forallb_filter_true.
Qed.

(** X19.  The four editing actions keep a topology well wired: from a
    state in which every connection has both ends among the devices, one
    of them a router, and no two connections join the same pair of
    devices, any sequence of [addDevice], [deleteDevice], [addConnection]
    and [deleteConnection] leads to such a state. *)
Theorem actions_keep_topology_wired state actions :
  wellWired state = true -> wellWired (fold_left perform actions state) = true.
Proof.
  revert state. induction actions as [|action rest IH]; intros state H; [exact H|].
  cbn [fold_left]. apply IH, wellWired_perform, H.
Qed.

Lemma actions_keep_topology_wired_witness :
  wellWired (fold_left perform Editing.session Editing.empty) = true.
Proof.
  apply (actions_keep_topology_wired Editing.empty Editing.session). reflexivity.
Defined.

Lemma Forall2_map_right {A : Type} (R : A -> A -> Prop) (f : A -> A) l :
  (forall x, R x (f x)) -> Forall2 R l (map f l).
Proof. intros H. induction l as [|x rest IH]; cbn [map]; constructor; auto. Qed.

Lemma Forall2_same {A : Type} (R : A -> A -> Prop) l :
  (forall x, R x x) -> Forall2 R l l.
Proof. intros H. induction l; constructor; auto. Qed.

(** X20.  [addConnection] only ever adds: whenever it raises an alert
    the state is exactly as before; otherwise every device keeps its id,
    name, type, address and routing table and all the interfaces it had,
    and the connections are those before, followed by at most one new
    connection with the id and the two ends that were asked for. *)
Theorem addConnection_only_adds sourceStamp targetStamp state connection :
  let result := addConnection sourceStamp targetStamp state connection in
  (snd result <> None -> fst result = state) /\
  map Device.id (Store.devices (fst result)) = map Device.id (Store.devices state) /\
  map Device.name (Store.devices (fst result)) = map Device.name (Store.devices state) /\
  map Device.type (Store.devices (fst result)) = map Device.type (Store.devices state) /\
  map Device.ip (Store.devices (fst result)) = map Device.ip (Store.devices state) /\
  map Device.routingTable (Store.devices (fst result))
    = map Device.routingTable (Store.devices state) /\
  Forall2 (fun d d' => incl (orEmpty (Device.interfaces d)) (orEmpty (Device.interfaces d')))
    (Store.devices state) (Store.devices (fst result)) /\
  (Store.connections (fst result) = Store.connections state \/
   exists c',
     Store.connections (fst result) = (Store.connections state ++ [c'])%list /\
     Connection.id c' = Connection.id connection /\
     Connection.source c' = Connection.source connection /\
     Connection.target c' = Connection.target connection).
Proof.
  destruct (addConnection_shape sourceStamp targetStamp state connection) as [Hshape Halert].
  cbv zeta in *. split; [exact Halert|].
  destruct Hshape as [-> | (f & c' & Hf & Hd & Hc & Hid & Hsrc & Htgt & _)].
  - repeat split; try reflexivity; [|now left].
    apply Forall2_same. intros d. apply incl_refl.
  - rewrite Hd, !map_map.
    repeat split; try (apply map_ext; intros d; apply Hf).
    + apply Forall2_map_right. intros d. apply (Hf d).
    + right. exists c'. auto.
Qed.

(** X21.  [deleteConnection] only ever removes: every device keeps its
    id, name, type, address and routing table and gains no interface,
    the connections left are exactly those with another id, in their
    order, and the selected device is not touched. *)
Theorem deleteConnection_only_removes state id :
  map Device.id (Store.devices (deleteConnection state id))
    = map Device.id (Store.devices state) /\
  map Device.name (Store.devices (deleteConnection state id))
    = map Device.name (Store.devices state) /\
  map Device.type (Store.devices (deleteConnection state id))
    = map Device.type (Store.devices state) /\
  map Device.ip (Store.devices (deleteConnection state id))
    = map Device.ip (Store.devices state) /\
  map Device.routingTable (Store.devices (deleteConnection state id))
    = map Device.routingTable (Store.devices state) /\
  Forall2 (fun d d' => incl (orEmpty (Device.interfaces d')) (orEmpty (Device.interfaces d)))
    (Store.devices state) (Store.devices (deleteConnection state id)) /\
  Store.connections (deleteConnection state id)
    = filter (fun c => negb (String.eqb (Connection.id c) id)) (Store.connections state) /\
  Store.selectedDevice (deleteConnection state id) = Store.selectedDevice state.
Proof.
  destruct (deleteConnection_shape state id) as (f & Hf & Hd & Hc & Hsel).
  rewrite Hd, Hc, Hsel, !map_map.
  repeat split; try (apply map_ext; intros d; apply Hf).
  apply Forall2_map_right. intros d. apply (Hf d).
Qed.

(** ** The address-conflict check of [addConnection] *)

Lemma ipMapPush_keys ipMap ip name k :
  In k (map fst (ipMapPush ipMap ip name)) <-> In k (map fst ipMap) \/ k = ip.
Proof.
  induction ipMap as [|[key names] rest IH]; cbn [ipMapPush map fst In].
  - intuition congruence.
  - destruct (String.eqb key ip) eqn:E; cbn [map fst In].
    + apply String.eqb_eq in E. intuition congruence.
    + rewrite IH. tauto.
Qed.

Lemma ipMapPush_nonempty ipMap ip name :
  Forall (fun entry => snd entry <> []) ipMap ->
  Forall (fun entry => snd entry <> []) (ipMapPush ipMap ip name).
Proof.
  induction ipMap as [|[key names] rest IH]; cbn [ipMapPush]; intros H.
  - constructor; [discriminate | constructor].
  - inversion H as [|? ? Hx Hr]; subst. destruct (String.eqb key ip).
    + constructor; [|exact Hr]. cbn. destruct names; discriminate.
    + constructor; [exact Hx | exact (IH Hr)].
Qed.

Lemma ipMapPush_single ipMap ip name :
  Forall (fun entry => snd entry <> []) ipMap ->
  (Forall (fun entry => (length (snd entry) <= 1)%nat) (ipMapPush ipMap ip name) <->
   Forall (fun entry => (length (snd entry) <= 1)%nat) ipMap /\ ~ In ip (map fst ipMap)).
Proof.
  induction ipMap as [|[key names] rest IH]; cbn [ipMapPush map fst In]; intros Hne.
  - split.
    + intros _. split; [constructor | tauto].
    + intros _. constructor; [cbn; lia | constructor].
  - inversion Hne as [|? ? Hx Hr]; subst. cbn [snd] in Hx.
    destruct (String.eqb key ip) eqn:E.
    + apply String.eqb_eq in E. split.
      * intros H. inversion H as [|? ? Hlen _]; subst. cbn [snd] in Hlen.
        rewrite length_app in Hlen. cbn in Hlen. destruct names; [congruence | cbn in Hlen; lia].
      * intros [_ Hnot]. exfalso. apply Hnot. now left.
    + apply String.eqb_neq in E. specialize (IH Hr). split.
      * intros H. inversion H as [|? ? Hlen Hrest]; subst. apply IH in Hrest as [Hs Hnot].
        split; [constructor; assumption|]. intros [Hk | Hin]; [congruence | tauto].
      * intros [H Hnot]. inversion H as [|? ? Hlen Hrest]; subst.
        constructor; [exact Hlen|]. apply IH. split; [exact Hrest | tauto].
Qed.

Lemma NoDup_snoc {A : Type} (l : list A) x : NoDup (l ++ [x]) <-> NoDup l /\ ~ In x l.
Proof.
  assert (Hp : Permutation (l ++ [x]) (x :: l))
    by (symmetry; apply Permutation_cons_append).
  split.
  - intros H. apply (Permutation_NoDup Hp) in H. inversion H; subst. tauto.
  - intros [H Hnot]. apply (Permutation_NoDup (Permutation_sym Hp)). now constructor.
Qed.

Lemma collectIPs_invariant devices :
  (forall k, In k (map fst (collectIPs devices)) <-> In k (hostAddresses devices)) /\
  Forall (fun entry => snd entry <> []) (collectIPs devices) /\
  (Forall (fun entry => (length (snd entry) <= 1)%nat) (collectIPs devices) <->
   NoDup (hostAddresses devices)).
Proof.
  induction devices as [|d devices IH] using rev_ind.
  - cbn. repeat split; try tauto; constructor.
  - destruct IH as (Hkeys & Hne & Hsingle).
    unfold collectIPs, hostAddresses in *. rewrite fold_left_app, filter_app, map_app.
    cbn [fold_left filter].
    destruct (negb (DeviceType_eqb (Device.type d) router) && negb (isEmpty (Device.ip d))).
    + cbn [map]. split; [|split].
      * intros k. rewrite ipMapPush_keys, in_app_iff, Hkeys. cbn. intuition congruence.
      * apply ipMapPush_nonempty, Hne.
      * rewrite (ipMapPush_single _ _ _ Hne), NoDup_snoc, Hsingle, Hkeys. tauto.
    + cbn [map]. rewrite app_nil_r. auto.
Qed.

Lemma filter_none_iff {A : Type} (p : A -> bool) l :
  filter p l = [] <-> Forall (fun x => p x = false) l.
Proof.
  induction l as [|x rest IH]; cbn [filter]; [split; constructor|].
  destruct (p x) eqn:E; split.
  - discriminate.
  - intros H. inversion H; subst. congruence.
  - intros H. constructor; [exact E | now apply IH].
  - intros H. inversion H; subst. now apply IH.
Qed.

Lemma no_duplicates_distinct devices :
  duplicateIPs devices = [] -> NoDup (hostAddresses devices).
Proof.
  destruct (collectIPs_invariant devices) as (_ & _ & Hsingle).
  rewrite <- Hsingle. unfold duplicateIPs. intros H.
  apply map_eq_nil in H. apply filter_none_iff in H.
  eapply Forall_impl; [|exact H]. cbn beta. intros entry He.
  apply Nat.ltb_ge in He. exact He.
Qed.

(** X22.  The address-conflict check of [addConnection] finds nothing
    exactly when no two devices other than routers share a non-empty
    address. *)
Theorem duplicateIPs_none_iff_distinct devices :
  duplicateIPs devices = [] <-> NoDup (hostAddresses devices).
Proof.
  split; [apply no_duplicates_distinct|].
  destruct (collectIPs_invariant devices) as (_ & _ & Hsingle).
  rewrite <- Hsingle. unfold duplicateIPs.
  intros H.
  assert (Hnone : filter (fun entry : string * list string => (1 <? length (snd entry))%nat)
                         (collectIPs devices) = []).
  { apply filter_none_iff. eapply Forall_impl; [|exact H]. cbn beta. intros entry He.
    apply Nat.ltb_ge. exact He. }
  rewrite Hnone. reflexivity.
Qed.

(** ** Links that [addConnection] accepts *)

(** X23.  [addConnection] accepts a link between a router and another
    device only if the router has a LAN interface, the device's address
    differs from that interface's and lies in its subnet under its mask
    ([255.255.255.0] when it has none), and, when the device is a PC, a
    DNS or a web server, no two hosts share an address; the devices are
    then left as they were and the connection is stored as given. *)
Theorem accepted_endpoint_link sourceStamp targetStamp state connection
  sourceDevice targetDevice state' :
  findById (Store.devices state) (Connection.source connection) = Some sourceDevice ->
  findById (Store.devices state) (Connection.target connection) = Some targetDevice ->
  isRouterDevice sourceDevice && isRouterDevice targetDevice = false ->
  addConnection sourceStamp targetStamp state connection = (state', None) ->
  let routerDevice := if isRouterDevice sourceDevice then sourceDevice else targetDevice in
  let endpoint := if isRouterDevice sourceDevice then targetDevice else sourceDevice in
  isRouterDevice routerDevice = true /\ isRouterDevice endpoint = false /\
  (exists lan,
     getLanInterface routerDevice = Some lan /\
     NetworkInterface.ip lan <> Device.ip endpoint /\
     deriveSubnet (NetworkInterface.ip lan)
       (orElse (NetworkInterface.subnetMask lan) DEFAULT_SUBNET_MASK)
     = deriveSubnet (Device.ip endpoint)
         (orElse (NetworkInterface.subnetMask lan) DEFAULT_SUBNET_MASK)) /\
  (isEndpointDevice endpoint = true -> NoDup (hostAddresses (Store.devices state))) /\
  Store.devices state' = Store.devices state /\
  Store.connections state' = (Store.connections state ++ [connection])%list.
Proof.
  intros Hs Ht Hboth. unfold addConnection. cbv zeta. rewrite Hs, Ht.
  destruct (existsb _ (Store.connections state)); [discriminate|].
  destruct (negb (isRouterDevice sourceDevice) && negb (isRouterDevice targetDevice))
    eqn:Hends; [discriminate|].
  destruct ((isEndpointDevice sourceDevice || isEndpointDevice targetDevice) &&
            (0 <? length (duplicateIPs (Store.devices state)))%nat) eqn:Hdup;
    [discriminate|].
  rewrite Hboth.
  assert (Hroles :
    isRouterDevice (if isRouterDevice sourceDevice then sourceDevice else targetDevice) = true /\
    isRouterDevice (if isRouterDevice sourceDevice then targetDevice else sourceDevice) = false).
  { destruct (isRouterDevice sourceDevice) eqn:E1, (isRouterDevice targetDevice) eqn:E2;
      cbn in Hboth, Hends; try discriminate; auto. }
  set (routerDevice := if isRouterDevice sourceDevice then sourceDevice else targetDevice) in *.
  set (endpoint := if isRouterDevice sourceDevice then targetDevice else sourceDevice) in *.
  destruct (getLanInterface routerDevice) as [lan|] eqn:Hlan; [|discriminate].
  destruct (String.eqb (NetworkInterface.ip lan) (Device.ip endpoint)) eqn:Hsame;
    [discriminate|].
  destruct (isInSameSubnetHelper _ _ _) eqn:Hsub; cbn [negb]; [|discriminate].
  intros Heq. injection Heq as <-. cbv zeta.
  split; [apply Hroles|]. split; [apply Hroles|]. split.
  - exists lan. split; [reflexivity|]. split; [now apply String.eqb_neq|].
    unfold isInSameSubnetHelper in Hsub. now apply String.eqb_eq.
  - split; [|split; reflexivity].
    intros Hendpoint. apply no_duplicates_distinct.
    assert (Hany : isEndpointDevice sourceDevice || isEndpointDevice targetDevice = true).
    { unfold endpoint in Hendpoint.
      destruct (isRouterDevice sourceDevice); rewrite Hendpoint; auto using orb_true_r. }
    rewrite Hany in Hdup. cbn [andb] in Hdup. apply Nat.ltb_ge in Hdup.
    destruct (duplicateIPs (Store.devices state)); [reflexivity | cbn in Hdup; lia].
Qed.

Lemma natToString_dotFree n : dotFree (natToString n) = true.
Proof. apply allDigits_dotFree, allDigits_intToString. lia. Qed.

Lemma backboneAddress_dotted index host :
  backboneAddress index host = dotted "10" "0" (natToString index) host.
Proof. reflexivity. Qed.

Lemma getNetwork_backboneAddress index host :
  dotFree host = true ->
  getNetwork (backboneAddress index host) = backboneAddress index "0".
Proof.
  intros H. rewrite getNetwork_dotted, !backboneAddress_dotted.
  rewrite split_quad_text by (try reflexivity; try assumption; apply natToString_dotFree).
  reflexivity.
Qed.

Lemma find_sameId devices id d :
  findById devices id = Some d -> Device.id d = id /\ In d devices.
Proof.
  unfold findById. intros H. apply find_some in H as [Hin E].
  apply String.eqb_eq in E. auto.
Qed.

(** X24.  When [addConnection] accepts a link between two different
    routers, each of them receives one new interface, named by
    [nextEthName], with addresses .1 and .2 on the allocated backbone
    network; their LAN subnets differ; and the path resolver accepts the
    link: the two routers are physically connected, share a network, and
    any forwarding route of the source router whose next hop resolves to
    the target router is usable. *)
Theorem accepted_router_link sourceStamp targetStamp state connection
  sourceDevice targetDevice state' :
  findById (Store.devices state) (Connection.source connection) = Some sourceDevice ->
  findById (Store.devices state) (Connection.target connection) = Some targetDevice ->
  isRouterDevice sourceDevice = true -> isRouterDevice targetDevice = true ->
  Device.id sourceDevice <> Device.id targetDevice ->
  addConnection sourceStamp targetStamp state connection = (state', None) ->
  exists sourceInterface targetInterface sourceDevice' targetDevice',
    sourceDevice' =
      withInterfaces sourceDevice
        (Some (orEmpty (Device.interfaces sourceDevice) ++ [sourceInterface])%list) /\
    targetDevice' =
      withInterfaces targetDevice
        (Some (orEmpty (Device.interfaces targetDevice) ++ [targetInterface])%list) /\
    findById (Store.devices state') (Connection.source connection) = Some sourceDevice' /\
    findById (Store.devices state') (Connection.target connection) = Some targetDevice' /\
    NetworkInterface.name sourceInterface = nextEthName sourceDevice /\
    NetworkInterface.name targetInterface = nextEthName targetDevice /\
    NetworkInterface.ip sourceInterface
      = Backbone.sourceIP (allocateBackboneNetwork (Store.devices state)) /\
    NetworkInterface.ip targetInterface
      = Backbone.targetIP (allocateBackboneNetwork (Store.devices state)) /\
    getNetwork (NetworkInterface.ip sourceInterface)
      = Backbone.subnet (allocateBackboneNetwork (Store.devices state)) /\
    getNetwork (NetworkInterface.ip targetInterface)
      = Backbone.subnet (allocateBackboneNetwork (Store.devices state)) /\
    NetworkInterface.ip sourceInterface <> NetworkInterface.ip targetInterface /\
    (forall sourceLan targetLan,
       getLanInterface sourceDevice = Some sourceLan ->
       getLanInterface targetDevice = Some targetLan ->
       deriveSubnet (NetworkInterface.ip sourceLan)
         (orElse (NetworkInterface.subnetMask sourceLan) DEFAULT_SUBNET_MASK)
       <> deriveSubnet (NetworkInterface.ip targetLan)
            (orElse (NetworkInterface.subnetMask targetLan) DEFAULT_SUBNET_MASK)) /\
    hasPhysicalConnection sourceDevice' targetDevice' (Store.connections state') = true /\
    hasCommonNetwork sourceDevice' targetDevice' = true /\
    (forall candidateRoute destIP destNetwork,
       isDirect (RouteEntry.nextHop candidateRoute) = false ->
       findNextRouter (Store.devices state') (RouteEntry.nextHop candidateRoute)
         = Some targetDevice' ->
       attemptRoute (Store.devices state') (Store.connections state') sourceDevice' destIP
         destNetwork candidateRoute = None).
Proof.
  intros Hs Ht Hrs Hrt Hne. unfold addConnection. cbv zeta. rewrite Hs, Ht.
  destruct (existsb _ (Store.connections state)); [discriminate|].
  rewrite Hrs, Hrt. cbn [negb andb].
  destruct ((isEndpointDevice sourceDevice || isEndpointDevice targetDevice) &&
            (0 <? length (duplicateIPs (Store.devices state)))%nat); [discriminate|].
  destruct (find_sameId _ _ _ Hs) as [Hsid Hsin].
  destruct (find_sameId _ _ _ Ht) as [Htid Htin].
  set (backbone := allocateBackboneNetwork (Store.devices state)).
  set (sourceInterface := createRouterInterface sourceStamp sourceDevice _ _ _).
  set (targetInterface := createRouterInterface targetStamp targetDevice _ _ _).
  set (attach := attachInterfaces sourceDevice targetDevice sourceInterface targetInterface).
  assert (Hlans : forall sourceLan targetLan,
            getLanInterface sourceDevice = Some sourceLan ->
            getLanInterface targetDevice = Some targetLan ->
            String.eqb
              (deriveSubnet (NetworkInterface.ip sourceLan)
                 (orElse (NetworkInterface.subnetMask sourceLan) DEFAULT_SUBNET_MASK))
              (deriveSubnet (NetworkInterface.ip targetLan)
                 (orElse (NetworkInterface.subnetMask targetLan) DEFAULT_SUBNET_MASK))
            = false ->
            match getLanInterface sourceDevice, getLanInterface targetDevice with
            | Some sourceLan, Some targetLan =>
                if String.eqb
                     (deriveSubnet (NetworkInterface.ip sourceLan)
                        (orElse (NetworkInterface.subnetMask sourceLan) DEFAULT_SUBNET_MASK))
                     (deriveSubnet (NetworkInterface.ip targetLan)
                        (orElse (NetworkInterface.subnetMask targetLan) DEFAULT_SUBNET_MASK))
                then Some (deriveSubnet (NetworkInterface.ip sourceLan)
                             (orElse (NetworkInterface.subnetMask sourceLan)
                                DEFAULT_SUBNET_MASK))
                else None
            | _, _ => None
            end = None).
  { intros a b -> -> ->. reflexivity. }
  match goal with |- context [match ?x with Some _ => _ | None => _ end] =>
    destruct x as [same|] eqn:Hsame end; [discriminate|].
  intros Heq. injection Heq as <-.
  assert (Hsrc' : attach sourceDevice =
            withInterfaces sourceDevice
              (Some (orEmpty (Device.interfaces sourceDevice) ++ [sourceInterface])%list)).
  { unfold attach, attachInterfaces. now rewrite String.eqb_refl. }
  assert (Htgt' : attach targetDevice =
            withInterfaces targetDevice
              (Some (orEmpty (Device.interfaces targetDevice) ++ [targetInterface])%list)).
  { unfold attach, attachInterfaces.
    destruct (String.eqb (Device.id targetDevice) (Device.id sourceDevice)) eqn:E.
    - apply String.eqb_eq in E. congruence.
    - now rewrite String.eqb_refl. }
  assert (Hidx : backbone =
            Backbone.mk (backboneAddress (allocatedIndex (Store.devices state)) "0")
              (backboneAddress (allocatedIndex (Store.devices state)) "1")
              (backboneAddress (allocatedIndex (Store.devices state)) "2")) by reflexivity.
  assert (Hnets : getNetwork (NetworkInterface.ip sourceInterface) = Backbone.subnet backbone /\
                  getNetwork (NetworkInterface.ip targetInterface) = Backbone.subnet backbone).
  { unfold sourceInterface, targetInterface, createRouterInterface.
    cbn [NetworkInterface.ip]. rewrite Hidx. cbn [Backbone.sourceIP Backbone.targetIP
                                                    Backbone.subnet].
    split; apply getNetwork_backboneAddress; reflexivity. }
  assert (Hphys : hasPhysicalConnection (attach sourceDevice) (attach targetDevice)
                    (Store.connections
                       (commitConnection state (map attach (Store.devices state))
                          (Connection.mk (Connection.id connection)
                             (Connection.source connection) (Connection.target connection)
                             (NetworkInterface.id sourceInterface)
                             (NetworkInterface.id targetInterface)))) = true).
  { unfold hasPhysicalConnection. cbn [commitConnection Store.connections].
    rewrite existsb_app. cbn [existsb Connection.source Connection.target].
    rewrite Hsrc', Htgt'. cbn [withInterfaces withIpInterfaces Device.id].
    rewrite Hsid, Htid, !String.eqb_refl. cbn. apply orb_true_r. }
  assert (Hcommon : hasCommonNetwork (attach sourceDevice) (attach targetDevice) = true).
  { unfold hasCommonNetwork. rewrite Hsrc', Htgt'.
    cbn [withInterfaces withIpInterfaces Device.interfaces orEmpty].
    apply existsb_exists. exists sourceInterface. split; [apply in_app_iff; right; now left|].
    apply existsb_exists. exists targetInterface. split; [apply in_app_iff; right; now left|].
    destruct Hnets as [-> ->]. apply String.eqb_refl. }
  exists sourceInterface, targetInterface, (attach sourceDevice), (attach targetDevice).
  split; [exact Hsrc'|]. split; [exact Htgt'|].
  cbn [commitConnection Store.devices].
  assert (Hattach : forall d, Device.id (attach d) = Device.id d)
    by (intros d; apply attachInterfaces_edits).
  split; [rewrite (findById_map _ _ _ Hattach), Hs; reflexivity|].
  split; [rewrite (findById_map _ _ _ Hattach), Ht; reflexivity|].
  split; [reflexivity|]. split; [reflexivity|].
  split; [reflexivity|]. split; [reflexivity|].
  split; [apply Hnets|]. split; [apply Hnets|].
  split.
  { unfold sourceInterface, targetInterface, createRouterInterface. cbn [NetworkInterface.ip].
    rewrite Hidx. cbn [Backbone.sourceIP Backbone.targetIP]. rewrite !backboneAddress_dotted.
    intros Heq. apply dotted_inj in Heq as (_ & _ & _ & Hd);
      try reflexivity; try apply natToString_dotFree. discriminate. }
  split.
  { intros sourceLan targetLan Hsl Htl Heq. rewrite Hsl, Htl, Heq, String.eqb_refl in Hsame.
    discriminate. }
  split; [exact Hphys|]. split; [exact Hcommon|].
  intros candidateRoute destIP destNetwork Hdirect Hnext.
  unfold attemptRoute. cbv zeta. rewrite Hdirect, Hnext.
  assert (Htype : DeviceType_eqb (Device.type (attach targetDevice)) router = true).
  { rewrite Htgt'. exact Hrt. }
  rewrite Htype. cbn [negb].
  cbn [commitConnection Store.connections Store.devices] in Hphys |- *.
  match goal with |- context [hasPhysicalConnection ?a ?b ?c] =>
    replace (hasPhysicalConnection a b c) with true by (symmetry; exact Hphys) end.
  rewrite Hcommon. reflexivity.
Qed.

Lemma accepted_endpoint_link_witness :
  Store.devices
    (fst (addConnection Editing.stampA Editing.stampB Editing.backboned
            (Editing.link "c2" "pc1" "r1")))
  = Store.devices Editing.backboned /\
  Store.connections
    (fst (addConnection Editing.stampA Editing.stampB Editing.backboned
            (Editing.link "c2" "pc1" "r1")))
  = (Store.connections Editing.backboned ++ [Editing.link "c2" "pc1" "r1"])%list.
Proof.
  refine (proj2 (proj2 (proj2 (proj2
    (accepted_endpoint_link Editing.stampA Editing.stampB Editing.backboned
       (Editing.link "c2" "pc1" "r1") Editing.PC1
       (withInterfaces Editing.R1
          (Some [Editing.lan "192.168.1.1";
                 createRouterInterface Editing.stampA Editing.R1 "eth1" "10.0.0.1"
                   "10.0.0.0"]))
       _ _ _ _ _))))); vm_compute; reflexivity.
Defined.

Lemma accepted_router_link_witness :
  exists sourceInterface targetInterface sourceDevice' targetDevice',
    sourceDevice' =
      withInterfaces Editing.R1
        (Some (orEmpty (Device.interfaces Editing.R1) ++ [sourceInterface])%list) /\
    targetDevice' =
      withInterfaces Editing.R2
        (Some (orEmpty (Device.interfaces Editing.R2) ++ [targetInterface])%list) /\
    findById (Store.devices Editing.backboned) "r1" = Some sourceDevice' /\
    findById (Store.devices Editing.backboned) "r2" = Some targetDevice' /\
    NetworkInterface.name sourceInterface = nextEthName Editing.R1 /\
    NetworkInterface.name targetInterface = nextEthName Editing.R2 /\
    NetworkInterface.ip sourceInterface
      = Backbone.sourceIP (allocateBackboneNetwork (Store.devices Editing.unwired)) /\
    NetworkInterface.ip targetInterface
      = Backbone.targetIP (allocateBackboneNetwork (Store.devices Editing.unwired)) /\
    getNetwork (NetworkInterface.ip sourceInterface)
      = Backbone.subnet (allocateBackboneNetwork (Store.devices Editing.unwired)) /\
    getNetwork (NetworkInterface.ip targetInterface)
      = Backbone.subnet (allocateBackboneNetwork (Store.devices Editing.unwired)) /\
    NetworkInterface.ip sourceInterface <> NetworkInterface.ip targetInterface /\
    (forall sourceLan targetLan,
       getLanInterface Editing.R1 = Some sourceLan ->
       getLanInterface Editing.R2 = Some targetLan ->
       deriveSubnet (NetworkInterface.ip sourceLan)
         (orElse (NetworkInterface.subnetMask sourceLan) DEFAULT_SUBNET_MASK)
       <> deriveSubnet (NetworkInterface.ip targetLan)
            (orElse (NetworkInterface.subnetMask targetLan) DEFAULT_SUBNET_MASK)) /\
    hasPhysicalConnection sourceDevice' targetDevice' (Store.connections Editing.backboned)
      = true /\
    hasCommonNetwork sourceDevice' targetDevice' = true /\
    (forall candidateRoute destIP destNetwork,
       isDirect (RouteEntry.nextHop candidateRoute) = false ->
       findNextRouter (Store.devices Editing.backboned) (RouteEntry.nextHop candidateRoute)
         = Some targetDevice' ->
       attemptRoute (Store.devices Editing.backboned) (Store.connections Editing.backboned)
         sourceDevice' destIP destNetwork candidateRoute = None).
Proof.
  apply (accepted_router_link Editing.stampA Editing.stampB Editing.unwired
           (Editing.link "c1" "r1" "r2") Editing.R1 Editing.R2 Editing.backboned);
    try (vm_compute; reflexivity).
  vm_compute. discriminate.
Defined.

(** ** Undoing a link *)

Lemma find_app_last {A : Type} (p : A -> bool) l x :
  find p l = None -> p x = true -> find p (l ++ [x])%list = Some x.
Proof.
  induction l as [|y rest IH]; cbn [find app]; intros Hnone Hx.
  - now rewrite Hx.
  - destruct (p y); [discriminate | auto].
Qed.

Lemma filter_app_last {A : Type} (p : A -> bool) l x :
  find p l = None -> p x = true -> filter (fun y => negb (p y)) (l ++ [x])%list = l.
Proof.
  intros Hnone Hx. rewrite filter_app. cbn [filter]. rewrite Hx. cbn [negb].
  rewrite app_nil_r. apply filter_find_none, Hnone.
Qed.

Lemma generateInterfaceId_not_empty stamp device name :
  isEmpty (generateInterfaceId stamp device name) = false.
Proof.
  unfold generateInterfaceId, isEmpty. destruct (Device.id device); reflexivity.
Qed.

Lemma withInterfaces_same device interfaces :
  Device.interfaces device = Some interfaces ->
  withInterfaces device (Some interfaces) = device.
Proof. destruct device. cbn. intros ->. reflexivity. Qed.

(** Removing the interface with a new id from a device that has just
    received it gives the device back. *)
Lemma dropInterface_appended device stamp owner name ip subnet :
  Device.interfaces device <> None ->
  (forall iface, In iface (orEmpty (Device.interfaces device)) ->
     idNotIn [generateInterfaceId stamp owner name] iface) ->
  dropInterface (generateInterfaceId stamp owner name)
    (withInterfaces device
       (Some (orEmpty (Device.interfaces device)
              ++ [createRouterInterface stamp owner name ip subnet])%list))
  = device.
Proof.
  intros Hdef Hfresh. destruct (Device.interfaces device) as [interfaces|] eqn:E;
    [|congruence].
  unfold dropInterface.
  cbn [withInterfaces withIpInterfaces Device.interfaces Device.id Device.name Device.type
       Device.ip Device.routingTable Device.dnsRecords Device.webContent Device.port
       option_map orEmpty].
  rewrite filter_app. cbn [filter createRouterInterface NetworkInterface.id].
  rewrite String.eqb_refl. cbn [negb]. rewrite app_nil_r.
  assert (Hkeep : filter (fun iface => match NetworkInterface.id iface with
                                       | Some id => negb (String.eqb id
                                                            (generateInterfaceId stamp owner name))
                                       | None => true
                                       end) interfaces = interfaces).
  { cbn [orEmpty] in Hfresh. clear E Hdef. revert Hfresh.
    generalize (generateInterfaceId stamp owner name). intros removed.
    induction interfaces as [|x rest IH]; intros Hfresh; [reflexivity|].
    cbn [filter]. pose proof (Hfresh x (or_introl eq_refl)) as Hx. unfold idNotIn in Hx.
    assert (Hrest : filter (fun iface => match NetworkInterface.id iface with
                                         | Some id => negb (String.eqb id removed)
                                         | None => true
                                         end) rest = rest)
      by (apply IH; intros y Hy; apply Hfresh; now right).
    destruct (NetworkInterface.id x) as [id|]; [|now rewrite Hrest].
    destruct (String.eqb id removed) eqn:Eid.
    - apply String.eqb_eq in Eid. exfalso. apply Hx. now left.
    - cbn [negb]. now rewrite Hrest. }
  rewrite Hkeep. destruct device. cbn in *. rewrite E. reflexivity.
Qed.

(** X25.  Deleting a connection right after [addConnection] accepted it
    undoes the link: when the connection's id is new, the connection was
    passed without interface ids, every device lists its interfaces and
    the two generated interface ids occur on no interface, the devices
    and the connections are again exactly those before. *)
Theorem add_then_delete_restores sourceStamp targetStamp state connection
  sourceDevice targetDevice state' :
  findById (Store.devices state) (Connection.source connection) = Some sourceDevice ->
  findById (Store.devices state) (Connection.target connection) = Some targetDevice ->
  addConnection sourceStamp targetStamp state connection = (state', None) ->
  (forall c, In c (Store.connections state) -> Connection.id c <> Connection.id connection) ->
  Connection.sourceInterfaceId connection = None ->
  Connection.targetInterfaceId connection = None ->
  (forall d, In d (Store.devices state) -> Device.interfaces d <> None) ->
  (forall d iface,
     In d (Store.devices state) -> In iface (orEmpty (Device.interfaces d)) ->
     idNotIn [generateInterfaceId sourceStamp sourceDevice (nextEthName sourceDevice);
              generateInterfaceId targetStamp targetDevice (nextEthName targetDevice)]
       iface) ->
  Store.connections state' <> Store.connections state /\
  Store.devices (deleteConnection state' (Connection.id connection)) = Store.devices state /\
  Store.connections (deleteConnection state' (Connection.id connection))
    = Store.connections state.
Proof.
  intros Hs Ht Hadd Hnew Hnos Hnot Hdef Hfresh.
  assert (Hnone : find (fun c => String.eqb (Connection.id c) (Connection.id connection))
                    (Store.connections state) = None).
  { destruct (find _ (Store.connections state)) as [c|] eqn:E; [|reflexivity].
    apply find_some in E as [Hin Heq]. apply String.eqb_eq in Heq.
    exfalso. exact (Hnew c Hin Heq). }
  assert (Hgrow : forall (l : list Connection.t) x, (l ++ [x])%list <> l).
  { intros l x H. apply (f_equal (@length _)) in H. rewrite length_app in H. cbn in H. lia. }
  destruct (find_sameId _ _ _ Hs) as [Hsid _]. destruct (find_sameId _ _ _ Ht) as [Htid _].
  revert Hadd. unfold addConnection. cbv zeta. rewrite Hs, Ht.
  destruct (existsb _ (Store.connections state)); [discriminate|].
  destruct (negb (isRouterDevice sourceDevice) && negb (isRouterDevice targetDevice));
    [discriminate|].
  destruct ((isEndpointDevice sourceDevice || isEndpointDevice targetDevice) &&
            (0 <? length (duplicateIPs (Store.devices state)))%nat); [discriminate|].
  destruct (isRouterDevice sourceDevice && isRouterDevice targetDevice) eqn:Hboth.
  - match goal with |- context [match ?x with Some _ => _ | None => _ end] =>
      destruct x end; [discriminate|].
    intros Heq. injection Heq as <-.
    set (backbone := allocateBackboneNetwork (Store.devices state)).
    set (sid := generateInterfaceId sourceStamp sourceDevice (nextEthName sourceDevice)) in *.
    set (tid := generateInterfaceId targetStamp targetDevice (nextEthName targetDevice)) in *.
    set (c' := Connection.mk _ _ _ _ _).
    set (attach := attachInterfaces _ _ _ _).
    split; [cbn [commitConnection Store.connections]; apply Hgrow|].
    unfold deleteConnection. cbn [commitConnection Store.connections Store.devices].
    rewrite (find_app_last _ _ c' Hnone) by apply String.eqb_refl.
    cbv zeta.
    cbn [c' Connection.sourceInterfaceId Connection.targetInterfaceId createRouterInterface
         NetworkInterface.id].
    fold sid tid. unfold sid at 1, tid at 1.
    rewrite !generateInterfaceId_not_empty. cbn [negb andb].
    cbn [Store.devices Store.connections].
    split.
    + rewrite map_map. rewrite <- (map_id (Store.devices state)) at 2.
      apply map_ext_in. intros d Hd.
      unfold attach, attachInterfaces, detachInterfaces.
      cbn [c' Connection.source Connection.target].
      destruct (String.eqb (Device.id d) (Device.id sourceDevice)) eqn:E1.
      * cbn [withInterfaces withIpInterfaces Device.id]. rewrite <- Hsid, E1.
        apply dropInterface_appended; [apply Hdef, Hd|].
        intros iface Hi. specialize (Hfresh d iface Hd Hi). unfold idNotIn in *.
        destruct (NetworkInterface.id iface); [|exact I]. cbn in *. tauto.
      * destruct (String.eqb (Device.id d) (Device.id targetDevice)) eqn:E2.
        -- cbn [withInterfaces withIpInterfaces Device.id]. rewrite <- Hsid, <- Htid, E1, E2.
           apply dropInterface_appended; [apply Hdef, Hd|].
           intros iface Hi. specialize (Hfresh d iface Hd Hi). unfold idNotIn in *.
           destruct (NetworkInterface.id iface); [|exact I]. cbn in *. tauto.
        -- rewrite <- Hsid, <- Htid, E1, E2. reflexivity.
    + apply (filter_app_last _ _ c' Hnone). apply String.eqb_refl.
  - destruct (getLanInterface _) as [lanInterface|]; [|discriminate].
    destruct (String.eqb _ _); [discriminate|].
    destruct (negb (isInSameSubnetHelper _ _ _)); [discriminate|].
    intros Heq. injection Heq as <-.
    split; [cbn [commitConnection Store.connections]; apply Hgrow|].
    unfold deleteConnection. cbn [commitConnection Store.connections Store.devices].
    rewrite (find_app_last _ _ connection Hnone) by apply String.eqb_refl.
    cbv zeta. rewrite Hnos, Hs, Ht, Hboth.
    cbn [Store.devices Store.connections].
    split; [reflexivity|].
    apply (filter_app_last _ _ connection Hnone). apply String.eqb_refl.
Qed.

Lemma add_then_delete_restores_witness :
  Store.devices (deleteConnection Editing.backboned "c1") = Store.devices Editing.unwired /\
  Store.connections (deleteConnection Editing.backboned "c1")
    = Store.connections Editing.unwired.
Proof.
  refine (proj2 (add_then_delete_restores Editing.stampA Editing.stampB Editing.unwired
                   (Editing.link "c1" "r1" "r2") Editing.R1 Editing.R2 Editing.backboned
                   _ _ _ _ _ _ _ _)); try reflexivity.
  - intros c [].
  - intros d [<- | [<- | [<- | []]]]; discriminate.
  - intros d iface [<- | [<- | [<- | []]]] Hi; cbn in Hi;
      repeat (destruct Hi as [<- | Hi]); try contradiction; exact I.
Defined.

(** ** Successive backbone links *)

Lemma ethName_not_LAN index : ethName index <> "LAN".
Proof. unfold ethName. cbn. discriminate. Qed.

(** X26.  A backbone network is not handed out twice in a row: in a
    topology of fewer than 2^53 interfaces, once [addConnection] has
    accepted a link between two routers, the index it used is in use, so
    the next allocation gives another index and another subnet. *)
Theorem backbone_not_reused sourceStamp targetStamp state connection
  sourceDevice targetDevice state' :
  (Z.of_nat (interfaceCount (Store.devices state)) < 2 ^ 53)%Z ->
  findById (Store.devices state) (Connection.source connection) = Some sourceDevice ->
  findById (Store.devices state) (Connection.target connection) = Some targetDevice ->
  isRouterDevice sourceDevice = true -> isRouterDevice targetDevice = true ->
  addConnection sourceStamp targetStamp state connection = (state', None) ->
  usesBackboneIndex (Store.devices state')
    (ofZ (Z.of_nat (allocatedIndex (Store.devices state)))) /\
  allocatedIndex (Store.devices state') <> allocatedIndex (Store.devices state) /\
  Backbone.subnet (allocateBackboneNetwork (Store.devices state'))
    <> Backbone.subnet (allocateBackboneNetwork (Store.devices state)).
Proof.
  intros Hsmall Hs Ht Hrs Hrt. unfold addConnection. cbv zeta. rewrite Hs, Ht.
  destruct (existsb _ (Store.connections state)); [discriminate|].
  rewrite Hrs, Hrt. cbn [negb andb].
  destruct ((isEndpointDevice sourceDevice || isEndpointDevice targetDevice) &&
            (0 <? length (duplicateIPs (Store.devices state)))%nat); [discriminate|].
  match goal with |- context [match ?x with Some _ => _ | None => _ end] =>
    destruct x end; [discriminate|].
  intros Heq. injection Heq as <-. cbn [commitConnection Store.devices].
  set (index := allocatedIndex (Store.devices state)).
  set (sourceInterface := createRouterInterface sourceStamp sourceDevice _ _ _).
  set (targetInterface := createRouterInterface targetStamp targetDevice _ _ _).
  set (attach := attachInterfaces sourceDevice targetDevice sourceInterface targetInterface).
  destruct (find_sameId _ _ _ Hs) as [_ Hsin].
  destruct (firstUnused_spec (collectUsedBackboneIndices (Store.devices state)))
    as (_ & _ & Hlen).
  fold (allocatedIndex (Store.devices state)) in Hlen. fold index in Hlen.
  pose proof (collectUsedBackboneIndices_length (Store.devices state)) as Hcount.
  assert (Hused : usesBackboneIndex (map attach (Store.devices state))
                    (ofZ (Z.of_nat index))).
  { exists (attach sourceDevice), sourceInterface.
    split; [now apply in_map|].
    split; [unfold isRouterDevice, attach; rewrite (proj1 (proj2 (proj2
              (attachInterfaces_edits sourceDevice targetDevice sourceInterface
                 targetInterface sourceDevice)))); exact Hrs|].
    split.
    { unfold attach, attachInterfaces. rewrite String.eqb_refl.
      cbn [withInterfaces withIpInterfaces Device.interfaces orEmpty].
      apply in_app_iff. right. now left. }
    unfold readsIndex, sourceInterface, createRouterInterface.
    cbn [NetworkInterface.ip NetworkInterface.name].
    rewrite backboneAddress_dotted.
    rewrite split_quad_text by (try reflexivity; apply natToString_dotFree).
    cbn [length nth].
    split; [unfold dotted; cbn; discriminate|].
    split; [apply ethName_not_LAN|].
    split; [lia|]. split; [reflexivity|]. split; [reflexivity|].
    unfold natToString.
    destruct (Number_intToString_exact (Z.of_nat index)) as [k ->]; [lia|].
    split; [reflexivity|]. rewrite sameValueZero_scaled. apply Z.eqb_refl. }
  split; [exact Hused|].
  assert (Hdiff : allocatedIndex (map attach (Store.devices state)) <> index).
  { intros Heq.
    destruct (firstUnused_spec (collectUsedBackboneIndices (map attach (Store.devices state))))
      as (Hfree & _ & _).
    fold (allocatedIndex (map attach (Store.devices state))) in Hfree. rewrite Heq in Hfree.
    apply collectUsedBackboneIndices_has in Hused. congruence. }
  split; [exact Hdiff|].
  change (Backbone.subnet (allocateBackboneNetwork (map attach (Store.devices state))))
    with (dotted "10" "0" (natToString (allocatedIndex (map attach (Store.devices state))))
            "0").
  change (Backbone.subnet (allocateBackboneNetwork (Store.devices state)))
    with (dotted "10" "0" (natToString index) "0").
  intros Heq. apply dotted_inj in Heq as (_ & _ & Hc & _);
    try reflexivity; try apply natToString_dotFree.
  apply Hdiff. unfold natToString in Hc. apply intToString_inj in Hc; lia.
Qed.

Lemma backbone_not_reused_witness :
  allocatedIndex (Store.devices Editing.backboned)
    <> allocatedIndex (Store.devices Editing.unwired).
Proof.
  refine (proj1 (proj2 (backbone_not_reused Editing.stampA Editing.stampB Editing.unwired
                          (Editing.link "c1" "r1" "r2") Editing.R1 Editing.R2
                          Editing.backboned _ _ _ _ _ _))); reflexivity.
Defined.

(** ** Deleting a link that records no interface ids *)

Lemma scanInterfaces_invariant targetInterfaces :
  forall sourceInterfaces (seen : list NetworkInterface.t) found,
    (found = (None, None) \/
     exists sourceIface targetIface,
       In sourceIface (seen ++ sourceInterfaces)%list /\ In targetIface targetInterfaces /\
       isLan sourceIface = false /\ isLan targetIface = false /\
       getNetwork (NetworkInterface.ip sourceIface)
         = getNetwork (NetworkInterface.ip targetIface) /\
       found = (NetworkInterface.id sourceIface, NetworkInterface.id targetIface)) ->
    let result := scanInterfaces sourceInterfaces targetInterfaces found in
    result = (None, None) \/
    exists sourceIface targetIface,
      In sourceIface (seen ++ sourceInterfaces)%list /\ In targetIface targetInterfaces /\
      isLan sourceIface = false /\ isLan targetIface = false /\
      getNetwork (NetworkInterface.ip sourceIface)
        = getNetwork (NetworkInterface.ip targetIface) /\
      result = (NetworkInterface.id sourceIface, NetworkInterface.id targetIface).
Proof.
  induction sourceInterfaces as [|sourceIface rest IH]; intros seen found Hfound;
    cbn [scanInterfaces]; [exact Hfound|].
  assert (Hshift : forall x, In x ((seen ++ [sourceIface]) ++ rest)%list <->
                             In x (seen ++ sourceIface :: rest)%list)
    by (intros x; rewrite <- app_assoc; reflexivity).
  assert (Hnext : forall found',
            (found' = (None, None) \/
             exists s t,
               In s (seen ++ sourceIface :: rest)%list /\ In t targetInterfaces /\
               isLan s = false /\ isLan t = false /\
               getNetwork (NetworkInterface.ip s) = getNetwork (NetworkInterface.ip t) /\
               found' = (NetworkInterface.id s, NetworkInterface.id t)) ->
            let result := scanInterfaces rest targetInterfaces found' in
            result = (None, None) \/
            exists s t,
              In s (seen ++ sourceIface :: rest)%list /\ In t targetInterfaces /\
              isLan s = false /\ isLan t = false /\
              getNetwork (NetworkInterface.ip s) = getNetwork (NetworkInterface.ip t) /\
              result = (NetworkInterface.id s, NetworkInterface.id t)).
  { intros found' H. cbv zeta.
    destruct (IH (seen ++ [sourceIface])%list found') as [Hr | (s & t & Hs & Hrest)].
    - destruct H as [H | (s & t & Hs & Hrest)]; [now left|].
      right. exists s, t. split; [apply Hshift, Hs | exact Hrest].
    - now left.
    - right. exists s, t. split; [apply Hshift, Hs | exact Hrest]. }
  destruct (isLan sourceIface) eqn:Hlan; [apply Hnext, Hfound|].
  cbv zeta.
  set (found' := match find _ targetInterfaces with
                 | Some targetIface => _
                 | None => found
                 end).
  assert (Hfound' : found' = (None, None) \/
            exists s t,
              In s (seen ++ sourceIface :: rest)%list /\ In t targetInterfaces /\
              isLan s = false /\ isLan t = false /\
              getNetwork (NetworkInterface.ip s) = getNetwork (NetworkInterface.ip t) /\
              found' = (NetworkInterface.id s, NetworkInterface.id t)).
  { unfold found'. destruct (find _ targetInterfaces) as [targetIface|] eqn:Hfind;
      [|exact Hfound].
    apply find_some in Hfind as [Hin Hmatch]. apply andb_true_iff in Hmatch as [Hl Hn].
    apply negb_true_iff in Hl. apply String.eqb_eq in Hn.
    right. exists sourceIface, targetIface.
    split; [apply in_app_iff; right; now left|]. auto. }
  destruct (truthy (fst found')); [exact Hfound' | apply Hnext, Hfound'].
Qed.

(** X27.  For a link that records no interface ids, [deleteConnection]
    picks the interfaces to remove by search, and the pair it picks is
    sound: the two ids belong to an interface of the source router and
    one of the target router, neither named LAN, whose addresses lie on
    the same network. *)
Theorem scanInterfaces_finds_linked_pair sourceInterfaces targetInterfaces
  sourceIfaceToRemove targetIfaceToRemove :
  scanInterfaces sourceInterfaces targetInterfaces (None, None)
    = (Some sourceIfaceToRemove, Some targetIfaceToRemove) ->
  exists sourceIface targetIface,
    In sourceIface sourceInterfaces /\ In targetIface targetInterfaces /\
    NetworkInterface.name sourceIface <> "LAN" /\
    NetworkInterface.name targetIface <> "LAN" /\
    getNetwork (NetworkInterface.ip sourceIface)
      = getNetwork (NetworkInterface.ip targetIface) /\
    NetworkInterface.id sourceIface = Some sourceIfaceToRemove /\
    NetworkInterface.id targetIface = Some targetIfaceToRemove.
Proof.
  intros H.
  destruct (scanInterfaces_invariant targetInterfaces sourceInterfaces [] (None, None))
    as [Hnone | (s & t & Hs & Ht & Hls & Hlt & Hnet & Heq)]; [now left | congruence|].
  rewrite H in Heq. injection Heq as Hsid Htid.
  exists s, t. unfold isLan in Hls, Hlt. apply String.eqb_neq in Hls, Hlt. auto 10.
Qed.

Lemma scanInterfaces_finds_linked_pair_witness :
  exists sourceIface targetIface,
    In sourceIface (orEmpty (Device.interfaces (withInterfaces Editing.R1
         (Some [Editing.lan "192.168.1.1";
                createRouterInterface Editing.stampA Editing.R1 "eth1" "10.0.0.1"
                  "10.0.0.0"])))) /\
    In targetIface (orEmpty (Device.interfaces (withInterfaces Editing.R2
         (Some [Editing.lan "192.168.2.1";
                createRouterInterface Editing.stampB Editing.R2 "eth1" "10.0.0.2"
                  "10.0.0.0"])))) /\
    NetworkInterface.name sourceIface <> "LAN" /\
    NetworkInterface.name targetIface <> "LAN" /\
    getNetwork (NetworkInterface.ip sourceIface)
      = getNetwork (NetworkInterface.ip targetIface) /\
    NetworkInterface.id sourceIface = Some "r1-eth1-lx2k9f3a-k3j9" /\
    NetworkInterface.id targetIface = Some "r2-eth1-lx2k9f3b-p0q7".
Proof.
  apply (scanInterfaces_finds_linked_pair _ _ "r1-eth1-lx2k9f3a-k3j9" "r2-eth1-lx2k9f3b-p0q7").
  vm_compute. reflexivity.
Defined.

(** ** Round trips carry the request path and its reverse *)

Lemma simulateRouting_success_shape devices connections sourceIP destIP showSteps r :
  simulateRouting devices connections sourceIP destIP showSteps = Returned r ->
  SimulationResult.success r = true ->
  (exists sourceDevice, findByIp devices sourceIP = Some sourceDevice) /\
  exists d front, In d devices /\ Device.ip d = destIP /\
                  SimulationResult.path r = (front ++ [Device.name d])%list.
Proof.
  unfold simulateRouting, findByIp. intros H.
  destruct (validateIP sourceIP); cbn [negb] in H; [|injection H as <-; discriminate].
  destruct (validateIP destIP); cbn [negb] in H; [|injection H as <-; discriminate].
  destruct (find _ devices) as [sourceDevice|] eqn:E; [|injection H as <-; discriminate].
  destruct (find_some _ _ E) as [Hin Hip]. apply String.eqb_eq in Hip.
  intros Hok. split; [eauto|].
  destruct (String.eqb_spec sourceIP destIP) as [Heq | Hne].
  - injection H as <-. exists sourceDevice, []. subst. auto.
  - destruct (routingLoop_shape devices connections destIP showSteps maxHops sourceDevice
                0%nat _ _ _ [] r eq_refl Hin H) as (_ & Hdest & _).
    exact (Hdest Hok).
Qed.

Lemma lastName_snoc front name : lastName (front ++ [name])%list = name.
Proof. unfold lastName. apply last_last. Qed.

Lemma length_snoc_pos {A : Type} (front : list A) x : (0 <? length (front ++ [x])%list)%nat = true.
Proof. apply Nat.ltb_lt. rewrite length_app. cbn. lia. Qed.

(** What [simulateDNSQuery] makes of the request route. *)
Lemma simulateDNSQuery_outcome toLowerCase devices connections sourceIP dnsServerIP domain
  requestRoute r :
  simulateRouting devices connections sourceIP dnsServerIP false = Returned requestRoute ->
  simulateDNSQuery toLowerCase devices connections sourceIP dnsServerIP domain = Returned r ->
  (SimulationResult.success r = true ->
   SimulationResult.success requestRoute = true /\
   SimulationResult.path r = SimulationResult.path requestRoute /\
   SimulationResult.requestPath r = Some (SimulationResult.path requestRoute) /\
   SimulationResult.responsePath r = Some (rev (SimulationResult.path requestRoute))) /\
  (SimulationResult.success requestRoute = true ->
   (SimulationResult.success r = false ->
    SimulationResult.requestPath r = None /\ SimulationResult.responsePath r = None) /\
   (SimulationResult.success r = true <->
    exists dnsDevice,
      find (fun d => DeviceType_eqb (Device.type d) dns && String.eqb (Device.ip d) dnsServerIP)
           devices = Some dnsDevice /\
      lastName (SimulationResult.path requestRoute) = Device.name dnsDevice)).
Proof.
  intros Hroute. unfold simulateDNSQuery. rewrite Hroute.
  destruct (findByIp devices sourceIP) as [sourceDevice|] eqn:Hsource.
  2:{ intros [= <-]. split; [discriminate|]. intros Hok.
      destruct (simulateRouting_success_shape _ _ _ _ _ _ Hroute Hok) as [[s Hs] _].
      congruence. }
  destruct (find _ devices) as [dnsDevice|] eqn:Hdns.
  2:{ intros [= <-]. split; [discriminate|]. intros _.
      split; [intros _; split; reflexivity|].
      split; [discriminate | intros (d & Hd & _); discriminate]. }
  destruct (SimulationResult.success requestRoute) eqn:Hok.
  - destruct (simulateRouting_success_shape _ _ _ _ _ _ Hroute Hok)
      as (_ & d & front & _ & _ & Hpath).
    rewrite Hpath, length_snoc_pos, lastName_snoc. cbn [andb].
    destruct (String.eqb_spec (Device.name d) (Device.name dnsDevice)) as [Hname | Hname];
      cbn [negb]; intros [= <-]; cbn.
    + split; [auto|]. intros _. split; [discriminate|].
      split; [intros _; eauto | reflexivity].
    + split; [discriminate|]. intros _. split; [auto|].
      split; [discriminate|]. intros (d' & [= <-] & Hl). congruence.
  - cbn [andb]. intros [= <-]. cbn. split; discriminate.
Qed.

(** What [simulateHTTPRequest] makes of the request route. *)
Lemma simulateHTTPRequest_outcome devices connections sourceIP targetIP httpSuccess statusCode
  httpMessage requestRoute r :
  simulateRouting devices connections sourceIP targetIP false = Returned requestRoute ->
  simulateHTTPRequest devices connections sourceIP targetIP httpSuccess statusCode httpMessage
  = Returned r ->
  (SimulationResult.success r = true ->
   SimulationResult.success requestRoute = true /\
   SimulationResult.path r = SimulationResult.path requestRoute /\
   SimulationResult.requestPath r = Some (SimulationResult.path requestRoute) /\
   SimulationResult.responsePath r = Some (rev (SimulationResult.path requestRoute))) /\
  (SimulationResult.success requestRoute = true ->
   (SimulationResult.success r = false ->
    SimulationResult.requestPath r = None /\ SimulationResult.responsePath r = None) /\
   (SimulationResult.success r = true <->
    exists targetDevice,
      findByIp devices targetIP = Some targetDevice /\
      Device.type targetDevice = web /\
      lastName (SimulationResult.path requestRoute) = Device.name targetDevice)).
Proof.
  intros Hroute. unfold simulateHTTPRequest. cbv zeta.
  destruct (findByIp devices targetIP) as [targetDevice|] eqn:Htarget.
  2:{ intros [= <-]. split; [discriminate|]. intros _.
      split; [intros _; split; reflexivity|].
      split; [discriminate | intros (d & Hd & _); discriminate]. }
  destruct (DeviceType_eqb (Device.type targetDevice) web) eqn:Hweb; cbn [negb].
  2:{ intros [= <-]. split; [discriminate|]. intros _.
      split; [intros _; split; reflexivity|].
      split; [discriminate|]. intros (d & [= <-] & Ht & _). rewrite Ht in Hweb. discriminate. }
  assert (Htype : Device.type targetDevice = web)
    by (destruct (Device.type targetDevice); try discriminate; reflexivity).
  rewrite Hroute.
  destruct (SimulationResult.success requestRoute) eqn:Hok.
  - destruct (simulateRouting_success_shape _ _ _ _ _ _ Hroute Hok)
      as (_ & d & front & _ & _ & Hpath).
    rewrite Hpath, length_snoc_pos, lastName_snoc. cbn [andb].
    destruct (String.eqb_spec (Device.name d) (Device.name targetDevice)) as [Hname | Hname];
      cbn [negb]; intros [= <-]; cbn.
    + split; [auto|]. intros _. split; [discriminate|].
      split; [intros _; eauto | reflexivity].
    + split; [discriminate|]. intros _. split; [auto|].
      split; [discriminate|]. intros (d' & [= <-] & _ & Hl). congruence.
  - cbn [andb]. intros [= <-]. cbn. split; discriminate.
Qed.

(** C4.  A DNS or HTTP result that succeeds carries the path of the
    request route as its request path and the reverse of it as its
    response path, and the request route succeeded.  When the request
    route succeeds, a response path the result carries is the reverse of
    the request path it carries; the result succeeds exactly when the
    route ends at the server in question (the first DNS device with the
    address, or the first device with the address when it is a web
    server), and otherwise it is a failure that carries neither path. *)
Theorem response_path_reverses_request toLowerCase devices connections sourceIP targetIP
  requestRoute r :
  simulateRouting devices connections sourceIP targetIP false = Returned requestRoute ->
  (exists domain,
      simulateDNSQuery toLowerCase devices connections sourceIP targetIP domain = Returned r) \/
  (exists httpSuccess statusCode httpMessage,
      simulateHTTPRequest devices connections sourceIP targetIP httpSuccess statusCode
        httpMessage = Returned r) ->
  (SimulationResult.success r = true ->
   SimulationResult.success requestRoute = true /\
   SimulationResult.path r = SimulationResult.path requestRoute /\
   SimulationResult.requestPath r = Some (SimulationResult.path requestRoute) /\
   SimulationResult.responsePath r = Some (rev (SimulationResult.path requestRoute))) /\
  (SimulationResult.success requestRoute = true ->
   (forall rp,
      SimulationResult.responsePath r = Some rp ->
      SimulationResult.requestPath r = Some (SimulationResult.path requestRoute) /\
      rp = rev (SimulationResult.path requestRoute)) /\
   (SimulationResult.success r = false ->
    SimulationResult.requestPath r = None /\ SimulationResult.responsePath r = None) /\
   ((exists domain,
       simulateDNSQuery toLowerCase devices connections sourceIP targetIP domain = Returned r) ->
    (SimulationResult.success r = true <->
     exists dnsDevice,
       find (fun d => DeviceType_eqb (Device.type d) dns && String.eqb (Device.ip d) targetIP)
            devices = Some dnsDevice /\
       lastName (SimulationResult.path requestRoute) = Device.name dnsDevice)) /\
   ((exists httpSuccess statusCode httpMessage,
       simulateHTTPRequest devices connections sourceIP targetIP httpSuccess statusCode
         httpMessage = Returned r) ->
    (SimulationResult.success r = true <->
     exists targetDevice,
       findByIp devices targetIP = Some targetDevice /\
       Device.type targetDevice = web /\
       lastName (SimulationResult.path requestRoute) = Device.name targetDevice))).
Proof.
  intros Hroute Hlayer.
  assert (Hcommon :
    (SimulationResult.success r = true ->
     SimulationResult.success requestRoute = true /\
     SimulationResult.path r = SimulationResult.path requestRoute /\
     SimulationResult.requestPath r = Some (SimulationResult.path requestRoute) /\
     SimulationResult.responsePath r = Some (rev (SimulationResult.path requestRoute))) /\
    (SimulationResult.success requestRoute = true ->
     SimulationResult.success r = false ->
     SimulationResult.requestPath r = None /\ SimulationResult.responsePath r = None)).
  { destruct Hlayer as [(domain & H) | (httpSuccess & statusCode & httpMessage & H)].
    - destruct (simulateDNSQuery_outcome _ _ _ _ _ _ _ _ Hroute H) as [Hs Hr].
      split; [exact Hs|]. intros Hok. apply (Hr Hok).
    - destruct (simulateHTTPRequest_outcome _ _ _ _ _ _ _ _ _ Hroute H) as [Hs Hr].
      split; [exact Hs|]. intros Hok. apply (Hr Hok). }
  destruct Hcommon as [Hsuccess Hfailure].
  split; [exact Hsuccess|]. intros Hok.
  split; [|split; [exact (Hfailure Hok)|split]].
  - intros rp Hrp.
    destruct (SimulationResult.success r) eqn:Hr.
    + destruct (Hsuccess eq_refl) as (_ & _ & Hreq & Hresp). split; [exact Hreq | congruence].
    + destruct (Hfailure Hok eq_refl) as [_ Hnone]. congruence.
  - intros (domain & H).
    apply (simulateDNSQuery_outcome _ _ _ _ _ _ _ _ Hroute H), Hok.
  - intros (httpSuccess & statusCode & httpMessage & H).
    apply (simulateHTTPRequest_outcome _ _ _ _ _ _ _ _ _ Hroute H), Hok.
Qed.

Lemma response_path_reverses_request_witness :
  SimulationResult.requestPath
    (SimulationResult.mk true ["PC1"; "R1"; "R2"; "DNS1"]
       ("✅ DNS查询完成" ++ nl ++ "PC1 ⇄ DNS1" ++ nl
        ++ "域名: www.school.com → IP: 192.168.2.80")
       [] (Some true) (Some ["PC1"; "R1"; "R2"; "DNS1"])
       (Some ["DNS1"; "R2"; "R1"; "PC1"]) (Some "🔍 DNS查询: www.school.com")
       (Some "✅ 返回IP: 192.168.2.80") None None)
  = Some ["PC1"; "R1"; "R2"; "DNS1"] /\
  SimulationResult.responsePath
    (SimulationResult.mk true ["PC1"; "R1"; "R2"; "DNS1"]
       ("✅ DNS查询完成" ++ nl ++ "PC1 ⇄ DNS1" ++ nl
        ++ "域名: www.school.com → IP: 192.168.2.80")
       [] (Some true) (Some ["PC1"; "R1"; "R2"; "DNS1"])
       (Some ["DNS1"; "R2"; "R1"; "PC1"]) (Some "🔍 DNS查询: www.school.com")
       (Some "✅ 返回IP: 192.168.2.80") None None)
  = Some (rev ["PC1"; "R1"; "R2"; "DNS1"]).
Proof.
  destruct (response_path_reverses_request toLowerAscii Sample.services Sample.servicesLinks
              "192.168.1.10" "192.168.2.50"
              (SimulationResult.plain true ["PC1"; "R1"; "R2"; "DNS1"] (msgArrived 2) [])
              (SimulationResult.mk true ["PC1"; "R1"; "R2"; "DNS1"]
                 ("✅ DNS查询完成" ++ nl ++ "PC1 ⇄ DNS1" ++ nl
                  ++ "域名: www.school.com → IP: 192.168.2.80")
                 [] (Some true) (Some ["PC1"; "R1"; "R2"; "DNS1"])
                 (Some ["DNS1"; "R2"; "R1"; "PC1"]) (Some "🔍 DNS查询: www.school.com")
                 (Some "✅ 返回IP: 192.168.2.80") None None))
    as [Hsuccess _].
  - vm_compute. reflexivity.
  - left. exists "www.school.com". vm_compute. reflexivity.
  - destruct (Hsuccess eq_refl) as (_ & _ & Hreq & Hresp). split; assumption.
Defined.

(** An example for C4: with a web server listed before the DNS server on
    the same address, the request route succeeds and ends at the web
    server, and the DNS result is a failure that carries neither path. *)
Lemma wrong_device_result_carries_no_paths :
  exists requestRoute r,
    simulateRouting Shadowed.devices Shadowed.links "192.168.1.10" "192.168.2.50" false
      = Returned requestRoute /\
    SimulationResult.success requestRoute = true /\
    SimulationResult.path requestRoute = ["PC1"; "R1"; "R2"; "WEBX"] /\
    simulateDNSQuery toLowerAscii Shadowed.devices Shadowed.links "192.168.1.10"
      "192.168.2.50" "www.school.com" = Returned r /\
    SimulationResult.success r = false /\
    SimulationResult.path r = ["PC1"; "R1"; "R2"; "WEBX"] /\
    SimulationResult.requestPath r = None /\
    SimulationResult.responsePath r = None.
Proof.
  eexists _, _. split; [vm_compute; reflexivity|].
  split; [reflexivity|]. split; [reflexivity|].
  split; [vm_compute; reflexivity|]. repeat split.
Qed.
